(** * The stage agents of the DPR aspiration pipeline

    A shallow embedding of [src/core/agents/absorb_agent.py],
    [compile_agent.py] and [followup_agent.py]: the three [invoke]
    operations, the fence stripping they apply to the generation client's
    text, the relevance filter of the aggregation stage and the guard of
    the action-planning stage.

    Python values are modelled dynamically (a [pyval] carries its own
    type), exceptions by an outcome type, and the two effects the agents
    have -- the call to the generation client and the assignment to the
    local variable [cost] that the [except] handler reads back -- by a
    state monad over [store]. *)

From Stdlib Require Import String Ascii.
From Stdlib Require Import List NArith ZArith Bool Lia PrimFloat Uint63 DecimalString.
Import ListNotations.
Local Open Scope list_scope.

(** ** Python text

    A [str] is a sequence of Unicode code points. *)

Definition str := list N.

(** An ASCII literal of the source, as code points. *)
Definition lit (s : string) : str := map N_of_ascii (list_ascii_of_string s).

(** The double quote and the line feed, which a literal cannot hold. *)
Definition dquote : str := [34%N].
Definition nl : str := [10%N].

(** A literal between double quotes. *)
Definition quoted (s : string) : str := dquote ++ lit s ++ dquote.

(** The lines of a triple-quoted literal, joined by line feeds. *)
Fixpoint lines (l : list str) : str :=
  match l with
  | [] => []
  | [x] => x
  | x :: rest => x ++ nl ++ lines rest
  end.

(** [a == b] on text. *)
Fixpoint str_eqb (a b : str) : bool :=
  match a, b with
  | [], [] => true
  | c :: a', d :: b' => N.eqb c d && str_eqb a' b'
  | _, _ => false
  end.

(** [s.startswith(p)]. *)
Fixpoint startswith (s p : str) {struct p} : bool :=
  match p, s with
  | [], _ => true
  | c :: p', d :: s' => N.eqb c d && startswith s' p'
  | _ :: _, [] => false
  end.

(** [s.endswith(p)]. *)
Definition endswith (s p : str) : bool := startswith (rev s) (rev p).

(** [s[k:]] for a literal [k >= 0]. *)
Definition slice_from (k : nat) (s : str) : str := skipn k s.

(** [s[:-k]] for a literal [k > 0]: the end index [len(s) - k] is clamped
    at 0, which the truncated subtraction does. *)
Definition slice_until_last (k : nat) (s : str) : str :=
  firstn (List.length s - k) s.

(** [c.isspace()]: the code points Python counts as whitespace. *)
Definition isspace (c : N) : bool :=
  ((9 <=? c) && (c <=? 13) || (28 <=? c) && (c <=? 32)
   || (c =? 133) || (c =? 160) || (c =? 5760)
   || (8192 <=? c) && (c <=? 8202)
   || (c =? 8232) || (c =? 8233) || (c =? 8239) || (c =? 8287)
   || (c =? 12288))%N.

Fixpoint lstrip (s : str) : str :=
  match s with
  | c :: rest => if isspace c then lstrip rest else s
  | [] => []
  end.

Definition rstrip (s : str) : str := rev (lstrip (rev s)).

(** [s.strip()]. *)
Definition strip (s : str) : str := rstrip (lstrip s).

(** [str(n)] for an integer. *)
Definition str_of_int (z : Z) : str := lit (NilZero.string_of_int (Z.to_int z)).

(** ** Python values

    What [json.loads] can return and what the response metadata holds:
    [None], booleans, integers, floats, text, lists, and dictionaries with
    text keys (insertion ordered, so an association list; a key occurs at
    most once in a dictionary, and [dict_lookup] reads the first
    binding). *)

#[warnings="-register-all"]
Inductive pyval :=
| VNone
| VBool (b : bool)
| VInt (z : Z)
| VFloat (f : float)
| VStr (s : str)
| VList (l : list pyval)
| VDict (d : list (str * pyval)).

Fixpoint dict_lookup (d : list (str * pyval)) (k : str) : option pyval :=
  match d with
  | [] => None
  | (k', v) :: rest => if str_eqb k' k then Some v else dict_lookup rest k
  end.

(** [type(v).__name__]. *)
Definition type_name (v : pyval) : string :=
  match v with
  | VNone => "NoneType"
  | VBool _ => "bool"
  | VInt _ => "int"
  | VFloat _ => "float"
  | VStr _ => "str"
  | VList _ => "list"
  | VDict _ => "dict"
  end.

(** [v == s] for a text literal [s]: only text equals text. *)
Definition eq_text (v : pyval) (s : str) : bool :=
  match v with
  | VStr t => str_eqb t s
  | _ => false
  end.

(** [v in [a, b, ...]] for text literals. *)
Definition in_texts (v : pyval) (l : list str) : bool := existsb (eq_text v) l.

(** ** Exceptions

    An exception is kept as what the agents can observe of it: whether it
    is an instance of [Exception] (what [except Exception] catches; a
    cancellation or an interpreter exit is not) and its [str(e)]. *)

Record exn := { is_Exception : bool; str_of_exn : str }.

Definition Exception (msg : str) : exn :=
  {| is_Exception := true; str_of_exn := msg |}.

(** The exception an attribute access on a value without that attribute
    raises. *)
Definition AttributeError (v : pyval) (attr : string) : exn :=
  Exception (lit "'" ++ lit (type_name v) ++ lit "' object has no attribute '"
             ++ lit attr ++ lit "'").

Inductive outcome (A : Type) :=
| Ret (a : A)
| Raise (e : exn).

Arguments Ret {A} a.
Arguments Raise {A} e.

(** A library call that either raises an [Exception] with the given text
    or returns. *)
Definition of_sum {A : Type} (r : str + A) : outcome A :=
  match r with
  | inl msg => Raise (Exception msg)
  | inr a => Ret a
  end.

(** ** The data of the pipeline

    The model classes live in the [models] package.  A field that the
    agents fill from the decoded JSON holds whatever value was found there,
    so it is a [pyval]; a field the agents fill from their own literals or
    computations has that type. *)

Module DPRMember.
Record t := { id : pyval; to_prompt_context : str }.
End DPRMember.

Module Aspirasi.
Record t := {
  id : pyval;
  content : str;
  category : str;
  priority : str;
  to_prompt_context : str
}.
End Aspirasi.

Module AbsorpsiResponse.
Record t := {
  member_id : pyval;
  aspirasi_id : pyval;
  relevansi : pyval;
  alasan_relevansi : pyval;
  poin_kunci : pyval;
  rekomendasi_awal : pyval;
  error : option str;
  cost_usd : float
}.
End AbsorpsiResponse.

Module KompilasiResponse.
Record t := {
  status : str;
  jumlah_anggota : Z;
  ringkasan : pyval;
  tema_utama : pyval;
  fraksi_terlibat : pyval;
  rekomendasi_tindak_lanjut : pyval;
  error : option str;
  cost_usd : float
}.
End KompilasiResponse.

Module TindakLanjutResponse.
Record t := {
  langkah_tindak_lanjut : pyval;
  komisi_penanggung_jawab : pyval;
  timeline : pyval;
  indikator_keberhasilan : pyval;
  mekanisme : pyval;
  estimasi_anggaran : pyval;
  rincian_anggaran : pyval;
  sumber_dana : pyval;
  error : option str;
  cost_usd : float
}.
End TindakLanjutResponse.

(** The model classes are declared in the [models] package, which is not
    part of the sources; the three definitions below stand for the
    defaults they give the fields that a constructor call leaves out.  The
    spec has a failed stage return "a result populated with empty/default
    domain fields" and gives every result an "optional error". *)

(** Modelled from the spec: the default of a text field, the empty text. *)
Definition default_text : pyval := VStr [].

(** Modelled from the spec: the default of a list field, the empty list. *)
Definition default_list : pyval := VList [].

(** Modelled from the spec: the default of the optional [error], [None]. *)
Definition default_error : option str := None.

(** ** The generation client *)

Inductive message :=
| SystemMessage (content : str)
| HumanMessage (content : str).

(** What [llm.ainvoke] returns: [content], and [response_metadata] when the
    object has that attribute. *)
Module AIMessage.
Record t := { content : pyval; response_metadata : option pyval }.
End AIMessage.

(** The calls issued so far, oldest first. *)
Definition call_log := list (list message).

(** [BaseAgent] (in [base.py], not part of the sources) gives an agent its
    client [llm] and the method [_calculate_cost].  The client is taken as
    it behaves: given the calls already issued and the messages of this
    call it returns a response or raises.  [_calculate_cost] receives the
    two token counts as found in the metadata and returns the cost or
    raises an [Exception] described by a text. *)
Record BaseAgent := {
  llm : call_log -> list message -> outcome AIMessage.t;
  _calculate_cost : pyval -> pyval -> str + float
}.

(** What the agents use from outside the repository's sources: [json.loads]
    (the decoded value, or the text of the [JSONDecodeError]),
    [json.dumps(..., indent=2, ensure_ascii=False)], and the validation the
    model classes run on construction ([None] when the object is accepted,
    the text of the raised error otherwise). *)
Record Env := {
  json_loads : str -> str + pyval;
  json_dumps : pyval -> str;
  validate_AbsorpsiResponse : AbsorpsiResponse.t -> option str;
  validate_KompilasiResponse : KompilasiResponse.t -> option str;
  validate_TindakLanjutResponse : TindakLanjutResponse.t -> option str
}.

(** ** Effects

    [calls] is the history of the generation client; [cost] is the local
    variable of [invoke] that the [try] body assigns and the handler
    reads. *)

Record store := { calls : call_log; cost : float }.

Definition M (A : Type) : Type := store -> outcome A * store.

Definition ret {A : Type} (a : A) : M A := fun st => (Ret a, st).

Definition raise {A : Type} (e : exn) : M A := fun st => (Raise e, st).

Definition bind {A B : Type} (m : M A) (f : A -> M B) : M B :=
  fun st =>
    match m st with
    | (Ret a, st') => f a st'
    | (Raise e, st') => (Raise e, st')
    end.

Definition lift {A : Type} (o : outcome A) : M A := fun st => (o, st).

Declare Scope py_scope.
Delimit Scope py_scope with py.
Notation "x <- m ;; k" := (bind m (fun x => k))
  (at level 61, m at next level, right associativity) : py_scope.
Notation "m ;; k" := (bind m (fun _ => k))
  (at level 61, right associativity) : py_scope.
Local Open Scope py_scope.

(** [try: body except Exception as e: handler e].  An exception that is not
    an instance of [Exception] passes through. *)
Definition try_except {A : Type} (body : M A) (handler : exn -> M A) : M A :=
  fun st =>
    match body st with
    | (Ret a, st') => (Ret a, st')
    | (Raise e, st') =>
        if is_Exception e then handler e st' else (Raise e, st')
    end.

(** [cost = c]. *)
Definition set_cost (c : float) : M unit :=
  fun st => (Ret tt, {| calls := calls st; cost := c |}).

(** Reading the local variable [cost]. *)
Definition get_cost : M float := fun st => (Ret (cost st), st).

(** [await self.llm.ainvoke(messages)]: the call is issued, whatever its
    outcome. *)
Definition ainvoke (self : BaseAgent) (messages : list message) : M AIMessage.t :=
  fun st =>
    (llm self (calls st) messages,
     {| calls := calls st ++ [messages]; cost := cost st |}).

(** [v.get(key, default)]: only dictionaries have [get]. *)
Definition py_get (v : pyval) (key : string) (default : pyval) : outcome pyval :=
  match v with
  | VDict d =>
      Ret (match dict_lookup d (lit key) with Some x => x | None => default end)
  | _ => Raise (AttributeError v "get")
  end.

(** Building a model object: the class validates it. *)
Definition construct {A : Type} (validate : A -> option str) (a : A) : outcome A :=
  match validate a with
  | None => Ret a
  | Some msg => Raise (Exception msg)
  end.

(** ** What the three [invoke] bodies share

    The statements between the client call and the construction of the
    result are the same, line for line, in the three agents
    ([absorb_agent.py] 70-88, [compile_agent.py] 102-120,
    [followup_agent.py] 119-137); they are embedded once. *)

(** "Calculate cost from token usage": when the response has metadata, the
    cost of its token usage is assigned to [cost]. *)
Definition charge_usage (self : BaseAgent) (response : AIMessage.t) : M unit :=
  match AIMessage.response_metadata response with
  | Some metadata =>
      usage <- lift (py_get metadata "token_usage" (VDict [])) ;;
      prompt_tokens <- lift (py_get usage "prompt_tokens" (VInt 0)) ;;
      completion_tokens <- lift (py_get usage "completion_tokens" (VInt 0)) ;;
      c <- lift (of_sum (_calculate_cost self prompt_tokens completion_tokens)) ;;
      set_cost c
  | None => ret tt
  end.

(** The text handed to [json.loads]: the three [if] statements and the
    [strip()]. *)
Definition strip_fences (content : str) : str :=
  let content :=
    if startswith content (lit "```json") then slice_from 7 content else content in
  let content :=
    if startswith content (lit "```") then slice_from 3 content else content in
  let content :=
    if endswith content (lit "```") then slice_until_last 3 content else content in
  strip content.

(** "Parse JSON response".  A content that is not text has no
    [startswith]. *)
Definition parse_content (E : Env) (content : pyval) : outcome pyval :=
  match content with
  | VStr s => of_sum (json_loads E (strip_fences s))
  | _ => Raise (AttributeError content "startswith")
  end.

(** From the client call to the decoded value: lines 68-88 of
    [absorb_agent.py] and their copies. *)
Definition call_and_parse (E : Env) (self : BaseAgent)
    (messages : list message) : M pyval :=
  response <- ainvoke self messages ;;
  charge_usage self response ;;
  lift (parse_content E (AIMessage.content response)).

Definition is_None {A : Type} (o : option A) : bool :=
  match o with
  | None => true
  | Some _ => false
  end.

(** ** Step 1: [AbsorbAgent] *)

Module AbsorbAgent.

Definition get_system_prompt : str :=
  lines [
    lit "Anda adalah seorang anggota DPR RI yang bertugas menyerap dan menganalisis aspirasi rakyat.";
    lit "Tugas Anda adalah:";
    lit "1. Memahami dan menganalisis aspirasi dari perspektif daerah pemilihan Anda";
    lit "2. Menentukan relevansi aspirasi dengan konstituensi Anda";
    lit "3. Mengidentifikasi poin-poin kunci yang perlu ditindaklanjuti";
    [];
    lit "Selalu berikan respons dalam format JSON yang valid." ].

Definition _build_user_prompt (member : DPRMember.t) (aspirasi : Aspirasi.t) : str :=
  lines [
    lit "Anda adalah anggota DPR RI:";
    DPRMember.to_prompt_context member;
    [];
    lit "Aspirasi rakyat yang masuk:";
    Aspirasi.to_prompt_context aspirasi;
    [];
    lit "Tugas Anda:";
    lit "1. Pahami dan analisis aspirasi ini dari perspektif daerah pemilihan Anda";
    lit "2. Tentukan apakah aspirasi ini relevan dengan konstituensi Anda";
    lit "3. Identifikasi poin-poin kunci yang perlu ditindaklanjuti";
    [];
    lit "Berikan respons dalam format JSON:";
    lit "{";
    lit "    " ++ quoted "relevansi" ++ lit ": " ++ quoted "Tinggi/Sedang/Rendah" ++ lit ",";
    lit "    " ++ quoted "alasan_relevansi" ++ lit ": " ++ quoted "penjelasan singkat" ++ lit ",";
    lit "    " ++ quoted "poin_kunci" ++ lit ": [" ++ quoted "poin1" ++ lit ", "
      ++ quoted "poin2" ++ lit ", ...],";
    lit "    " ++ quoted "rekomendasi_awal" ++ lit ": " ++ quoted "saran tindak lanjut";
    lit "}" ].

(** The result of the [except] branch. *)
Definition failed (member : DPRMember.t) (aspirasi : Aspirasi.t)
    (e : exn) (c : float) : AbsorpsiResponse.t :=
  {| AbsorpsiResponse.member_id := DPRMember.id member;
     AbsorpsiResponse.aspirasi_id := Aspirasi.id aspirasi;
     AbsorpsiResponse.relevansi := VStr (lit "rendah");
     AbsorpsiResponse.alasan_relevansi := VStr [];
     AbsorpsiResponse.poin_kunci := VList [];
     AbsorpsiResponse.rekomendasi_awal := VStr [];
     AbsorpsiResponse.error := Some (str_of_exn e);
     AbsorpsiResponse.cost_usd := c |}.

(** The body of the [try] statement. *)
Definition attempt (E : Env) (self : BaseAgent)
    (member : DPRMember.t) (aspirasi : Aspirasi.t)
    (messages : list message) : M AbsorpsiResponse.t :=
  result <- call_and_parse E self messages ;;
  relevansi <- lift (py_get result "relevansi" (VStr (lit "rendah"))) ;;
  alasan_relevansi <- lift (py_get result "alasan_relevansi" (VStr [])) ;;
  poin_kunci <- lift (py_get result "poin_kunci" (VList [])) ;;
  rekomendasi_awal <- lift (py_get result "rekomendasi_awal" (VStr [])) ;;
  c <- get_cost ;;
  lift (construct (validate_AbsorpsiResponse E)
    {| AbsorpsiResponse.member_id := DPRMember.id member;
       AbsorpsiResponse.aspirasi_id := Aspirasi.id aspirasi;
       AbsorpsiResponse.relevansi := relevansi;
       AbsorpsiResponse.alasan_relevansi := alasan_relevansi;
       AbsorpsiResponse.poin_kunci := poin_kunci;
       AbsorpsiResponse.rekomendasi_awal := rekomendasi_awal;
       AbsorpsiResponse.error := default_error;
       AbsorpsiResponse.cost_usd := c |}).

(** The [except Exception as e] branch. *)
Definition handler (E : Env) (member : DPRMember.t) (aspirasi : Aspirasi.t)
    (e : exn) : M AbsorpsiResponse.t :=
  c <- get_cost ;;
  lift (construct (validate_AbsorpsiResponse E) (failed member aspirasi e c)).

Definition invoke (E : Env) (self : BaseAgent)
    (member : DPRMember.t) (aspirasi : Aspirasi.t) : M AbsorpsiResponse.t :=
  let messages :=
    [ SystemMessage get_system_prompt;
      HumanMessage (_build_user_prompt member aspirasi) ] in
  set_cost 0%float ;;
  try_except (attempt E self member aspirasi messages) (handler E member aspirasi).

End AbsorbAgent.

(** ** Step 2: [CompileAgent] *)

Module CompileAgent.

Definition get_system_prompt : str :=
  lines [
    lit "Anda adalah staff ahli DPR yang bertugas mengompilasi masukan dari para anggota DPR.";
    lit "Tugas Anda adalah:";
    lit "1. Merangkum konsensus dari para anggota";
    lit "2. Mengidentifikasi pola dan tema umum";
    lit "3. Menyusun rekomendasi tindak lanjut yang komprehensif";
    [];
    lit "Selalu berikan respons dalam format JSON yang valid." ].

Definition _build_user_prompt (E : Env) (aspirasi : Aspirasi.t)
    (responses : list AbsorpsiResponse.t) : str :=
  let responses_data :=
    map (fun r =>
           VDict [ (lit "member_id", AbsorpsiResponse.member_id r);
                   (lit "relevansi", AbsorpsiResponse.relevansi r);
                   (lit "alasan_relevansi", AbsorpsiResponse.alasan_relevansi r);
                   (lit "poin_kunci", AbsorpsiResponse.poin_kunci r);
                   (lit "rekomendasi_awal", AbsorpsiResponse.rekomendasi_awal r) ])
        (filter (fun r => is_None (AbsorpsiResponse.error r)) responses) in
  lines [
    lit "Anda adalah staff ahli DPR yang mengompilasi masukan dari "
      ++ str_of_int (Z.of_nat (List.length responses_data)) ++ lit " anggota DPR.";
    [];
    lit "Aspirasi: " ++ Aspirasi.content aspirasi;
    lit "Kategori: " ++ Aspirasi.category aspirasi;
    [];
    lit "Tanggapan anggota:";
    json_dumps E (VList responses_data);
    [];
    lit "Tugas Anda:";
    lit "1. Rangkum konsensus dari para anggota";
    lit "2. Identifikasi pola dan tema umum";
    lit "3. Susun rekomendasi tindak lanjut yang komprehensif";
    [];
    lit "Berikan respons dalam format JSON:";
    lit "{";
    lit "    " ++ quoted "ringkasan" ++ lit ": " ++ quoted "ringkasan konsensus" ++ lit ",";
    lit "    " ++ quoted "tema_utama" ++ lit ": [" ++ quoted "tema1" ++ lit ", "
      ++ quoted "tema2" ++ lit ", ...],";
    lit "    " ++ quoted "fraksi_terlibat" ++ lit ": [" ++ quoted "fraksi1" ++ lit ", "
      ++ quoted "fraksi2" ++ lit ", ...],";
    lit "    " ++ quoted "rekomendasi_tindak_lanjut" ++ lit ": "
      ++ quoted "rekomendasi detail";
    lit "}" ].

(** The condition of the comprehension at lines 82-84. *)
Definition is_relevant (r : AbsorpsiResponse.t) : bool :=
  in_texts (AbsorpsiResponse.relevansi r) [lit "Tinggi"; lit "Sedang"]
  && is_None (AbsorpsiResponse.error r).

(** The result of the guard at lines 86-91. *)
Definition not_relevant : KompilasiResponse.t :=
  {| KompilasiResponse.status := lit "tidak_relevan";
     KompilasiResponse.jumlah_anggota := 0;
     KompilasiResponse.ringkasan := default_text;
     KompilasiResponse.tema_utama := default_list;
     KompilasiResponse.fraksi_terlibat := default_list;
     KompilasiResponse.rekomendasi_tindak_lanjut := default_text;
     KompilasiResponse.error := default_error;
     KompilasiResponse.cost_usd := 0%float |}.

(** The result of the [except] branch. *)
Definition failed (relevant_responses : list AbsorpsiResponse.t)
    (e : exn) (c : float) : KompilasiResponse.t :=
  {| KompilasiResponse.status := lit "error";
     KompilasiResponse.jumlah_anggota := Z.of_nat (List.length relevant_responses);
     KompilasiResponse.ringkasan := default_text;
     KompilasiResponse.tema_utama := default_list;
     KompilasiResponse.fraksi_terlibat := default_list;
     KompilasiResponse.rekomendasi_tindak_lanjut := default_text;
     KompilasiResponse.error := Some (str_of_exn e);
     KompilasiResponse.cost_usd := c |}.

(** The body of the [try] statement. *)
Definition attempt (E : Env) (self : BaseAgent)
    (relevant_responses : list AbsorpsiResponse.t)
    (messages : list message) : M KompilasiResponse.t :=
  result <- call_and_parse E self messages ;;
  ringkasan <- lift (py_get result "ringkasan" (VStr [])) ;;
  tema_utama <- lift (py_get result "tema_utama" (VList [])) ;;
  fraksi_terlibat <- lift (py_get result "fraksi_terlibat" (VList [])) ;;
  rekomendasi <- lift (py_get result "rekomendasi_tindak_lanjut" (VStr [])) ;;
  c <- get_cost ;;
  lift (construct (validate_KompilasiResponse E)
    {| KompilasiResponse.status := lit "terkumpul";
       KompilasiResponse.jumlah_anggota := Z.of_nat (List.length relevant_responses);
       KompilasiResponse.ringkasan := ringkasan;
       KompilasiResponse.tema_utama := tema_utama;
       KompilasiResponse.fraksi_terlibat := fraksi_terlibat;
       KompilasiResponse.rekomendasi_tindak_lanjut := rekomendasi;
       KompilasiResponse.error := default_error;
       KompilasiResponse.cost_usd := c |}).

(** The [except Exception as e] branch. *)
Definition handler (E : Env) (relevant_responses : list AbsorpsiResponse.t)
    (e : exn) : M KompilasiResponse.t :=
  c <- get_cost ;;
  lift (construct (validate_KompilasiResponse E) (failed relevant_responses e c)).

Definition invoke (E : Env) (self : BaseAgent)
    (aspirasi : Aspirasi.t) (responses : list AbsorpsiResponse.t)
    : M KompilasiResponse.t :=
  let relevant_responses := filter is_relevant responses in
  match relevant_responses with
  | [] => lift (construct (validate_KompilasiResponse E) not_relevant)
  | _ :: _ =>
      let messages :=
        [ SystemMessage get_system_prompt;
          HumanMessage (_build_user_prompt E aspirasi relevant_responses) ] in
      set_cost 0%float ;;
      try_except (attempt E self relevant_responses messages)
                 (handler E relevant_responses)
  end.

End CompileAgent.

(** ** Step 3: [FollowUpAgent] *)

Module FollowUpAgent.

Definition get_system_prompt : str :=
  lines [
    lit "Anda adalah Ketua Komisi terkait di DPR RI yang bertugas menentukan tindak lanjut aspirasi rakyat.";
    lit "Tugas Anda adalah:";
    lit "1. Menentukan langkah konkret tindak lanjut";
    lit "2. Menentukan komisi atau badan yang bertanggung jawab";
    lit "3. Membuat timeline pelaksanaan";
    lit "4. Menentukan indikator keberhasilan";
    lit "5. MENGHITUNG dan menentukan estimasi anggaran yang dibutuhkan (dalam Rupiah)";
    lit "6. Merinci alokasi anggaran per item/langkah";
    lit "7. Menentukan sumber dana yang tepat (APBN, APBD, atau kombinasi)";
    [];
    lit "PENTING: Anda harus memberikan estimasi anggaran yang realistis berdasarkan:";
    lit "- Harga pasar saat ini untuk barang/jasa terkait";
    lit "- Skala dan cakupan program yang diusulkan";
    lit "- Pengalaman program serupa di masa lalu";
    lit "- Standar biaya pemerintah Indonesia";
    [];
    lit "Selalu berikan respons dalam format JSON yang valid." ].

Definition _build_user_prompt (E : Env) (aspirasi : Aspirasi.t)
    (kompilasi : KompilasiResponse.t) : str :=
  let kompilasi_data :=
    VDict [ (lit "status", VStr (KompilasiResponse.status kompilasi));
            (lit "jumlah_anggota", VInt (KompilasiResponse.jumlah_anggota kompilasi));
            (lit "ringkasan", KompilasiResponse.ringkasan kompilasi);
            (lit "tema_utama", KompilasiResponse.tema_utama kompilasi);
            (lit "fraksi_terlibat", KompilasiResponse.fraksi_terlibat kompilasi);
            (lit "rekomendasi_tindak_lanjut",
             KompilasiResponse.rekomendasi_tindak_lanjut kompilasi) ] in
  lines [
    lit "Anda adalah Ketua Komisi terkait di DPR RI.";
    [];
    lit "Aspirasi rakyat: " ++ Aspirasi.content aspirasi;
    lit "Kategori: " ++ Aspirasi.category aspirasi;
    lit "Prioritas: " ++ Aspirasi.priority aspirasi;
    [];
    lit "Hasil kompilasi dari "
      ++ str_of_int (KompilasiResponse.jumlah_anggota kompilasi) ++ lit " anggota:";
    json_dumps E kompilasi_data;
    [];
    lit "Tugas Anda:";
    lit "1. Tentukan langkah konkret tindak lanjut";
    lit "2. Tentukan komisi atau badan yang bertanggung jawab";
    lit "3. Buat timeline pelaksanaan";
    lit "4. Tentukan indikator keberhasilan";
    lit "5. HITUNG estimasi anggaran yang realistis (dalam Rupiah)";
    lit "6. Rinci alokasi anggaran per langkah/item";
    lit "7. Tentukan sumber dana (APBN/APBD/kombinasi)";
    [];
    lit "Berikan respons dalam format JSON:";
    lit "{";
    lit "    " ++ quoted "langkah_tindak_lanjut" ++ lit ": [" ++ quoted "langkah1"
      ++ lit ", " ++ quoted "langkah2" ++ lit ", ...],";
    lit "    " ++ quoted "komisi_penanggung_jawab" ++ lit ": " ++ quoted "nama komisi"
      ++ lit ",";
    lit "    " ++ quoted "timeline" ++ lit ": " ++ quoted "estimasi waktu" ++ lit ",";
    lit "    " ++ quoted "indikator_keberhasilan" ++ lit ": [" ++ quoted "indikator1"
      ++ lit ", " ++ quoted "indikator2" ++ lit ", ...],";
    lit "    " ++ quoted "mekanisme" ++ lit ": " ++ quoted "RDP/Hearing/Kunjungan Kerja/dll"
      ++ lit ",";
    lit "    " ++ quoted "estimasi_anggaran" ++ lit ": "
      ++ quoted "Total estimasi anggaran (misal: Rp 15.5 miliar untuk 2 tahun)" ++ lit ",";
    lit "    " ++ quoted "rincian_anggaran" ++ lit ": [";
    lit "        " ++ quoted "Item 1: Rp X miliar - deskripsi" ++ lit ",";
    lit "        " ++ quoted "Item 2: Rp Y miliar - deskripsi" ++ lit ",";
    lit "        ...";
    lit "    ],";
    lit "    " ++ quoted "sumber_dana" ++ lit ": "
      ++ quoted "Sumber dana usulan (misal: APBN 70% (Kementerian X) + APBD Provinsi Y 30%)";
    lit "}" ].

(** The result of the guard at lines 99-108 and of the [except] branch:
    the two differ in [error] and [cost_usd] only. *)
Definition empty_plan (error : str) (c : float) : TindakLanjutResponse.t :=
  {| TindakLanjutResponse.langkah_tindak_lanjut := VList [];
     TindakLanjutResponse.komisi_penanggung_jawab := VStr [];
     TindakLanjutResponse.timeline := VStr [];
     TindakLanjutResponse.indikator_keberhasilan := VList [];
     TindakLanjutResponse.mekanisme := VStr [];
     TindakLanjutResponse.estimasi_anggaran := default_text;
     TindakLanjutResponse.rincian_anggaran := default_list;
     TindakLanjutResponse.sumber_dana := default_text;
     TindakLanjutResponse.error := Some error;
     TindakLanjutResponse.cost_usd := c |}.

Definition no_valid_compilation : str :=
  lit "Tidak ada kompilasi yang valid untuk ditindaklanjuti".

(** The body of the [try] statement. *)
Definition attempt (E : Env) (self : BaseAgent)
    (messages : list message) : M TindakLanjutResponse.t :=
  result <- call_and_parse E self messages ;;
  langkah <- lift (py_get result "langkah_tindak_lanjut" (VList [])) ;;
  komisi <- lift (py_get result "komisi_penanggung_jawab" (VStr [])) ;;
  timeline <- lift (py_get result "timeline" (VStr [])) ;;
  indikator <- lift (py_get result "indikator_keberhasilan" (VList [])) ;;
  mekanisme <- lift (py_get result "mekanisme" (VStr [])) ;;
  estimasi <- lift (py_get result "estimasi_anggaran" (VStr [])) ;;
  rincian <- lift (py_get result "rincian_anggaran" (VList [])) ;;
  sumber <- lift (py_get result "sumber_dana" (VStr [])) ;;
  c <- get_cost ;;
  lift (construct (validate_TindakLanjutResponse E)
    {| TindakLanjutResponse.langkah_tindak_lanjut := langkah;
       TindakLanjutResponse.komisi_penanggung_jawab := komisi;
       TindakLanjutResponse.timeline := timeline;
       TindakLanjutResponse.indikator_keberhasilan := indikator;
       TindakLanjutResponse.mekanisme := mekanisme;
       TindakLanjutResponse.estimasi_anggaran := estimasi;
       TindakLanjutResponse.rincian_anggaran := rincian;
       TindakLanjutResponse.sumber_dana := sumber;
       TindakLanjutResponse.error := default_error;
       TindakLanjutResponse.cost_usd := c |}).

(** The [except Exception as e] branch. *)
Definition handler (E : Env) (e : exn) : M TindakLanjutResponse.t :=
  c <- get_cost ;;
  lift (construct (validate_TindakLanjutResponse E) (empty_plan (str_of_exn e) c)).

Definition invoke (E : Env) (self : BaseAgent)
    (aspirasi : Aspirasi.t) (kompilasi : KompilasiResponse.t)
    : M TindakLanjutResponse.t :=
  if negb (str_eqb (KompilasiResponse.status kompilasi) (lit "terkumpul")) then
    lift (construct (validate_TindakLanjutResponse E)
            (empty_plan no_valid_compilation 0%float))
  else
    let messages :=
      [ SystemMessage get_system_prompt;
        HumanMessage (_build_user_prompt E aspirasi kompilasi) ] in
    set_cost 0%float ;;
    try_except (attempt E self messages) (handler E).

End FollowUpAgent.

(** ** Instances of the parameters

    Concrete values for what the agents take from outside, on which the
    definitions above can be run. *)

Module Instances.

(** The whitespace of JSON. *)
Definition json_space (c : N) : bool :=
  ((c =? 32) || (c =? 9) || (c =? 10) || (c =? 13))%N.

Fixpoint skip_space (s : str) : str :=
  match s with
  | c :: rest => if json_space c then skip_space rest else s
  | [] => []
  end.

Definition is_digit (c : N) : bool := ((48 <=? c) && (c <=? 57))%N.

(** The character an escape [\c] stands for ([\u] is not covered). *)
Definition unescape (c : N) : option N :=
  (if c =? 34 then Some 34
   else if c =? 92 then Some 92
   else if c =? 47 then Some 47
   else if c =? 98 then Some 8
   else if c =? 102 then Some 12
   else if c =? 110 then Some 10
   else if c =? 114 then Some 13
   else if c =? 116 then Some 9
   else None)%N.

(** The rest of a string after its opening quote: its text and what
    follows the closing quote. *)
Fixpoint string_body (s : str) (acc : str) : option (str * str) :=
  match s with
  | [] => None
  | c :: rest =>
      if (c =? 34)%N then Some (rev acc, rest)
      else if (c =? 92)%N then
        match rest with
        | e :: rest' =>
            match unescape e with
            | Some x => string_body rest' (x :: acc)
            | None => None
            end
        | [] => None
        end
      else if (c <? 32)%N then None
      else string_body rest (c :: acc)
  end.

Fixpoint digits (s : str) (acc : Z) : Z * str :=
  match s with
  | c :: rest =>
      if is_digit c then digits rest (10 * acc + (Z.of_N c - 48)) else (acc, s)
  | [] => (acc, [])
  end.

(** An integer: no leading zero, no fraction and no exponent. *)
Definition integer (s : str) : option (pyval * str) :=
  let '(negative, s1) :=
    match s with
    | c :: rest => if (c =? 45)%N then (true, rest) else (false, s)
    | [] => (false, s)
    end in
  match s1 with
  | c :: rest =>
      if negb (is_digit c) then None
      else
        let '(z, s2) := if (c =? 48)%N then (0%Z, rest) else digits s1 0 in
        match s2 with
        | d :: _ =>
            if is_digit d || (d =? 46)%N || (d =? 101)%N || (d =? 69)%N then None
            else Some (VInt (if negative then - z else z), s2)
        | [] => Some (VInt (if negative then - z else z), s2)
        end
  | [] => None
  end.

(** [d[k] = v]: a key already present keeps its place. *)
Fixpoint dict_set (d : list (str * pyval)) (k : str) (v : pyval)
    : list (str * pyval) :=
  match d with
  | [] => [(k, v)]
  | (k', v') :: rest =>
      if str_eqb k' k then (k', v) :: rest else (k', v') :: dict_set rest k v
  end.

Fixpoint value (fuel : nat) (s : str) {struct fuel} : option (pyval * str) :=
  match fuel with
  | O => None
  | S fuel' =>
      let s := skip_space s in
      match s with
      | [] => None
      | c :: rest =>
          if (c =? 123)%N then
            match skip_space rest with
            | d :: rest' =>
                if (d =? 125)%N then Some (VDict [], rest')
                else members fuel' rest []
            | [] => None
            end
          else if (c =? 91)%N then
            match skip_space rest with
            | d :: rest' =>
                if (d =? 93)%N then Some (VList [], rest')
                else elements fuel' rest []
            | [] => None
            end
          else if (c =? 34)%N then
            match string_body rest [] with
            | Some (t, rest') => Some (VStr t, rest')
            | None => None
            end
          else if startswith s (lit "true") then Some (VBool true, skipn 4 s)
          else if startswith s (lit "false") then Some (VBool false, skipn 5 s)
          else if startswith s (lit "null") then Some (VNone, skipn 4 s)
          else integer s
      end
  end
with elements (fuel : nat) (s : str) (acc : list pyval) {struct fuel}
    : option (pyval * str) :=
  match fuel with
  | O => None
  | S fuel' =>
      match value fuel' s with
      | Some (v, rest) =>
          match skip_space rest with
          | c :: rest' =>
              if (c =? 44)%N then elements fuel' rest' (v :: acc)
              else if (c =? 93)%N then Some (VList (rev (v :: acc)), rest')
              else None
          | [] => None
          end
      | None => None
      end
  end
with members (fuel : nat) (s : str) (acc : list (str * pyval)) {struct fuel}
    : option (pyval * str) :=
  match fuel with
  | O => None
  | S fuel' =>
      match skip_space s with
      | q :: rest =>
          if negb (q =? 34)%N then None
          else
            match string_body rest [] with
            | Some (k, rest1) =>
                match skip_space rest1 with
                | c :: rest2 =>
                    if negb (c =? 58)%N then None
                    else
                      match value fuel' rest2 with
                      | Some (v, rest3) =>
                          match skip_space rest3 with
                          | d :: rest4 =>
                              if (d =? 44)%N then
                                members fuel' rest4 (dict_set acc k v)
                              else if (d =? 125)%N then
                                Some (VDict (dict_set acc k v), rest4)
                              else None
                          | [] => None
                          end
                      | None => None
                      end
                | [] => None
                end
            | None => None
            end
      | [] => None
      end
  end.

(** A decoder for JSON texts without fractions, exponents and [\u]
    escapes, standing for [json.loads] in the examples; any other text is
    rejected, and the error text is not the library's. *)
Definition mini_json_loads (s : str) : str + pyval :=
  match value (2 * List.length s + 2) s with
  | Some (v, rest) =>
      match skip_space rest with
      | [] => inr v
      | _ :: _ => inl (lit "Extra data")
      end
  | None => inl (lit "Expecting value")
  end.

Definition is_text (v : pyval) : bool :=
  match v with
  | VStr _ => true
  | _ => false
  end.

Definition is_text_list (v : pyval) : bool :=
  match v with
  | VList l => forallb is_text l
  | _ => false
  end.

Definition reject_unless (ok : bool) : option str :=
  if ok then None else Some (lit "validation error").

(** Model classes that check the declared field types: text, and lists of
    text. *)
Definition typed_AbsorpsiResponse (r : AbsorpsiResponse.t) : option str :=
  reject_unless
    (is_text (AbsorpsiResponse.relevansi r)
     && is_text (AbsorpsiResponse.alasan_relevansi r)
     && is_text_list (AbsorpsiResponse.poin_kunci r)
     && is_text (AbsorpsiResponse.rekomendasi_awal r)).

Definition typed_KompilasiResponse (r : KompilasiResponse.t) : option str :=
  reject_unless
    (is_text (KompilasiResponse.ringkasan r)
     && is_text_list (KompilasiResponse.tema_utama r)
     && is_text_list (KompilasiResponse.fraksi_terlibat r)
     && is_text (KompilasiResponse.rekomendasi_tindak_lanjut r)).

Definition typed_TindakLanjutResponse (r : TindakLanjutResponse.t) : option str :=
  reject_unless
    (is_text_list (TindakLanjutResponse.langkah_tindak_lanjut r)
     && is_text (TindakLanjutResponse.komisi_penanggung_jawab r)
     && is_text (TindakLanjutResponse.timeline r)
     && is_text_list (TindakLanjutResponse.indikator_keberhasilan r)
     && is_text (TindakLanjutResponse.mekanisme r)
     && is_text (TindakLanjutResponse.estimasi_anggaran r)
     && is_text_list (TindakLanjutResponse.rincian_anggaran r)
     && is_text (TindakLanjutResponse.sumber_dana r)).

(** The environment of the examples; the prompts' JSON rendering is not
    looked at and is left empty. *)
Definition env : Env :=
  {| json_loads := mini_json_loads;
     json_dumps := fun _ => [];
     validate_AbsorpsiResponse := typed_AbsorpsiResponse;
     validate_KompilasiResponse := typed_KompilasiResponse;
     validate_TindakLanjutResponse := typed_TindakLanjutResponse |}.

(** Modelled from the spec: [_calculate_cost] of [BaseAgent] ([base.py] is
    not part of the sources), "(prompt_tokens/1000)*prompt_rate +
    (completion_tokens/1000)*completion_rate", at the default rates of
    [settings.py], for token counts below 2^63. *)
#[warnings="-inexact-float"]
Definition settings_cost (prompt_tokens completion_tokens : pyval) : str + float :=
  let number v :=
    match v with
    | VInt z =>
        if ((0 <=? z) && (z <? 2 ^ 63))%Z then Some (of_uint63 (Uint63.of_Z z))
        else None
    | VFloat f => Some f
    | _ => None
    end in
  match number prompt_tokens, number completion_tokens with
  | Some p, Some c => inr ((p / 1000) * 0.0001 + (c / 1000) * 0.0004)%float
  | _, _ => inl (lit "unsupported operand type(s) for /")
  end.

(** The metadata of a response that used [p] prompt and [c] completion
    tokens. *)
Definition usage_metadata (p c : Z) : pyval :=
  VDict [ (lit "token_usage",
           VDict [ (lit "prompt_tokens", VInt p);
                   (lit "completion_tokens", VInt c) ]) ].

(** An agent whose client answers every call with the same response. *)
Definition replying (content : pyval) (metadata : option pyval) : BaseAgent :=
  {| llm := fun _ _ =>
       Ret {| AIMessage.content := content;
              AIMessage.response_metadata := metadata |};
     _calculate_cost := settings_cost |}.

(** An agent whose client fails every call with the same [Exception]. *)
Definition unreachable (msg : str) : BaseAgent :=
  {| llm := fun _ _ => Raise (Exception msg);
     _calculate_cost := settings_cost |}.

Definition member : DPRMember.t :=
  {| DPRMember.id := VStr (lit "DPR-001");
     DPRMember.to_prompt_context := lit "Fraksi A, Dapil Jawa Barat I" |}.

Definition aspirasi : Aspirasi.t :=
  {| Aspirasi.id := VStr (lit "ASP-001");
     Aspirasi.content := lit "Perbaikan jalan desa";
     Aspirasi.category := lit "Infrastruktur";
     Aspirasi.priority := lit "Tinggi";
     Aspirasi.to_prompt_context := lit "Perbaikan jalan desa (Infrastruktur)" |}.

(** An evaluation with the given relevance and error. *)
Definition evaluation (relevansi : pyval) (error : option str) : AbsorpsiResponse.t :=
  {| AbsorpsiResponse.member_id := VStr (lit "DPR-001");
     AbsorpsiResponse.aspirasi_id := VStr (lit "ASP-001");
     AbsorpsiResponse.relevansi := relevansi;
     AbsorpsiResponse.alasan_relevansi := VStr [];
     AbsorpsiResponse.poin_kunci := VList [];
     AbsorpsiResponse.rekomendasi_awal := VStr [];
     AbsorpsiResponse.error := error;
     AbsorpsiResponse.cost_usd := 0%float |}.

(** A client that answers with text that is not JSON, and one that answers
    with a fenced object. *)
Definition garbled : BaseAgent :=
  replying (VStr (lit "Maaf, saya tidak dapat membantu.")) (Some (usage_metadata 1000 500)).

Definition fenced_reply : str :=
  lit "```json" ++ nl ++ lit "{" ++ quoted "relevansi" ++ lit ": " ++ quoted "Tinggi"
  ++ lit ", " ++ quoted "ringkasan" ++ lit ": " ++ quoted "Disetujui" ++ lit "}"
  ++ nl ++ lit "```".

Definition helpful : BaseAgent :=
  replying (VStr fenced_reply) (Some (usage_metadata 1000 500)).

(** A client whose answer is an object without the key "relevansi". *)
Definition incomplete_reply : str :=
  lit "{" ++ quoted "alasan_relevansi" ++ lit ": " ++ quoted "Di luar dapil" ++ lit "}".

Definition incomplete : BaseAgent :=
  replying (VStr incomplete_reply) (Some (usage_metadata 1000 500)).

(** An aggregation that was collected from [n] members. *)
Definition collected (n : Z) : KompilasiResponse.t :=
  {| KompilasiResponse.status := lit "terkumpul";
     KompilasiResponse.jumlah_anggota := n;
     KompilasiResponse.ringkasan := VStr (lit "Disetujui");
     KompilasiResponse.tema_utama := VList [];
     KompilasiResponse.fraksi_terlibat := VList [];
     KompilasiResponse.rekomendasi_tindak_lanjut := VStr [];
     KompilasiResponse.error := None;
     KompilasiResponse.cost_usd := 0%float |}.

(** Three evaluations of which none counts, and three of which two do. *)
Definition none_relevant : list AbsorpsiResponse.t :=
  [ evaluation (VStr (lit "Rendah")) None;
    evaluation (VStr (lit "Tinggi")) (Some (lit "timeout"));
    evaluation (VStr (lit "rendah")) (Some (lit "Expecting value")) ].

Definition two_relevant : list AbsorpsiResponse.t :=
  [ evaluation (VStr (lit "Tinggi")) None;
    evaluation (VStr (lit "Rendah")) None;
    evaluation (VStr (lit "Sedang")) None ].

(** The store before any call. *)
Definition fresh : store := {| calls := []; cost := 0%float |}.

(** The object [{"a":1}] inside a fence tagged [python]. *)
Definition python_fenced_object : str :=
  lit "```python" ++ nl ++ lit "{" ++ quoted "a" ++ lit ":1}" ++ nl ++ lit "```".

(** The number 1 after a [json] marker and a second fence. *)
Definition doubly_fenced_number : str := lit "```json```1".

(** A client whose call is cancelled: what it raises is not an instance of
    [Exception]. *)
Definition cancelled : BaseAgent :=
  {| llm := fun _ _ => Raise {| is_Exception := false; str_of_exn := [] |};
     _calculate_cost := settings_cost |}.

(** The two texts of the parser's round trip: the object [{"a":1}] inside
    a [json] fence, and bare. *)
Definition bare_object : str := lit "{" ++ quoted "a" ++ lit ":1}".
Definition fenced_object : str := lit "```json" ++ nl ++ bare_object ++ nl ++ lit "```".

End Instances.

(** ** Vocabulary of the properties *)

(** Whatever the client raises is an instance of [Exception] (a transport
    error, a timeout), not a cancellation or an interpreter exit. *)
Definition client_raises_Exception (self : BaseAgent) : Prop :=
  forall log messages e, llm self log messages = Raise e -> is_Exception e = true.

(** The model classes accept the objects the agents build from their own
    literals. *)
Definition accepts_failed_evaluation (E : Env) : Prop :=
  forall member aspirasi e c,
    validate_AbsorpsiResponse E (AbsorbAgent.failed member aspirasi e c) = None.

Definition accepts_not_relevant (E : Env) : Prop :=
  validate_KompilasiResponse E CompileAgent.not_relevant = None.

Definition accepts_failed_compilation (E : Env) : Prop :=
  forall relevant_responses e c,
    validate_KompilasiResponse E (CompileAgent.failed relevant_responses e c) = None.

Definition accepts_empty_plan (E : Env) : Prop :=
  forall msg c,
    validate_TindakLanjutResponse E (FollowUpAgent.empty_plan msg c) = None.

(** The store once [cost = 0.0] has run. *)
Definition started (st : store) : store := {| calls := calls st; cost := 0%float |}.

(** The store once the call has been issued and [cost] holds [c]. *)
Definition called (st : store) (messages : list message) (c : float) : store :=
  {| calls := calls st ++ [messages]; cost := c |}.

Definition and_then {A B : Type} (o : outcome A) (f : A -> outcome B) : outcome B :=
  match o with
  | Ret a => f a
  | Raise e => Raise e
  end.

(** The cost a response leaves in [cost]: the cost of its token usage, and
    0 when it has no metadata. *)
Definition usage_cost (self : BaseAgent) (response : AIMessage.t) : outcome float :=
  match AIMessage.response_metadata response with
  | Some metadata =>
      and_then (py_get metadata "token_usage" (VDict [])) (fun usage =>
      and_then (py_get usage "prompt_tokens" (VInt 0)) (fun prompt_tokens =>
      and_then (py_get usage "completion_tokens" (VInt 0)) (fun completion_tokens =>
      of_sum (_calculate_cost self prompt_tokens completion_tokens))))
  | None => Ret 0%float
  end.

(** An evaluation counts for the aggregation: its relevance is the text
    "Tinggi" or the text "Sedang", and it carries no error. *)
Definition Relevant (r : AbsorpsiResponse.t) : Prop :=
  (AbsorpsiResponse.relevansi r = VStr (lit "Tinggi")
   \/ AbsorpsiResponse.relevansi r = VStr (lit "Sedang"))
  /\ AbsorpsiResponse.error r = None.

(** The number of evaluations that count for the aggregation. *)
Fixpoint count_relevant (responses : list AbsorpsiResponse.t) : nat :=
  match responses with
  | [] => 0
  | r :: rest =>
      match AbsorpsiResponse.relevansi r, AbsorpsiResponse.error r with
      | VStr s, None =>
          if str_eqb s (lit "Tinggi") || str_eqb s (lit "Sedang")
          then S (count_relevant rest)
          else count_relevant rest
      | _, _ => count_relevant rest
      end
  end.

(** The messages of each agent's call. *)
Definition absorb_messages (member : DPRMember.t) (aspirasi : Aspirasi.t)
    : list message :=
  [ SystemMessage AbsorbAgent.get_system_prompt;
    HumanMessage (AbsorbAgent._build_user_prompt member aspirasi) ].

Definition compile_messages (E : Env) (aspirasi : Aspirasi.t)
    (responses : list AbsorpsiResponse.t) : list message :=
  [ SystemMessage CompileAgent.get_system_prompt;
    HumanMessage (CompileAgent._build_user_prompt E aspirasi
                    (filter CompileAgent.is_relevant responses)) ].

Definition followup_messages (E : Env) (aspirasi : Aspirasi.t)
    (kompilasi : KompilasiResponse.t) : list message :=
  [ SystemMessage FollowUpAgent.get_system_prompt;
    HumanMessage (FollowUpAgent._build_user_prompt E aspirasi kompilasi) ].

(** A computation that, when it raises, raises an instance of
    [Exception]. *)
Definition raises_only_Exception {A : Type} (m : M A) : Prop :=
  forall st e st', m st = (Raise e, st') -> is_Exception e = true.

(** [d.get(key, default)] on a dictionary. *)
Definition get_or (d : list (str * pyval)) (key : string) (default : pyval) : pyval :=
  match dict_lookup d (lit key) with
  | Some x => x
  | None => default
  end.

(** [s] without the prefix [p] when it has it, and [s] itself otherwise. *)
Definition removes_prefix (p s s' : str) : Prop :=
  s = p ++ s' \/ ((forall r, s <> p ++ r) /\ s' = s).

(** [s] without the suffix [p] when it has it, and [s] itself otherwise. *)
Definition removes_suffix (p s s' : str) : Prop :=
  s = s' ++ p \/ ((forall r, s <> r ++ p) /\ s' = s).

(** [t] is [s] without the whitespace around it. *)
Definition trims (s t : str) : Prop :=
  exists l r,
    s = l ++ t ++ r
    /\ forallb isspace l = true
    /\ forallb isspace r = true
    /\ (forall c rest, t = c :: rest -> isspace c = false)
    /\ (forall front c, t = front ++ [c] -> isspace c = false).

(** ** The parser as the specification words it

    "Strip a leading fence-with-tag if present, else strip a leading bare
    fence if present, strip a trailing fence if present, trim surrounding
    whitespace, then parse as JSON", the marker being "3 backticks
    optionally followed by a language tag".  A language tag is read as the
    run of letters, digits and [+ - _ . #] that follows the backticks. *)

Definition is_tag_char (c : N) : bool :=
  ((65 <=? c) && (c <=? 90) || (97 <=? c) && (c <=? 122)
   || (48 <=? c) && (c <=? 57)
   || (c =? 43) || (c =? 45) || (c =? 95) || (c =? 46) || (c =? 35))%N.

Fixpoint drop_tag (s : str) : str :=
  match s with
  | c :: rest => if is_tag_char c then drop_tag rest else s
  | [] => []
  end.

Definition starts_with_tag (s : str) : bool :=
  match s with
  | c :: _ => is_tag_char c
  | [] => false
  end.

Definition spec_strip_fences (content : str) : str :=
  let after_fence := slice_from 3 content in
  let content :=
    if startswith content (lit "```") && starts_with_tag after_fence
    then drop_tag after_fence
    else if startswith content (lit "```") then after_fence
    else content in
  let content :=
    if endswith content (lit "```") then slice_until_last 3 content else content in
  strip content.

Definition spec_parse_content (E : Env) (content : pyval) : outcome pyval :=
  match content with
  | VStr s => of_sum (json_loads E (spec_strip_fences s))
  | _ => Raise (AttributeError content "startswith")
  end.

(** ** Vocabulary of the further properties *)

Definition is_dict (v : pyval) : bool :=
  match v with
  | VDict _ => true
  | _ => false
  end.

(** The object each agent builds from a decoded dictionary [d] once the
    call has been charged [c]: the constructor calls at the end of the
    three [try] bodies. *)
Definition absorb_result (member : DPRMember.t) (aspirasi : Aspirasi.t)
    (d : list (str * pyval)) (c : float) : AbsorpsiResponse.t :=
  {| AbsorpsiResponse.member_id := DPRMember.id member;
     AbsorpsiResponse.aspirasi_id := Aspirasi.id aspirasi;
     AbsorpsiResponse.relevansi := get_or d "relevansi" (VStr (lit "rendah"));
     AbsorpsiResponse.alasan_relevansi := get_or d "alasan_relevansi" (VStr []);
     AbsorpsiResponse.poin_kunci := get_or d "poin_kunci" (VList []);
     AbsorpsiResponse.rekomendasi_awal := get_or d "rekomendasi_awal" (VStr []);
     AbsorpsiResponse.error := None;
     AbsorpsiResponse.cost_usd := c |}.

Definition compile_result (relevant_responses : list AbsorpsiResponse.t)
    (d : list (str * pyval)) (c : float) : KompilasiResponse.t :=
  {| KompilasiResponse.status := lit "terkumpul";
     KompilasiResponse.jumlah_anggota := Z.of_nat (List.length relevant_responses);
     KompilasiResponse.ringkasan := get_or d "ringkasan" (VStr []);
     KompilasiResponse.tema_utama := get_or d "tema_utama" (VList []);
     KompilasiResponse.fraksi_terlibat := get_or d "fraksi_terlibat" (VList []);
     KompilasiResponse.rekomendasi_tindak_lanjut :=
       get_or d "rekomendasi_tindak_lanjut" (VStr []);
     KompilasiResponse.error := None;
     KompilasiResponse.cost_usd := c |}.

Definition followup_result (d : list (str * pyval)) (c : float)
    : TindakLanjutResponse.t :=
  {| TindakLanjutResponse.langkah_tindak_lanjut :=
       get_or d "langkah_tindak_lanjut" (VList []);
     TindakLanjutResponse.komisi_penanggung_jawab :=
       get_or d "komisi_penanggung_jawab" (VStr []);
     TindakLanjutResponse.timeline := get_or d "timeline" (VStr []);
     TindakLanjutResponse.indikator_keberhasilan :=
       get_or d "indikator_keberhasilan" (VList []);
     TindakLanjutResponse.mekanisme := get_or d "mekanisme" (VStr []);
     TindakLanjutResponse.estimasi_anggaran := get_or d "estimasi_anggaran" (VStr []);
     TindakLanjutResponse.rincian_anggaran := get_or d "rincian_anggaran" (VList []);
     TindakLanjutResponse.sumber_dana := get_or d "sumber_dana" (VStr []);
     TindakLanjutResponse.error := None;
     TindakLanjutResponse.cost_usd := c |}.

(** What a stage makes of a decoded value [v] after a call charged [c]:
    [build d] when [v] is a dictionary [d] that the model class accepts,
    [fail e] with the exception raised otherwise. *)
Definition stage_result {R : Type} (validate : R -> option str)
    (build : list (str * pyval) -> R) (fail : exn -> R) (v : pyval) : R :=
  match v with
  | VDict d =>
      match validate (build d) with
      | None => build d
      | Some msg => fail (Exception msg)
      end
  | _ => fail (AttributeError v "get")
  end.

(** Each agent whose call is answered by [response] returns a result whose
    [cost_usd] is [c]. *)
Definition each_stage_costs (E : Env) (self : BaseAgent)
    (member : DPRMember.t) (aspirasi : Aspirasi.t)
    (responses : list AbsorpsiResponse.t) (kompilasi : KompilasiResponse.t)
    (st : store) (response : AIMessage.t) (c : float) : Prop :=
  (llm self (calls st) (absorb_messages member aspirasi) = Ret response ->
   exists r st',
     AbsorbAgent.invoke E self member aspirasi st = (Ret r, st')
     /\ AbsorpsiResponse.cost_usd r = c)
  /\ (llm self (calls st) (compile_messages E aspirasi responses) = Ret response ->
      exists r st',
        CompileAgent.invoke E self aspirasi responses st = (Ret r, st')
        /\ KompilasiResponse.cost_usd r = c)
  /\ (llm self (calls st) (followup_messages E aspirasi kompilasi) = Ret response ->
      exists r st',
        FollowUpAgent.invoke E self aspirasi kompilasi st = (Ret r, st')
        /\ TindakLanjutResponse.cost_usd r = c).

(** More clients and texts on which to run the agents. *)
Module Cases.

(** A client whose response has no metadata. *)
Definition unmetered : BaseAgent :=
  Instances.replying (VStr Instances.fenced_reply) None.

(** A client whose metadata has no "token_usage". *)
Definition no_usage : BaseAgent :=
  Instances.replying (VStr Instances.fenced_reply) (Some (VDict [])).

(** A client whose metadata binds "token_usage" to [None]. *)
Definition null_usage : BaseAgent :=
  Instances.replying (VStr Instances.fenced_reply)
    (Some (VDict [(lit "token_usage", VNone)])).

(** A client that answers with a JSON list. *)
Definition listing : BaseAgent :=
  Instances.replying (VStr (lit "[1, 2]")) (Some (Instances.usage_metadata 1000 500)).

(** The answer of [Instances.helpful], as a response and decoded. *)
Definition helpful_response : AIMessage.t :=
  {| AIMessage.content := VStr Instances.fenced_reply;
     AIMessage.response_metadata := Some (Instances.usage_metadata 1000 500) |}.

Definition helpful_dict : list (str * pyval) :=
  [ (lit "relevansi", VStr (lit "Tinggi"));
    (lit "ringkasan", VStr (lit "Disetujui")) ].

(** An aggregation that failed for two relevant members. *)
Definition failed_compilation : KompilasiResponse.t :=
  CompileAgent.failed Instances.two_relevant (Exception (lit "timeout")) 0%float.

End Cases.

(** * Properties *)

(** ** Effects *)

Lemma py_get_raises v key default e :
  py_get v key default = Raise e -> is_Exception e = true.
Proof. destruct v; simpl; intros H; inversion H; reflexivity. Qed.

Lemma of_sum_raises {A : Type} (r : str + A) e :
  of_sum r = Raise e -> is_Exception e = true.
Proof. destruct r; simpl; intros H; inversion H; reflexivity. Qed.

Lemma construct_raises {A : Type} (validate : A -> option str) a e :
  construct validate a = Raise e -> is_Exception e = true.
Proof.
  unfold construct. destruct (validate a); intros H; inversion H; reflexivity.
Qed.

Lemma parse_content_raises E content e :
  parse_content E content = Raise e -> is_Exception e = true.
Proof.
  destruct content; simpl; intros H; try (inversion H; reflexivity).
  eapply of_sum_raises; eassumption.
Qed.

Lemma usage_cost_raises self response e :
  usage_cost self response = Raise e -> is_Exception e = true.
Proof.
  unfold usage_cost, and_then.
  destruct (AIMessage.response_metadata response) as [metadata|]; [|discriminate].
  destruct (py_get metadata _ _) as [usage|e1] eqn:H1;
    [|intros H; inversion H; subst; eapply py_get_raises; eassumption].
  destruct (py_get usage "prompt_tokens" _) as [p|e2] eqn:H2;
    [|intros H; inversion H; subst; eapply py_get_raises; eassumption].
  destruct (py_get usage "completion_tokens" _) as [c|e3] eqn:H3;
    [|intros H; inversion H; subst; eapply py_get_raises; eassumption].
  apply of_sum_raises.
Qed.

Lemma raises_only_Exception_lift {A : Type} (o : outcome A) :
  (forall e, o = Raise e -> is_Exception e = true) ->
  raises_only_Exception (lift o).
Proof. intros H st e st' Heq. inversion Heq; subst. now apply H. Qed.

Lemma raises_only_Exception_bind {A B : Type} (m : M A) (f : A -> M B) :
  raises_only_Exception m ->
  (forall a, raises_only_Exception (f a)) ->
  raises_only_Exception (bind m f).
Proof.
  intros Hm Hf st e st'. unfold bind.
  destruct (m st) as [[a|e1] st1] eqn:Hrun.
  - apply Hf.
  - intros H; inversion H; subst. eapply Hm; eassumption.
Qed.

Lemma raises_only_Exception_get_cost : raises_only_Exception get_cost.
Proof. intros st e st' H; inversion H. Qed.

(** What [charge_usage] does to a store whose [cost] is still 0. *)
Lemma charge_usage_eq self response st :
  cost st = 0%float ->
  charge_usage self response st =
    match usage_cost self response with
    | Ret c => (Ret tt, {| calls := calls st; cost := c |})
    | Raise e => (Raise e, st)
    end.
Proof.
  intros Hcost. unfold charge_usage, usage_cost, and_then, bind, lift, ret, set_cost.
  destruct (AIMessage.response_metadata response) as [metadata|].
  - destruct (py_get metadata _ _) as [usage|]; [|reflexivity].
    destruct (py_get usage "prompt_tokens" _) as [p|]; [|reflexivity].
    destruct (py_get usage "completion_tokens" _) as [c|]; [|reflexivity].
    destruct (_calculate_cost self p c); reflexivity.
  - destruct st as [l c]; simpl in *; now subst.
Qed.

(** The three outcomes of the shared block, on a store whose [cost] is 0:
    the call fails; the usage cannot be charged; or the cost is charged and
    the content is decoded or not.  The call is issued in each. *)
Lemma call_and_parse_eq E self messages st :
  cost st = 0%float ->
  call_and_parse E self messages st =
    match llm self (calls st) messages with
    | Raise e => (Raise e, called st messages 0%float)
    | Ret response =>
        match usage_cost self response with
        | Raise e => (Raise e, called st messages 0%float)
        | Ret c => (parse_content E (AIMessage.content response), called st messages c)
        end
    end.
Proof.
  intros Hcost. unfold call_and_parse, bind, ainvoke, called. rewrite Hcost.
  destruct (llm self (calls st) messages) as [response|e]; [|reflexivity].
  rewrite charge_usage_eq by reflexivity. simpl.
  destruct (usage_cost self response); reflexivity.
Qed.

Lemma call_and_parse_raises E self messages st e st' :
  client_raises_Exception self ->
  cost st = 0%float ->
  call_and_parse E self messages st = (Raise e, st') ->
  is_Exception e = true.
Proof.
  intros Hllm Hcost. rewrite call_and_parse_eq by assumption.
  destruct (llm self (calls st) messages) as [response|e1] eqn:Hcall.
  - destruct (usage_cost self response) as [c|e2] eqn:Hc.
    + intros H; inversion H. eapply parse_content_raises; eassumption.
    + intros H; inversion H; subst. eapply usage_cost_raises; eassumption.
  - intros H; inversion H; subst. eapply Hllm; eassumption.
Qed.

(** ** Text *)

Lemma str_eqb_eq (a b : str) : str_eqb a b = true <-> a = b.
Proof.
  revert b; induction a as [|c a IH]; intros [|d b]; simpl; split;
    try congruence; try discriminate; auto.
  - intros H. apply andb_true_iff in H as [Hc Ha].
    apply N.eqb_eq in Hc. apply IH in Ha. congruence.
  - intros H. injection H as -> ->. rewrite N.eqb_refl. simpl. now apply IH.
Qed.

Lemma str_eqb_refl (a : str) : str_eqb a a = true.
Proof. now apply str_eqb_eq. Qed.

Lemma startswith_iff (s p : str) :
  startswith s p = true <-> exists r, s = p ++ r.
Proof.
  revert s; induction p as [|c p IH]; intros s; simpl.
  - split; [intros _; now exists s | reflexivity].
  - destruct s as [|d s].
    + split; [discriminate | intros [r Hr]; discriminate].
    + rewrite andb_true_iff, N.eqb_eq, IH. split.
      * intros [-> [r ->]]. now exists r.
      * intros [r Hr]. injection Hr as -> ->. eauto.
Qed.

Lemma endswith_iff (s p : str) :
  endswith s p = true <-> exists r, s = r ++ p.
Proof.
  unfold endswith. rewrite startswith_iff. split.
  - intros [r Hr]. exists (rev r).
    rewrite <- (rev_involutive s), Hr, rev_app_distr.
    now rewrite rev_involutive.
  - intros [r ->]. exists (rev r). apply rev_app_distr.
Qed.

Lemma slice_from_prefix (p r : str) : slice_from (List.length p) (p ++ r) = r.
Proof.
  unfold slice_from. rewrite skipn_app, skipn_all, Nat.sub_diag. reflexivity.
Qed.

Lemma slice_until_last_suffix (r p : str) :
  slice_until_last (List.length p) (r ++ p) = r.
Proof.
  unfold slice_until_last. rewrite length_app, Nat.add_sub.
  rewrite firstn_app, Nat.sub_diag, firstn_all. simpl. apply app_nil_r.
Qed.

(** [lstrip] removes a run of whitespace and stops at the first other
    character. *)
Lemma lstrip_spec (s : str) :
  exists l, s = l ++ lstrip s /\ forallb isspace l = true
            /\ (forall c rest, lstrip s = c :: rest -> isspace c = false).
Proof.
  induction s as [|c s (l & Hl & Hsp & Hhd)]; simpl.
  - exists []. repeat split; auto. discriminate.
  - destruct (isspace c) eqn:Hc.
    + exists (c :: l). simpl. rewrite Hc, Hsp. repeat split; auto.
      now rewrite <- Hl.
    + exists []. repeat split; auto. intros c' rest' H. now injection H as <- _.
Qed.

(** ** The [try] statement *)

Create HintDb only_Exception.

Lemma raises_only_Exception_py_get v key default :
  raises_only_Exception (lift (py_get v key default)).
Proof. apply raises_only_Exception_lift, py_get_raises. Qed.

Lemma raises_only_Exception_construct {A : Type} (validate : A -> option str) a :
  raises_only_Exception (lift (construct validate a)).
Proof. apply raises_only_Exception_lift, construct_raises. Qed.

Lemma raises_only_Exception_parse_content E content :
  raises_only_Exception (lift (parse_content E content)).
Proof. apply raises_only_Exception_lift, parse_content_raises. Qed.

Lemma raises_only_Exception_ainvoke self messages :
  client_raises_Exception self ->
  raises_only_Exception (ainvoke self messages).
Proof.
  intros Hllm st e st' H. unfold ainvoke in H. inversion H.
  eapply Hllm; eassumption.
Qed.

Lemma raises_only_Exception_charge_usage self response :
  raises_only_Exception (charge_usage self response).
Proof.
  unfold charge_usage.
  destruct (AIMessage.response_metadata response) as [metadata|].
  - repeat (apply raises_only_Exception_bind;
            [first [apply raises_only_Exception_py_get
                   | apply raises_only_Exception_lift, of_sum_raises] | intros ?]).
    intros st e st' H; inversion H.
  - intros st e st' H; inversion H.
Qed.

#[local] Hint Resolve raises_only_Exception_py_get raises_only_Exception_construct
  raises_only_Exception_parse_content raises_only_Exception_ainvoke
  raises_only_Exception_charge_usage raises_only_Exception_get_cost
  raises_only_Exception_bind : only_Exception.

Lemma raises_only_Exception_call_and_parse E self messages :
  client_raises_Exception self ->
  raises_only_Exception (call_and_parse E self messages).
Proof. intros Hllm. unfold call_and_parse. auto 10 with only_Exception. Qed.

#[local] Hint Resolve raises_only_Exception_call_and_parse : only_Exception.

Lemma absorb_attempt_raises E self member aspirasi messages :
  client_raises_Exception self ->
  raises_only_Exception (AbsorbAgent.attempt E self member aspirasi messages).
Proof. intros Hllm. unfold AbsorbAgent.attempt. auto 20 with only_Exception. Qed.

Lemma compile_attempt_raises E self relevant_responses messages :
  client_raises_Exception self ->
  raises_only_Exception (CompileAgent.attempt E self relevant_responses messages).
Proof. intros Hllm. unfold CompileAgent.attempt. auto 20 with only_Exception. Qed.

Lemma followup_attempt_raises E self messages :
  client_raises_Exception self ->
  raises_only_Exception (FollowUpAgent.attempt E self messages).
Proof. intros Hllm. unfold FollowUpAgent.attempt. auto 30 with only_Exception. Qed.

(** A body that raises nothing but [Exception]s always reaches the handler
    when it fails. *)
Lemma try_except_catches {A : Type} (body : M A) (handler : exn -> M A) st :
  raises_only_Exception body ->
  try_except body handler st =
    match body st with
    | (Ret a, st') => (Ret a, st')
    | (Raise e, st') => handler e st'
    end.
Proof.
  intros Hbody. unfold try_except.
  destruct (body st) as [[a|e] st'] eqn:Hrun; [reflexivity|].
  now rewrite (Hbody _ _ _ Hrun).
Qed.

(** [invoke], once the handler's own construction is known to succeed. *)
Lemma absorb_invoke_eq E self member aspirasi st :
  client_raises_Exception self ->
  accepts_failed_evaluation E ->
  AbsorbAgent.invoke E self member aspirasi st =
    match AbsorbAgent.attempt E self member aspirasi
            (absorb_messages member aspirasi) (started st) with
    | (Ret r, st') => (Ret r, st')
    | (Raise e, st') => (Ret (AbsorbAgent.failed member aspirasi e (cost st')), st')
    end.
Proof.
  intros Hllm Hok. unfold AbsorbAgent.invoke, bind at 1, set_cost.
  fold (started st). fold (absorb_messages member aspirasi).
  rewrite try_except_catches by now apply absorb_attempt_raises.
  destruct (AbsorbAgent.attempt _ _ _ _ _ _) as [[r|e] st']; [reflexivity|].
  unfold AbsorbAgent.handler, bind, get_cost, lift, construct. now rewrite Hok.
Qed.

Lemma compile_invoke_eq E self aspirasi responses st :
  client_raises_Exception self ->
  accepts_failed_compilation E ->
  filter CompileAgent.is_relevant responses <> [] ->
  CompileAgent.invoke E self aspirasi responses st =
    match CompileAgent.attempt E self (filter CompileAgent.is_relevant responses)
            (compile_messages E aspirasi responses) (started st) with
    | (Ret r, st') => (Ret r, st')
    | (Raise e, st') =>
        (Ret (CompileAgent.failed (filter CompileAgent.is_relevant responses)
                e (cost st')), st')
    end.
Proof.
  intros Hllm Hok Hne. unfold CompileAgent.invoke, compile_messages.
  destruct (filter CompileAgent.is_relevant responses) as [|r0 rs] eqn:Hf;
    [congruence|].
  unfold bind at 1, set_cost. fold (started st).
  rewrite try_except_catches by now apply compile_attempt_raises.
  destruct (CompileAgent.attempt _ _ _ _ _) as [[r|e] st']; [reflexivity|].
  unfold CompileAgent.handler, bind, get_cost, lift, construct. now rewrite Hok.
Qed.

Lemma followup_invoke_eq E self aspirasi kompilasi st :
  client_raises_Exception self ->
  accepts_empty_plan E ->
  KompilasiResponse.status kompilasi = lit "terkumpul" ->
  FollowUpAgent.invoke E self aspirasi kompilasi st =
    match FollowUpAgent.attempt E self
            (followup_messages E aspirasi kompilasi) (started st) with
    | (Ret r, st') => (Ret r, st')
    | (Raise e, st') =>
        (Ret (FollowUpAgent.empty_plan (str_of_exn e) (cost st')), st')
    end.
Proof.
  intros Hllm Hok Hstatus. unfold FollowUpAgent.invoke.
  rewrite Hstatus, str_eqb_refl. change (negb true) with false.
  cbv beta iota zeta. unfold bind at 1, set_cost. fold (started st).
  fold (followup_messages E aspirasi kompilasi).
  rewrite try_except_catches by now apply followup_attempt_raises.
  destruct (FollowUpAgent.attempt _ _ _ _) as [[r|e] st']; [reflexivity|].
  unfold FollowUpAgent.handler, bind, get_cost, lift, construct. now rewrite Hok.
Qed.

(** ** The bodies of the [try] statements *)

(** A failure of the shared block is the failure of the body. *)
Lemma absorb_attempt_fails E self member aspirasi messages st e st' :
  call_and_parse E self messages st = (Raise e, st') ->
  AbsorbAgent.attempt E self member aspirasi messages st = (Raise e, st').
Proof. intros H. unfold AbsorbAgent.attempt, bind. now rewrite H. Qed.

Lemma compile_attempt_fails E self relevant_responses messages st e st' :
  call_and_parse E self messages st = (Raise e, st') ->
  CompileAgent.attempt E self relevant_responses messages st = (Raise e, st').
Proof. intros H. unfold CompileAgent.attempt, bind. now rewrite H. Qed.

Lemma followup_attempt_fails E self messages st e st' :
  call_and_parse E self messages st = (Raise e, st') ->
  FollowUpAgent.attempt E self messages st = (Raise e, st').
Proof. intros H. unfold FollowUpAgent.attempt, bind. now rewrite H. Qed.

(** A body that returns decoded a dictionary and built its result from
    it. *)
Lemma absorb_attempt_returns E self member aspirasi messages st r st' :
  AbsorbAgent.attempt E self member aspirasi messages st = (Ret r, st') ->
  exists d,
    call_and_parse E self messages st = (Ret (VDict d), st')
    /\ AbsorpsiResponse.relevansi r = get_or d "relevansi" (VStr (lit "rendah"))
    /\ AbsorpsiResponse.error r = None
    /\ AbsorpsiResponse.cost_usd r = cost st'.
Proof.
  unfold AbsorbAgent.attempt, bind.
  destruct (call_and_parse E self messages st) as [[v|e] st1]; [|discriminate].
  destruct v as [| | | | |l|d]; try discriminate.
  unfold py_get, lift, get_cost, construct.
  match goal with |- context [validate_AbsorpsiResponse E ?x] =>
    destruct (validate_AbsorpsiResponse E x) end; [discriminate|].
  intros H; inversion H; subst. exists d. repeat split; reflexivity.
Qed.

Lemma compile_attempt_returns E self relevant_responses messages st r st' :
  CompileAgent.attempt E self relevant_responses messages st = (Ret r, st') ->
  exists v,
    call_and_parse E self messages st = (Ret v, st')
    /\ KompilasiResponse.status r = lit "terkumpul"
    /\ KompilasiResponse.jumlah_anggota r = Z.of_nat (List.length relevant_responses)
    /\ KompilasiResponse.error r = None
    /\ KompilasiResponse.cost_usd r = cost st'.
Proof.
  unfold CompileAgent.attempt, bind.
  destruct (call_and_parse E self messages st) as [[v|e] st1]; [|discriminate].
  destruct v as [| | | | |l|d]; try discriminate.
  unfold py_get, lift, get_cost, construct.
  match goal with |- context [validate_KompilasiResponse E ?x] =>
    destruct (validate_KompilasiResponse E x) end; [discriminate|].
  intros H; inversion H; subst. exists (VDict d). repeat split; reflexivity.
Qed.

(** ** The relevance filter *)

Lemma eq_text_iff v s : eq_text v s = true <-> v = VStr s.
Proof.
  destruct v; simpl; split; try discriminate.
  - intros H. apply str_eqb_eq in H. now subst.
  - intros H. injection H as ->. apply str_eqb_refl.
Qed.

Lemma is_relevant_iff r : CompileAgent.is_relevant r = true <-> Relevant r.
Proof.
  unfold CompileAgent.is_relevant, Relevant, in_texts. simpl existsb.
  rewrite andb_true_iff, orb_true_iff, orb_true_iff, !eq_text_iff.
  destruct (AbsorpsiResponse.error r); simpl; intuition discriminate.
Qed.

Lemma length_filter_is_relevant responses :
  List.length (filter CompileAgent.is_relevant responses) = count_relevant responses.
Proof.
  induction responses as [|r rest IH]; [reflexivity|].
  simpl. unfold CompileAgent.is_relevant at 1, in_texts. simpl existsb.
  destruct (AbsorpsiResponse.relevansi r); simpl; auto.
  destruct (AbsorpsiResponse.error r); simpl.
  - rewrite andb_false_r. exact IH.
  - rewrite orb_false_r, andb_true_r.
    destruct (_ || _); simpl; auto.
Qed.

Lemma filter_is_relevant_nil responses :
  (forall r, In r responses -> ~ Relevant r) ->
  filter CompileAgent.is_relevant responses = [].
Proof.
  intros H. induction responses as [|r rest IH]; [reflexivity|].
  simpl. destruct (CompileAgent.is_relevant r) eqn:Hr.
  - exfalso. apply (H r); [now left | now apply is_relevant_iff].
  - apply IH. intros x Hx. apply H. now right.
Qed.

(** ** Runs *)

(** A fenced answer is decoded and charged; the fields the answer lacks
    take their defaults. *)
Example absorb_reads_fenced_answer :
  exists c st',
    AbsorbAgent.invoke Instances.env Instances.helpful Instances.member
      Instances.aspirasi Instances.fresh
    = (Ret {| AbsorpsiResponse.member_id := VStr (lit "DPR-001");
              AbsorpsiResponse.aspirasi_id := VStr (lit "ASP-001");
              AbsorpsiResponse.relevansi := VStr (lit "Tinggi");
              AbsorpsiResponse.alasan_relevansi := VStr [];
              AbsorpsiResponse.poin_kunci := VList [];
              AbsorpsiResponse.rekomendasi_awal := VStr [];
              AbsorpsiResponse.error := None;
              AbsorpsiResponse.cost_usd := c |}, st')
    /\ Instances.settings_cost (VInt 1000) (VInt 500) = inr c
    /\ List.length (calls st') = 1.
Proof. eexists _, _. repeat split; vm_compute; reflexivity. Qed.

(** Two of three evaluations count; the answer is collected. *)
Example compile_collects_two :
  exists r st',
    CompileAgent.invoke Instances.env Instances.helpful Instances.aspirasi
      Instances.two_relevant Instances.fresh = (Ret r, st')
    /\ KompilasiResponse.status r = lit "terkumpul"
    /\ KompilasiResponse.jumlah_anggota r = 2%Z
    /\ KompilasiResponse.ringkasan r = VStr (lit "Disetujui")
    /\ KompilasiResponse.error r = None
    /\ List.length (calls st') = 1.
Proof. eexists _, _. repeat split; vm_compute; reflexivity. Qed.

(** An answer that is not JSON: the plan is empty, the call is paid for. *)
Example followup_on_garbled_answer :
  exists c st',
    FollowUpAgent.invoke Instances.env Instances.garbled Instances.aspirasi
      (Instances.collected 2) Instances.fresh
    = (Ret (FollowUpAgent.empty_plan (lit "Expecting value") c), st')
    /\ Instances.settings_cost (VInt 1000) (VInt 500) = inr c
    /\ List.length (calls st') = 1.
Proof. eexists _, _. repeat split; vm_compute; reflexivity. Qed.

(** A content that is a list of blocks rather than text is a failure like
    any other. *)
Example absorb_on_block_content :
  exists st',
    AbsorbAgent.invoke Instances.env
      (Instances.replying (VList [VStr (lit "{}")]) None)
      Instances.member Instances.aspirasi Instances.fresh
    = (Ret (AbsorbAgent.failed Instances.member Instances.aspirasi
              (AttributeError (VList [VStr (lit "{}")]) "startswith") 0%float),
       st').
Proof. eexists. vm_compute. reflexivity. Qed.

(** [except Exception] lets through what is not an [Exception]: the
    hypothesis [client_raises_Exception] of the properties below says that
    the client raises nothing of that kind. *)
Remark cancellation_passes_through :
  AbsorbAgent.invoke Instances.env Instances.cancelled Instances.member
    Instances.aspirasi Instances.fresh
  = (Raise {| is_Exception := false; str_of_exn := [] |},
     called Instances.fresh
       (absorb_messages Instances.member Instances.aspirasi) 0%float).
Proof. vm_compute. reflexivity. Qed.

(** ** The guards of the second and third stage *)

(** C2.  When no evaluation has relevance "Tinggi" or "Sedang" together
    with no error, [CompileAgent.invoke] returns status "tidak_relevan",
    count 0 and cost 0.0, and the store is the one it started from: no call
    was issued. *)
Theorem compile_short_circuits_when_nothing_relevant
    (E : Env) (self : BaseAgent) (aspirasi : Aspirasi.t)
    (responses : list AbsorpsiResponse.t) (st : store) :
  accepts_not_relevant E ->
  (forall r, In r responses -> ~ Relevant r) ->
  exists r st',
    CompileAgent.invoke E self aspirasi responses st = (Ret r, st')
    /\ calls st' = calls st
    /\ KompilasiResponse.status r = lit "tidak_relevan"
    /\ KompilasiResponse.jumlah_anggota r = 0%Z
    /\ KompilasiResponse.cost_usd r = 0%float.
Proof.
  intros Hok Hnone. exists CompileAgent.not_relevant, st.
  unfold CompileAgent.invoke. rewrite (filter_is_relevant_nil _ Hnone).
  unfold lift, construct. rewrite Hok. repeat split; reflexivity.
Qed.

Lemma compile_short_circuits_when_nothing_relevant_witness :
  accepts_not_relevant Instances.env
  /\ (forall r, In r Instances.none_relevant -> ~ Relevant r)
  /\ exists r st',
       CompileAgent.invoke Instances.env Instances.helpful Instances.aspirasi
         Instances.none_relevant Instances.fresh = (Ret r, st')
       /\ calls st' = calls Instances.fresh
       /\ KompilasiResponse.status r = lit "tidak_relevan"
       /\ KompilasiResponse.jumlah_anggota r = 0%Z
       /\ KompilasiResponse.cost_usd r = 0%float.
Proof.
  assert (H1 : accepts_not_relevant Instances.env) by reflexivity.
  assert (H2 : forall r, In r Instances.none_relevant -> ~ Relevant r).
  { intros r [<-|[<-|[<-|[]]]] [[H|H] H']; discriminate. }
  split; [exact H1|]. split; [exact H2|].
  exact (compile_short_circuits_when_nothing_relevant Instances.env
           Instances.helpful Instances.aspirasi Instances.none_relevant
           Instances.fresh H1 H2).
Defined.

(** C3.  When the aggregation's status is not "terkumpul",
    [FollowUpAgent.invoke] issues no call and returns a plan whose fields
    are all empty, whose cost is 0.0 and whose error is the non-empty text
    saying that there is no valid compilation to follow up. *)
Theorem followup_short_circuits_unless_collected
    (E : Env) (self : BaseAgent) (aspirasi : Aspirasi.t)
    (kompilasi : KompilasiResponse.t) (st : store) :
  accepts_empty_plan E ->
  KompilasiResponse.status kompilasi <> lit "terkumpul" ->
  exists r st',
    FollowUpAgent.invoke E self aspirasi kompilasi st = (Ret r, st')
    /\ calls st' = calls st
    /\ TindakLanjutResponse.langkah_tindak_lanjut r = VList []
    /\ TindakLanjutResponse.komisi_penanggung_jawab r = VStr []
    /\ TindakLanjutResponse.timeline r = VStr []
    /\ TindakLanjutResponse.indikator_keberhasilan r = VList []
    /\ TindakLanjutResponse.mekanisme r = VStr []
    /\ TindakLanjutResponse.estimasi_anggaran r = VStr []
    /\ TindakLanjutResponse.rincian_anggaran r = VList []
    /\ TindakLanjutResponse.sumber_dana r = VStr []
    /\ TindakLanjutResponse.cost_usd r = 0%float
    /\ TindakLanjutResponse.error r
         = Some (lit "Tidak ada kompilasi yang valid untuk ditindaklanjuti")
    /\ lit "Tidak ada kompilasi yang valid untuk ditindaklanjuti" <> [].
Proof.
  intros Hok Hstatus.
  exists (FollowUpAgent.empty_plan FollowUpAgent.no_valid_compilation 0%float), st.
  unfold FollowUpAgent.invoke.
  destruct (str_eqb (KompilasiResponse.status kompilasi) (lit "terkumpul")) eqn:Heq.
  - apply str_eqb_eq in Heq. contradiction.
  - simpl negb. cbv iota. unfold lift, construct. rewrite Hok.
    repeat split; try reflexivity. discriminate.
Qed.

Lemma followup_short_circuits_unless_collected_witness :
  accepts_empty_plan Instances.env
  /\ KompilasiResponse.status CompileAgent.not_relevant <> lit "terkumpul"
  /\ exists r st',
       FollowUpAgent.invoke Instances.env Instances.helpful Instances.aspirasi
         CompileAgent.not_relevant Instances.fresh = (Ret r, st')
       /\ calls st' = calls Instances.fresh
       /\ TindakLanjutResponse.langkah_tindak_lanjut r = VList []
       /\ TindakLanjutResponse.komisi_penanggung_jawab r = VStr []
       /\ TindakLanjutResponse.timeline r = VStr []
       /\ TindakLanjutResponse.indikator_keberhasilan r = VList []
       /\ TindakLanjutResponse.mekanisme r = VStr []
       /\ TindakLanjutResponse.estimasi_anggaran r = VStr []
       /\ TindakLanjutResponse.rincian_anggaran r = VList []
       /\ TindakLanjutResponse.sumber_dana r = VStr []
       /\ TindakLanjutResponse.cost_usd r = 0%float
       /\ TindakLanjutResponse.error r
            = Some (lit "Tidak ada kompilasi yang valid untuk ditindaklanjuti")
       /\ lit "Tidak ada kompilasi yang valid untuk ditindaklanjuti" <> [].
Proof.
  assert (H1 : accepts_empty_plan Instances.env) by (intros msg c; reflexivity).
  assert (H2 : KompilasiResponse.status CompileAgent.not_relevant <> lit "terkumpul")
    by discriminate.
  split; [exact H1|]. split; [exact H2|].
  exact (followup_short_circuits_unless_collected Instances.env Instances.helpful
           Instances.aspirasi CompileAgent.not_relevant Instances.fresh H1 H2).
Defined.

(** ** The aggregation result *)

(** What [CompileAgent.invoke] returns, branch by branch. *)
Lemma compile_invoke_cases E self aspirasi responses st :
  client_raises_Exception self ->
  accepts_not_relevant E ->
  accepts_failed_compilation E ->
  let relevant := filter CompileAgent.is_relevant responses in
  let messages := compile_messages E aspirasi responses in
  (relevant = []
   /\ CompileAgent.invoke E self aspirasi responses st
      = (Ret CompileAgent.not_relevant, st))
  \/ (exists r st' v,
        CompileAgent.invoke E self aspirasi responses st = (Ret r, st')
        /\ CompileAgent.attempt E self relevant messages (started st) = (Ret r, st')
        /\ call_and_parse E self messages (started st) = (Ret v, st')
        /\ KompilasiResponse.status r = lit "terkumpul"
        /\ KompilasiResponse.jumlah_anggota r = Z.of_nat (List.length relevant)
        /\ KompilasiResponse.error r = None)
  \/ (exists e st',
        CompileAgent.invoke E self aspirasi responses st
        = (Ret (CompileAgent.failed relevant e (cost st')), st')
        /\ CompileAgent.attempt E self relevant messages (started st)
           = (Raise e, st')).
Proof.
  intros Hllm Hguard Hfail relevant messages.
  destruct relevant as [|r0 rest] eqn:Hrel.
  - left. split; [reflexivity|].
    unfold CompileAgent.invoke. fold relevant in Hrel. subst relevant.
    rewrite Hrel. unfold lift, construct. now rewrite Hguard.
  - right. assert (Hne : filter CompileAgent.is_relevant responses <> []).
    { fold relevant in Hrel. subst relevant. rewrite Hrel. discriminate. }
    rewrite (compile_invoke_eq E self aspirasi responses st Hllm Hfail Hne).
    fold messages. replace (filter CompileAgent.is_relevant responses) with (r0 :: rest).
    destruct (CompileAgent.attempt E self (r0 :: rest) messages (started st))
      as [[r|e] st'] eqn:Hrun.
    + left. destruct (compile_attempt_returns _ _ _ _ _ _ _ Hrun)
        as (v & Hv & Hs & Hn & He & _).
      exists r, st', v. repeat split; assumption.
    + right. exists e, st'. split; reflexivity.
Qed.

(** C4.  In every branch -- "tidak_relevan", "terkumpul" or "error" --
    the result's [jumlah_anggota] is the number of input evaluations whose
    relevance is "Tinggi" or "Sedang" and whose error is [None]. *)
Theorem jumlah_anggota_counts_relevant
    (E : Env) (self : BaseAgent) (aspirasi : Aspirasi.t)
    (responses : list AbsorpsiResponse.t) (st : store) :
  client_raises_Exception self ->
  accepts_not_relevant E ->
  accepts_failed_compilation E ->
  exists r st',
    CompileAgent.invoke E self aspirasi responses st = (Ret r, st')
    /\ KompilasiResponse.jumlah_anggota r = Z.of_nat (count_relevant responses).
Proof.
  intros Hllm Hguard Hfail.
  rewrite <- length_filter_is_relevant.
  destruct (compile_invoke_cases E self aspirasi responses st Hllm Hguard Hfail)
    as [[Hnil Hrun] | [(r & st' & v & Hrun & _ & _ & _ & Hn & _) | (e & st' & Hrun & _)]].
  - exists CompileAgent.not_relevant, st. split; [exact Hrun|]. now rewrite Hnil.
  - exists r, st'. split; assumption.
  - eexists _, st'. split; [exact Hrun|]. reflexivity.
Qed.

Lemma jumlah_anggota_counts_relevant_witness :
  client_raises_Exception Instances.garbled
  /\ accepts_not_relevant Instances.env
  /\ accepts_failed_compilation Instances.env
  /\ exists r st',
       CompileAgent.invoke Instances.env Instances.garbled Instances.aspirasi
         Instances.two_relevant Instances.fresh = (Ret r, st')
       /\ KompilasiResponse.jumlah_anggota r
          = Z.of_nat (count_relevant Instances.two_relevant).
Proof.
  assert (H1 : client_raises_Exception Instances.garbled)
    by (intros log messages e H; discriminate H).
  assert (H2 : accepts_not_relevant Instances.env) by reflexivity.
  assert (H3 : accepts_failed_compilation Instances.env)
    by (intros rs e c; reflexivity).
  repeat (split; [assumption|]).
  exact (jumlah_anggota_counts_relevant Instances.env Instances.garbled
           Instances.aspirasi Instances.two_relevant Instances.fresh H1 H2 H3).
Defined.

(** C9.  The status of the result is "tidak_relevan", "terkumpul" or
    "error"; it is "terkumpul" only when the client returned a response
    whose content was decoded; and with "error" the error field is set. *)
Theorem compile_status_is_one_of_three
    (E : Env) (self : BaseAgent) (aspirasi : Aspirasi.t)
    (responses : list AbsorpsiResponse.t) (st : store) :
  client_raises_Exception self ->
  accepts_not_relevant E ->
  accepts_failed_compilation E ->
  exists r st',
    CompileAgent.invoke E self aspirasi responses st = (Ret r, st')
    /\ (KompilasiResponse.status r = lit "tidak_relevan"
        \/ KompilasiResponse.status r = lit "terkumpul"
        \/ KompilasiResponse.status r = lit "error")
    /\ (KompilasiResponse.status r = lit "terkumpul" ->
        exists response v,
          llm self (calls st) (compile_messages E aspirasi responses) = Ret response
          /\ parse_content E (AIMessage.content response) = Ret v)
    /\ (KompilasiResponse.status r = lit "error" ->
        exists msg, KompilasiResponse.error r = Some msg).
Proof.
  intros Hllm Hguard Hfail.
  destruct (compile_invoke_cases E self aspirasi responses st Hllm Hguard Hfail)
    as [[Hnil Hrun] | [(r & st' & v & Hrun & _ & Hcall & Hs & _) | (e & st' & Hrun & _)]].
  - exists CompileAgent.not_relevant, st. split; [exact Hrun|].
    split; [now left|]. split; intros H; discriminate H.
  - exists r, st'. split; [exact Hrun|]. split; [now right; left|]. split.
    + intros _. rewrite call_and_parse_eq in Hcall by reflexivity.
      change (calls (started st)) with (calls st) in Hcall.
      destruct (llm self (calls st) (compile_messages E aspirasi responses))
        as [response|e]; [|discriminate].
      destruct (usage_cost self response); [|discriminate].
      exists response, v. split; [reflexivity|]. congruence.
    + rewrite Hs. intros H; discriminate H.
  - eexists _, st'. split; [exact Hrun|]. split; [now right; right|]. split.
    + intros H; discriminate H.
    + intros _. eexists. reflexivity.
Qed.

Lemma compile_status_is_one_of_three_witness :
  client_raises_Exception Instances.helpful
  /\ accepts_not_relevant Instances.env
  /\ accepts_failed_compilation Instances.env
  /\ exists r st',
       CompileAgent.invoke Instances.env Instances.helpful Instances.aspirasi
         Instances.two_relevant Instances.fresh = (Ret r, st')
       /\ (KompilasiResponse.status r = lit "tidak_relevan"
           \/ KompilasiResponse.status r = lit "terkumpul"
           \/ KompilasiResponse.status r = lit "error")
       /\ (KompilasiResponse.status r = lit "terkumpul" ->
           exists response v,
             llm Instances.helpful (calls Instances.fresh)
               (compile_messages Instances.env Instances.aspirasi
                  Instances.two_relevant) = Ret response
             /\ parse_content Instances.env (AIMessage.content response) = Ret v)
       /\ (KompilasiResponse.status r = lit "error" ->
           exists msg, KompilasiResponse.error r = Some msg).
Proof.
  assert (H1 : client_raises_Exception Instances.helpful)
    by (intros log messages e H; discriminate H).
  assert (H2 : accepts_not_relevant Instances.env) by reflexivity.
  assert (H3 : accepts_failed_compilation Instances.env)
    by (intros rs e c; reflexivity).
  repeat (split; [assumption|]).
  exact (compile_status_is_one_of_three Instances.env Instances.helpful
           Instances.aspirasi Instances.two_relevant Instances.fresh H1 H2 H3).
Defined.

(** ** Fault isolation *)

(** C1.  Whatever the inputs, and whether the client returns a response
    (decodable or not) or raises an [Exception] (a transport error, a
    timeout), each [invoke] returns a result object; and when the body of
    its [try] statement fails with [e], the result's error field holds
    [str(e)]. *)
Theorem invoke_never_raises
    (E : Env) (self : BaseAgent) (member : DPRMember.t) (aspirasi : Aspirasi.t)
    (responses : list AbsorpsiResponse.t) (kompilasi : KompilasiResponse.t)
    (st : store) :
  client_raises_Exception self ->
  accepts_failed_evaluation E ->
  accepts_not_relevant E ->
  accepts_failed_compilation E ->
  accepts_empty_plan E ->
  (exists r st',
     AbsorbAgent.invoke E self member aspirasi st = (Ret r, st')
     /\ forall e st1,
          AbsorbAgent.attempt E self member aspirasi
            (absorb_messages member aspirasi) (started st) = (Raise e, st1) ->
          AbsorpsiResponse.error r = Some (str_of_exn e))
  /\ (exists r st',
        CompileAgent.invoke E self aspirasi responses st = (Ret r, st')
        /\ forall e st1,
             filter CompileAgent.is_relevant responses <> [] ->
             CompileAgent.attempt E self (filter CompileAgent.is_relevant responses)
               (compile_messages E aspirasi responses) (started st) = (Raise e, st1) ->
             KompilasiResponse.error r = Some (str_of_exn e))
  /\ (exists r st',
        FollowUpAgent.invoke E self aspirasi kompilasi st = (Ret r, st')
        /\ forall e st1,
             KompilasiResponse.status kompilasi = lit "terkumpul" ->
             FollowUpAgent.attempt E self
               (followup_messages E aspirasi kompilasi) (started st) = (Raise e, st1) ->
             TindakLanjutResponse.error r = Some (str_of_exn e)).
Proof.
  intros Hllm Habsorb Hguard Hcompile Hplan. repeat split.
  - rewrite (absorb_invoke_eq E self member aspirasi st Hllm Habsorb).
    destruct (AbsorbAgent.attempt _ _ _ _ _ _) as [[r|e] st'].
    + exists r, st'. split; [reflexivity|]. discriminate.
    + eexists _, st'. split; [reflexivity|].
      intros e' st1 H. now inversion H.
  - destruct (compile_invoke_cases E self aspirasi responses st Hllm Hguard Hcompile)
      as [[Hnil Hrun] | [(r & st' & v & Hrun & Hbody & _) | (e & st' & Hrun & Hbody)]].
    + eexists _, st. split; [exact Hrun|]. intros e st1 Hne. contradiction.
    + exists r, st'. split; [exact Hrun|]. intros e st1 _ H.
      rewrite Hbody in H. discriminate H.
    + eexists _, st'. split; [exact Hrun|]. intros e' st1 _ H.
      rewrite Hbody in H. now inversion H.
  - destruct (str_eqb (KompilasiResponse.status kompilasi) (lit "terkumpul")) eqn:Heq.
    + apply str_eqb_eq in Heq.
      rewrite (followup_invoke_eq E self aspirasi kompilasi st Hllm Hplan Heq).
      destruct (FollowUpAgent.attempt _ _ _ _) as [[r|e] st'].
      * exists r, st'. split; [reflexivity|]. discriminate.
      * eexists _, st'. split; [reflexivity|].
        intros e' st1 _ H. now inversion H.
    + assert (Hne : KompilasiResponse.status kompilasi <> lit "terkumpul").
      { intros H. apply str_eqb_eq in H. congruence. }
      exists (FollowUpAgent.empty_plan FollowUpAgent.no_valid_compilation 0%float), st.
      split; [|intros e st1 H; contradiction].
      unfold FollowUpAgent.invoke. rewrite Heq. simpl negb. cbv iota.
      unfold lift, construct. now rewrite Hplan.
Qed.

Lemma invoke_never_raises_witness :
  client_raises_Exception Instances.garbled
  /\ accepts_failed_evaluation Instances.env
  /\ accepts_not_relevant Instances.env
  /\ accepts_failed_compilation Instances.env
  /\ accepts_empty_plan Instances.env
  /\ (exists r st',
        AbsorbAgent.invoke Instances.env Instances.garbled Instances.member
          Instances.aspirasi Instances.fresh = (Ret r, st')
        /\ forall e st1,
             AbsorbAgent.attempt Instances.env Instances.garbled Instances.member
               Instances.aspirasi
               (absorb_messages Instances.member Instances.aspirasi)
               (started Instances.fresh) = (Raise e, st1) ->
             AbsorpsiResponse.error r = Some (str_of_exn e))
  /\ (exists r st',
        CompileAgent.invoke Instances.env Instances.garbled Instances.aspirasi
          Instances.two_relevant Instances.fresh = (Ret r, st')
        /\ forall e st1,
             filter CompileAgent.is_relevant Instances.two_relevant <> [] ->
             CompileAgent.attempt Instances.env Instances.garbled
               (filter CompileAgent.is_relevant Instances.two_relevant)
               (compile_messages Instances.env Instances.aspirasi
                  Instances.two_relevant)
               (started Instances.fresh) = (Raise e, st1) ->
             KompilasiResponse.error r = Some (str_of_exn e))
  /\ (exists r st',
        FollowUpAgent.invoke Instances.env Instances.garbled Instances.aspirasi
          (Instances.collected 2) Instances.fresh = (Ret r, st')
        /\ forall e st1,
             KompilasiResponse.status (Instances.collected 2) = lit "terkumpul" ->
             FollowUpAgent.attempt Instances.env Instances.garbled
               (followup_messages Instances.env Instances.aspirasi
                  (Instances.collected 2))
               (started Instances.fresh) = (Raise e, st1) ->
             TindakLanjutResponse.error r = Some (str_of_exn e)).
Proof.
  assert (H1 : client_raises_Exception Instances.garbled)
    by (intros log messages e H; discriminate H).
  assert (H2 : accepts_failed_evaluation Instances.env)
    by (intros m a e c; reflexivity).
  assert (H3 : accepts_not_relevant Instances.env) by reflexivity.
  assert (H4 : accepts_failed_compilation Instances.env)
    by (intros rs e c; reflexivity).
  assert (H5 : accepts_empty_plan Instances.env) by (intros msg c; reflexivity).
  repeat (split; [assumption|]).
  exact (invoke_never_raises Instances.env Instances.garbled Instances.member
           Instances.aspirasi Instances.two_relevant (Instances.collected 2)
           Instances.fresh H1 H2 H3 H4 H5).
Defined.

(** ** Failed and incomplete evaluations *)

Lemma errored_is_not_relevant x :
  AbsorpsiResponse.error x <> None -> CompileAgent.is_relevant x = false.
Proof.
  intros H. unfold CompileAgent.is_relevant.
  destruct (AbsorpsiResponse.error x); [apply andb_false_r | contradiction].
Qed.

Lemma filter_skips_irrelevant r before after :
  CompileAgent.is_relevant r = false ->
  filter CompileAgent.is_relevant (before ++ r :: after)
  = filter CompileAgent.is_relevant (before ++ after).
Proof. intros H. rewrite !filter_app. simpl. now rewrite H. Qed.

(** C5.  When the evaluation's call, the charging of its usage or the
    decoding of its content fails with [e], the result has relevance
    "rendah" and error [str(e)]; no evaluation carrying an error passes the
    aggregation's filter, so adding the failed result to the evaluations
    leaves the filtered list as it was. *)
Theorem failed_evaluation_is_filtered_out
    (E : Env) (self : BaseAgent) (member : DPRMember.t) (aspirasi : Aspirasi.t)
    (st : store) (e : exn) (st1 : store) :
  client_raises_Exception self ->
  accepts_failed_evaluation E ->
  call_and_parse E self (absorb_messages member aspirasi) (started st)
    = (Raise e, st1) ->
  exists r st',
    AbsorbAgent.invoke E self member aspirasi st = (Ret r, st')
    /\ AbsorpsiResponse.relevansi r = VStr (lit "rendah")
    /\ AbsorpsiResponse.error r = Some (str_of_exn e)
    /\ (forall x rs,
          AbsorpsiResponse.error x <> None ->
          ~ In x (filter CompileAgent.is_relevant rs))
    /\ (forall before after,
          filter CompileAgent.is_relevant (before ++ r :: after)
          = filter CompileAgent.is_relevant (before ++ after)).
Proof.
  intros Hllm Hok Hfail.
  exists (AbsorbAgent.failed member aspirasi e (cost st1)), st1.
  split.
  - rewrite (absorb_invoke_eq E self member aspirasi st Hllm Hok).
    now rewrite (absorb_attempt_fails _ _ _ _ _ _ _ _ Hfail).
  - split; [reflexivity|]. split; [reflexivity|]. split.
    + intros x rs Hx Hin. apply filter_In in Hin as [_ Hrel].
      rewrite (errored_is_not_relevant x Hx) in Hrel. discriminate.
    + intros before after. apply filter_skips_irrelevant.
      apply errored_is_not_relevant. discriminate.
Qed.

Lemma failed_evaluation_is_filtered_out_witness :
  client_raises_Exception (Instances.unreachable (lit "Connection error."))
  /\ accepts_failed_evaluation Instances.env
  /\ call_and_parse Instances.env (Instances.unreachable (lit "Connection error."))
       (absorb_messages Instances.member Instances.aspirasi)
       (started Instances.fresh)
     = (Raise (Exception (lit "Connection error.")),
        called Instances.fresh
          (absorb_messages Instances.member Instances.aspirasi) 0%float)
  /\ exists r st',
       AbsorbAgent.invoke Instances.env
         (Instances.unreachable (lit "Connection error."))
         Instances.member Instances.aspirasi Instances.fresh = (Ret r, st')
       /\ AbsorpsiResponse.relevansi r = VStr (lit "rendah")
       /\ AbsorpsiResponse.error r
          = Some (str_of_exn (Exception (lit "Connection error.")))
       /\ (forall x rs,
             AbsorpsiResponse.error x <> None ->
             ~ In x (filter CompileAgent.is_relevant rs))
       /\ (forall before after,
             filter CompileAgent.is_relevant (before ++ r :: after)
             = filter CompileAgent.is_relevant (before ++ after)).
Proof.
  assert (H1 : client_raises_Exception
                 (Instances.unreachable (lit "Connection error."))).
  { intros log messages e H. injection H as <-. reflexivity. }
  assert (H2 : accepts_failed_evaluation Instances.env)
    by (intros m a e c; reflexivity).
  assert (H3 : call_and_parse Instances.env
                 (Instances.unreachable (lit "Connection error."))
                 (absorb_messages Instances.member Instances.aspirasi)
                 (started Instances.fresh)
               = (Raise (Exception (lit "Connection error.")),
                  called Instances.fresh
                    (absorb_messages Instances.member Instances.aspirasi) 0%float))
    by reflexivity.
  repeat (split; [assumption|]).
  exact (failed_evaluation_is_filtered_out Instances.env
           (Instances.unreachable (lit "Connection error."))
           Instances.member Instances.aspirasi Instances.fresh _ _ H1 H2 H3).
Defined.

(** C10.  When the evaluation's call returns and its content decodes to an
    object without the key "relevansi", the result's relevance is the
    lowercase text "rendah", which the aggregation's filter (it matches
    "Tinggi" and "Sedang" only) does not let through. *)
Theorem missing_relevansi_defaults_to_rendah
    (E : Env) (self : BaseAgent) (member : DPRMember.t) (aspirasi : Aspirasi.t)
    (st : store) (response : AIMessage.t) (d : list (str * pyval)) :
  client_raises_Exception self ->
  accepts_failed_evaluation E ->
  llm self (calls st) (absorb_messages member aspirasi) = Ret response ->
  parse_content E (AIMessage.content response) = Ret (VDict d) ->
  dict_lookup d (lit "relevansi") = None ->
  exists r st',
    AbsorbAgent.invoke E self member aspirasi st = (Ret r, st')
    /\ AbsorpsiResponse.relevansi r = VStr (lit "rendah")
    /\ CompileAgent.is_relevant r = false
    /\ (forall before after,
          filter CompileAgent.is_relevant (before ++ r :: after)
          = filter CompileAgent.is_relevant (before ++ after)).
Proof.
  intros Hllm Hok Hcall Hparse Hmissing.
  assert (Hlow : forall r, AbsorpsiResponse.relevansi r = VStr (lit "rendah") ->
                           CompileAgent.is_relevant r = false).
  { intros r Hr. unfold CompileAgent.is_relevant. now rewrite Hr. }
  rewrite (absorb_invoke_eq E self member aspirasi st Hllm Hok).
  destruct (AbsorbAgent.attempt _ _ _ _ _ _) as [[r|e] st'] eqn:Hrun.
  - destruct (absorb_attempt_returns _ _ _ _ _ _ _ _ Hrun) as (d' & Hd' & Hr & _).
    rewrite call_and_parse_eq in Hd' by reflexivity.
    change (calls (started st)) with (calls st) in Hd'. rewrite Hcall in Hd'.
    destruct (usage_cost self response); [|discriminate].
    assert (d' = d) by congruence. subst d'.
    unfold get_or in Hr. rewrite Hmissing in Hr.
    exists r, st'. split; [reflexivity|]. split; [exact Hr|].
    split; [now apply Hlow|]. intros. now apply filter_skips_irrelevant, Hlow.
  - eexists _, st'. split; [reflexivity|]. split; [reflexivity|].
    split; [now apply Hlow|]. intros. now apply filter_skips_irrelevant, Hlow.
Qed.

Lemma missing_relevansi_defaults_to_rendah_witness :
  client_raises_Exception Instances.incomplete
  /\ accepts_failed_evaluation Instances.env
  /\ llm Instances.incomplete (calls Instances.fresh)
       (absorb_messages Instances.member Instances.aspirasi)
     = Ret {| AIMessage.content := VStr Instances.incomplete_reply;
              AIMessage.response_metadata := Some (Instances.usage_metadata 1000 500) |}
  /\ parse_content Instances.env (VStr Instances.incomplete_reply)
     = Ret (VDict [(lit "alasan_relevansi", VStr (lit "Di luar dapil"))])
  /\ dict_lookup [(lit "alasan_relevansi", VStr (lit "Di luar dapil"))]
       (lit "relevansi") = None
  /\ exists r st',
       AbsorbAgent.invoke Instances.env Instances.incomplete Instances.member
         Instances.aspirasi Instances.fresh = (Ret r, st')
       /\ AbsorpsiResponse.relevansi r = VStr (lit "rendah")
       /\ CompileAgent.is_relevant r = false
       /\ (forall before after,
             filter CompileAgent.is_relevant (before ++ r :: after)
             = filter CompileAgent.is_relevant (before ++ after)).
Proof.
  assert (H1 : client_raises_Exception Instances.incomplete)
    by (intros log messages e H; discriminate H).
  assert (H2 : accepts_failed_evaluation Instances.env)
    by (intros m a e c; reflexivity).
  assert (H3 : llm Instances.incomplete (calls Instances.fresh)
                 (absorb_messages Instances.member Instances.aspirasi)
               = Ret {| AIMessage.content := VStr Instances.incomplete_reply;
                        AIMessage.response_metadata :=
                          Some (Instances.usage_metadata 1000 500) |})
    by reflexivity.
  assert (H4 : parse_content Instances.env (VStr Instances.incomplete_reply)
               = Ret (VDict [(lit "alasan_relevansi", VStr (lit "Di luar dapil"))]))
    by (vm_compute; reflexivity).
  assert (H5 : dict_lookup [(lit "alasan_relevansi", VStr (lit "Di luar dapil"))]
                 (lit "relevansi") = None)
    by reflexivity.
  repeat (split; [assumption|]).
  exact (missing_relevansi_defaults_to_rendah Instances.env Instances.incomplete
           Instances.member Instances.aspirasi Instances.fresh _ _ H1 H2 H3 H4 H5).
Defined.

(** ** The cost of a failed stage *)

(** The store in which the handler runs after a failure of the shared
    block. *)
Lemma call_and_parse_call_failed E self messages st e :
  cost st = 0%float ->
  llm self (calls st) messages = Raise e ->
  call_and_parse E self messages st = (Raise e, called st messages 0%float).
Proof. intros Hcost H. rewrite call_and_parse_eq by assumption. now rewrite H. Qed.

Lemma call_and_parse_decoding_failed E self messages st response c e :
  cost st = 0%float ->
  llm self (calls st) messages = Ret response ->
  usage_cost self response = Ret c ->
  parse_content E (AIMessage.content response) = Raise e ->
  call_and_parse E self messages st = (Raise e, called st messages c).
Proof.
  intros Hcost H Hc He. rewrite call_and_parse_eq by assumption.
  now rewrite H, Hc, He.
Qed.

(** C6.  For each of the three agents, past its guard: when the client's
    call raises [e], the result is the one of the [except] branch with
    cost 0.0 and error [str(e)]; when the call returns a response whose
    usage costs [c] and whose content cannot be decoded, failing with [e],
    the result is the one of the [except] branch with cost [c] and error
    [str(e)].  That result ([failed], [empty_plan]) has every field the
    client was to fill at its default; for the aggregation it keeps the
    number of relevant evaluations. *)
Theorem failure_keeps_accrued_cost
    (E : Env) (self : BaseAgent) (member : DPRMember.t) (aspirasi : Aspirasi.t)
    (responses : list AbsorpsiResponse.t) (kompilasi : KompilasiResponse.t)
    (st : store) :
  client_raises_Exception self ->
  accepts_failed_evaluation E ->
  accepts_failed_compilation E ->
  accepts_empty_plan E ->
  filter CompileAgent.is_relevant responses <> [] ->
  KompilasiResponse.status kompilasi = lit "terkumpul" ->
  ((forall e,
      llm self (calls st) (absorb_messages member aspirasi) = Raise e ->
      exists st',
        AbsorbAgent.invoke E self member aspirasi st
        = (Ret (AbsorbAgent.failed member aspirasi e 0%float), st'))
   /\ (forall response c e,
         llm self (calls st) (absorb_messages member aspirasi) = Ret response ->
         usage_cost self response = Ret c ->
         parse_content E (AIMessage.content response) = Raise e ->
         exists st',
           AbsorbAgent.invoke E self member aspirasi st
           = (Ret (AbsorbAgent.failed member aspirasi e c), st')))
  /\ ((forall e,
         llm self (calls st) (compile_messages E aspirasi responses) = Raise e ->
         exists st',
           CompileAgent.invoke E self aspirasi responses st
           = (Ret (CompileAgent.failed (filter CompileAgent.is_relevant responses)
                     e 0%float), st'))
      /\ (forall response c e,
            llm self (calls st) (compile_messages E aspirasi responses)
              = Ret response ->
            usage_cost self response = Ret c ->
            parse_content E (AIMessage.content response) = Raise e ->
            exists st',
              CompileAgent.invoke E self aspirasi responses st
              = (Ret (CompileAgent.failed
                        (filter CompileAgent.is_relevant responses) e c), st')))
  /\ ((forall e,
         llm self (calls st) (followup_messages E aspirasi kompilasi) = Raise e ->
         exists st',
           FollowUpAgent.invoke E self aspirasi kompilasi st
           = (Ret (FollowUpAgent.empty_plan (str_of_exn e) 0%float), st'))
      /\ (forall response c e,
            llm self (calls st) (followup_messages E aspirasi kompilasi)
              = Ret response ->
            usage_cost self response = Ret c ->
            parse_content E (AIMessage.content response) = Raise e ->
            exists st',
              FollowUpAgent.invoke E self aspirasi kompilasi st
              = (Ret (FollowUpAgent.empty_plan (str_of_exn e) c), st'))).
Proof.
  intros Hllm Habsorb Hcompile Hplan Hne Hstatus.
  repeat split.
  - intros e Hcall. eexists.
    rewrite (absorb_invoke_eq E self member aspirasi st Hllm Habsorb).
    rewrite (absorb_attempt_fails _ _ _ _ _ _ _ _
               (call_and_parse_call_failed E self _ (started st) e eq_refl Hcall)).
    reflexivity.
  - intros response c e Hcall Hc He. eexists.
    rewrite (absorb_invoke_eq E self member aspirasi st Hllm Habsorb).
    rewrite (absorb_attempt_fails _ _ _ _ _ _ _ _
               (call_and_parse_decoding_failed E self _ (started st) _ _ _
                  eq_refl Hcall Hc He)).
    reflexivity.
  - intros e Hcall. eexists.
    rewrite (compile_invoke_eq E self aspirasi responses st Hllm Hcompile Hne).
    rewrite (compile_attempt_fails _ _ _ _ _ _ _
               (call_and_parse_call_failed E self _ (started st) e eq_refl Hcall)).
    reflexivity.
  - intros response c e Hcall Hc He. eexists.
    rewrite (compile_invoke_eq E self aspirasi responses st Hllm Hcompile Hne).
    rewrite (compile_attempt_fails _ _ _ _ _ _ _
               (call_and_parse_decoding_failed E self _ (started st) _ _ _
                  eq_refl Hcall Hc He)).
    reflexivity.
  - intros e Hcall. eexists.
    rewrite (followup_invoke_eq E self aspirasi kompilasi st Hllm Hplan Hstatus).
    rewrite (followup_attempt_fails _ _ _ _ _ _
               (call_and_parse_call_failed E self _ (started st) e eq_refl Hcall)).
    reflexivity.
  - intros response c e Hcall Hc He. eexists.
    rewrite (followup_invoke_eq E self aspirasi kompilasi st Hllm Hplan Hstatus).
    rewrite (followup_attempt_fails _ _ _ _ _ _
               (call_and_parse_decoding_failed E self _ (started st) _ _ _
                  eq_refl Hcall Hc He)).
    reflexivity.
Qed.

Lemma failure_keeps_accrued_cost_witness :
  client_raises_Exception Instances.garbled
  /\ accepts_failed_evaluation Instances.env
  /\ accepts_failed_compilation Instances.env
  /\ accepts_empty_plan Instances.env
  /\ filter CompileAgent.is_relevant Instances.two_relevant <> []
  /\ KompilasiResponse.status (Instances.collected 2) = lit "terkumpul"
  /\ exists c st',
       usage_cost Instances.garbled
         {| AIMessage.content := VStr (lit "Maaf, saya tidak dapat membantu.");
            AIMessage.response_metadata := Some (Instances.usage_metadata 1000 500) |}
       = Ret c
       /\ AbsorbAgent.invoke Instances.env Instances.garbled Instances.member
            Instances.aspirasi Instances.fresh
          = (Ret (AbsorbAgent.failed Instances.member Instances.aspirasi
                    (Exception (lit "Expecting value")) c), st').
Proof.
  assert (H1 : client_raises_Exception Instances.garbled)
    by (intros log messages e H; discriminate H).
  assert (H2 : accepts_failed_evaluation Instances.env)
    by (intros m a e c; reflexivity).
  assert (H3 : accepts_failed_compilation Instances.env)
    by (intros rs e c; reflexivity).
  assert (H4 : accepts_empty_plan Instances.env) by (intros msg c; reflexivity).
  assert (H5 : filter CompileAgent.is_relevant Instances.two_relevant <> [])
    by discriminate.
  assert (H6 : KompilasiResponse.status (Instances.collected 2) = lit "terkumpul")
    by reflexivity.
  repeat (split; [assumption|]).
  destruct (failure_keeps_accrued_cost Instances.env Instances.garbled
              Instances.member Instances.aspirasi Instances.two_relevant
              (Instances.collected 2) Instances.fresh H1 H2 H3 H4 H5 H6)
    as [[_ Habsorb] _].
  eexists. 
  destruct (Habsorb _ _ (Exception (lit "Expecting value")) eq_refl eq_refl)
    as [st' Hrun]; [vm_compute; reflexivity|].
  exists st'. split; [reflexivity | exact Hrun].
Defined.

(** ** The parser *)

Lemma removes_prefix_if (p s : str) :
  removes_prefix p s
    (if startswith s p then slice_from (List.length p) s else s).
Proof.
  destruct (startswith s p) eqn:H.
  - apply startswith_iff in H as [r ->]. left. now rewrite slice_from_prefix.
  - right. split; [|reflexivity]. intros r Hr.
    assert (Ht : startswith s p = true) by (apply startswith_iff; eauto).
    congruence.
Qed.

Lemma removes_suffix_if (p s : str) :
  removes_suffix p s
    (if endswith s p then slice_until_last (List.length p) s else s).
Proof.
  destruct (endswith s p) eqn:H.
  - apply endswith_iff in H as [r ->]. left. now rewrite slice_until_last_suffix.
  - right. split; [|reflexivity]. intros r Hr.
    assert (Ht : endswith s p = true) by (apply endswith_iff; eauto).
    congruence.
Qed.

Lemma forallb_rev {A : Type} (f : A -> bool) (l : list A) :
  forallb f l = true -> forallb f (rev l) = true.
Proof.
  rewrite !forallb_forall. intros H x Hx. apply H. now apply in_rev.
Qed.

Lemma strip_trims (s : str) : trims s (strip s).
Proof.
  unfold trims, strip, rstrip.
  destruct (lstrip_spec s) as (l & Hl & Hlsp & Hhead).
  destruct (lstrip_spec (rev (lstrip s))) as (r & Hr & Hrsp & Hlast).
  assert (Hu : lstrip s = rev (lstrip (rev (lstrip s))) ++ rev r).
  { rewrite <- rev_app_distr, <- Hr. now rewrite rev_involutive. }
  exists l, (rev r). split; [|split; [|split; [|split]]].
  - now rewrite <- Hu.
  - exact Hlsp.
  - now apply forallb_rev.
  - intros c rest Ht. rewrite Ht in Hu. simpl in Hu. eapply Hhead; eassumption.
  - intros front c Ht. apply (Hlast c (rev front)).
    rewrite <- (rev_involutive (lstrip (rev (lstrip s)))), Ht, rev_app_distr.
    reflexivity.
Qed.

(** C7, as the code has it.  From the raw text the parser removes a
    leading [```json] when the text starts with it; then -- whether or not
    that was removed -- a leading [```] when what is left starts with it;
    then a trailing [```] when what is left ends with it; it trims the
    whitespace around the rest, and hands this text [s4] to [json.loads].
    It returns what [json.loads] returns and fails exactly when
    [json.loads] rejects [s4]. *)
Theorem parse_content_strips_json_fence_then_fence (E : Env) (s : str) :
  exists s1 s2 s3 s4,
    removes_prefix (lit "```json") s s1
    /\ removes_prefix (lit "```") s1 s2
    /\ removes_suffix (lit "```") s2 s3
    /\ trims s3 s4
    /\ strip_fences s = s4
    /\ parse_content E (VStr s) = of_sum (json_loads E s4)
    /\ ((exists e, parse_content E (VStr s) = Raise e)
        <-> (exists msg, json_loads E s4 = inl msg)).
Proof.
  pose (s1 := if startswith s (lit "```json") then slice_from 7 s else s).
  pose (s2 := if startswith s1 (lit "```") then slice_from 3 s1 else s1).
  pose (s3 := if endswith s2 (lit "```") then slice_until_last 3 s2 else s2).
  exists s1, s2, s3, (strip s3).
  split; [apply (removes_prefix_if (lit "```json") s)|].
  split; [apply (removes_prefix_if (lit "```") s1)|].
  split; [apply (removes_suffix_if (lit "```") s2)|].
  split; [apply strip_trims|].
  split; [reflexivity|].
  split; [reflexivity|].
  change (parse_content E (VStr s)) with (of_sum (json_loads E (strip s3))).
  destruct (json_loads E (strip s3)) as [msg|v]; simpl; split.
  - intros _. now exists msg.
  - intros _. now eexists.
  - intros [e H]. discriminate H.
  - intros [msg H]. discriminate H.
Qed.

(** C7, as stated, fails in two places.  A tag other than [json] is not
    stripped: of the text [```python], a line feed, the object, a line
    feed and [```], the code leaves [python], the line feed and the
    object, which is not JSON, where the parser of the specification's
    words decodes the object.  And the bare fence is not an alternative to
    the [json] marker but a second step: of [```json```1] the code leaves
    [1] and decodes it, where the parser of the specification's words
    stops after the marker and fails on [```1]. *)
Lemma other_language_tag_is_not_stripped :
  (strip_fences Instances.python_fenced_object
     = lit "python" ++ nl ++ Instances.bare_object
   /\ parse_content Instances.env (VStr Instances.python_fenced_object)
      = Raise (Exception (lit "Expecting value"))
   /\ spec_strip_fences Instances.python_fenced_object = Instances.bare_object
   /\ spec_parse_content Instances.env (VStr Instances.python_fenced_object)
      = Ret (VDict [(lit "a", VInt 1)]))
  /\ (strip_fences Instances.doubly_fenced_number = lit "1"
      /\ parse_content Instances.env (VStr Instances.doubly_fenced_number)
         = Ret (VInt 1)
      /\ spec_strip_fences Instances.doubly_fenced_number = lit "```1"
      /\ spec_parse_content Instances.env (VStr Instances.doubly_fenced_number)
         = Raise (Exception (lit "Expecting value"))).
Proof. repeat split; vm_compute; reflexivity. Qed.

(** C8.  Given that [json.loads] decodes the text [{"a":1}] to the object
    with the single key [a] bound to 1, the parser extracts that object
    from the text inside a [json] fence and from the bare text. *)
Theorem parse_content_round_trip (E : Env) :
  json_loads E Instances.bare_object = inr (VDict [(lit "a", VInt 1)]) ->
  parse_content E (VStr Instances.fenced_object) = Ret (VDict [(lit "a", VInt 1)])
  /\ parse_content E (VStr Instances.bare_object) = Ret (VDict [(lit "a", VInt 1)]).
Proof.
  intros Hloads.
  assert (Hfenced : strip_fences Instances.fenced_object = Instances.bare_object)
    by (vm_compute; reflexivity).
  assert (Hbare : strip_fences Instances.bare_object = Instances.bare_object)
    by (vm_compute; reflexivity).
  unfold parse_content. rewrite Hfenced, Hbare, Hloads. split; reflexivity.
Qed.

Lemma parse_content_round_trip_witness :
  json_loads Instances.env Instances.bare_object = inr (VDict [(lit "a", VInt 1)])
  /\ parse_content Instances.env (VStr Instances.fenced_object)
     = Ret (VDict [(lit "a", VInt 1)])
  /\ parse_content Instances.env (VStr Instances.bare_object)
     = Ret (VDict [(lit "a", VInt 1)]).
Proof.
  assert (H : json_loads Instances.env Instances.bare_object
              = inr (VDict [(lit "a", VInt 1)]))
    by (vm_compute; reflexivity).
  split; [exact H|].
  exact (parse_content_round_trip Instances.env H).
Defined.

(** ** One call per stage *)

Lemma call_and_parse_issues_one_call E self messages st :
  cost st = 0%float ->
  calls (snd (call_and_parse E self messages st)) = calls st ++ [messages].
Proof.
  intros Hcost. rewrite call_and_parse_eq by assumption.
  destruct (llm self (calls st) messages) as [response|e]; [|reflexivity].
  destruct (usage_cost self response); reflexivity.
Qed.

(** After the shared block the bodies leave the store alone. *)
Lemma absorb_attempt_store E self member aspirasi messages st :
  snd (AbsorbAgent.attempt E self member aspirasi messages st)
  = snd (call_and_parse E self messages st).
Proof.
  unfold AbsorbAgent.attempt, bind.
  destruct (call_and_parse E self messages st) as [[v|e] st1]; [|reflexivity].
  destruct v; reflexivity.
Qed.

Lemma compile_attempt_store E self relevant_responses messages st :
  snd (CompileAgent.attempt E self relevant_responses messages st)
  = snd (call_and_parse E self messages st).
Proof.
  unfold CompileAgent.attempt, bind.
  destruct (call_and_parse E self messages st) as [[v|e] st1]; [|reflexivity].
  destruct v; reflexivity.
Qed.

Lemma followup_attempt_store E self messages st :
  snd (FollowUpAgent.attempt E self messages st)
  = snd (call_and_parse E self messages st).
Proof.
  unfold FollowUpAgent.attempt, bind.
  destruct (call_and_parse E self messages st) as [[v|e] st1]; [|reflexivity].
  destruct v; reflexivity.
Qed.

(** X1.  Past its guard, each agent issues exactly one call to the
    generation client, with its two messages, whatever the outcome of the
    call and of the decoding: nothing is retried. *)
Theorem one_call_past_the_guard
    (E : Env) (self : BaseAgent) (member : DPRMember.t) (aspirasi : Aspirasi.t)
    (responses : list AbsorpsiResponse.t) (kompilasi : KompilasiResponse.t)
    (st : store) :
  client_raises_Exception self ->
  accepts_failed_evaluation E ->
  accepts_failed_compilation E ->
  accepts_empty_plan E ->
  filter CompileAgent.is_relevant responses <> [] ->
  KompilasiResponse.status kompilasi = lit "terkumpul" ->
  calls (snd (AbsorbAgent.invoke E self member aspirasi st))
    = calls st ++ [absorb_messages member aspirasi]
  /\ calls (snd (CompileAgent.invoke E self aspirasi responses st))
     = calls st ++ [compile_messages E aspirasi responses]
  /\ calls (snd (FollowUpAgent.invoke E self aspirasi kompilasi st))
     = calls st ++ [followup_messages E aspirasi kompilasi].
Proof.
  intros Hllm Habsorb Hcompile Hplan Hne Hstatus.
  split; [|split].
  - rewrite (absorb_invoke_eq E self member aspirasi st Hllm Habsorb).
    rewrite <- (call_and_parse_issues_one_call E self _ (started st) eq_refl).
    rewrite <- absorb_attempt_store with (member := member) (aspirasi := aspirasi).
    destruct (AbsorbAgent.attempt _ _ _ _ _ _) as [[r|e] st']; reflexivity.
  - rewrite (compile_invoke_eq E self aspirasi responses st Hllm Hcompile Hne).
    rewrite <- (call_and_parse_issues_one_call E self _ (started st) eq_refl).
    rewrite <- compile_attempt_store
      with (relevant_responses := filter CompileAgent.is_relevant responses).
    destruct (CompileAgent.attempt _ _ _ _ _) as [[r|e] st']; reflexivity.
  - rewrite (followup_invoke_eq E self aspirasi kompilasi st Hllm Hplan Hstatus).
    rewrite <- (call_and_parse_issues_one_call E self _ (started st) eq_refl).
    rewrite <- followup_attempt_store.
    destruct (FollowUpAgent.attempt _ _ _ _) as [[r|e] st']; reflexivity.
Qed.

Lemma one_call_past_the_guard_witness :
  client_raises_Exception Instances.helpful
  /\ accepts_failed_evaluation Instances.env
  /\ accepts_failed_compilation Instances.env
  /\ accepts_empty_plan Instances.env
  /\ filter CompileAgent.is_relevant Instances.two_relevant <> []
  /\ KompilasiResponse.status (Instances.collected 2) = lit "terkumpul"
  /\ calls (snd (AbsorbAgent.invoke Instances.env Instances.helpful
                   Instances.member Instances.aspirasi Instances.fresh))
     = calls Instances.fresh
       ++ [absorb_messages Instances.member Instances.aspirasi]
  /\ calls (snd (CompileAgent.invoke Instances.env Instances.helpful
                   Instances.aspirasi Instances.two_relevant Instances.fresh))
     = calls Instances.fresh
       ++ [compile_messages Instances.env Instances.aspirasi Instances.two_relevant]
  /\ calls (snd (FollowUpAgent.invoke Instances.env Instances.helpful
                   Instances.aspirasi (Instances.collected 2) Instances.fresh))
     = calls Instances.fresh
       ++ [followup_messages Instances.env Instances.aspirasi
             (Instances.collected 2)].
Proof.
  assert (H1 : client_raises_Exception Instances.helpful)
    by (intros log messages e H; discriminate H).
  assert (H2 : accepts_failed_evaluation Instances.env)
    by (intros m a e c; reflexivity).
  assert (H3 : accepts_failed_compilation Instances.env)
    by (intros rs e c; reflexivity).
  assert (H4 : accepts_empty_plan Instances.env) by (intros msg c; reflexivity).
  assert (H5 : filter CompileAgent.is_relevant Instances.two_relevant <> [])
    by discriminate.
  assert (H6 : KompilasiResponse.status (Instances.collected 2) = lit "terkumpul")
    by reflexivity.
  repeat (split; [assumption|]).
  exact (one_call_past_the_guard Instances.env Instances.helpful Instances.member
           Instances.aspirasi Instances.two_relevant (Instances.collected 2)
           Instances.fresh H1 H2 H3 H4 H5 H6).
Defined.

(** * Further properties *)

(** ** What each stage returns once the client has answered *)

(** The evaluation stage, case by case: the usage cannot be charged; the
    content cannot be decoded; the decoded value is not a dictionary or is
    rejected by the model class; or the result is built. *)
Lemma absorb_invoke_on_response E self member aspirasi st response :
  client_raises_Exception self ->
  accepts_failed_evaluation E ->
  llm self (calls st) (absorb_messages member aspirasi) = Ret response ->
  AbsorbAgent.invoke E self member aspirasi st =
    match usage_cost self response with
    | Raise e =>
        (Ret (AbsorbAgent.failed member aspirasi e 0%float),
         called st (absorb_messages member aspirasi) 0%float)
    | Ret c =>
        (Ret match parse_content E (AIMessage.content response) with
             | Raise e => AbsorbAgent.failed member aspirasi e c
             | Ret v =>
                 stage_result (validate_AbsorpsiResponse E)
                   (fun d => absorb_result member aspirasi d c)
                   (fun e => AbsorbAgent.failed member aspirasi e c) v
             end,
         called st (absorb_messages member aspirasi) c)
    end.
Proof.
  intros Hllm Hok Hcall.
  rewrite (absorb_invoke_eq E self member aspirasi st Hllm Hok).
  unfold AbsorbAgent.attempt, bind.
  rewrite call_and_parse_eq by reflexivity.
  change (calls (started st)) with (calls st). rewrite Hcall.
  change (called (started st)) with (called st).
  destruct (usage_cost self response) as [c|e]; [|reflexivity].
  destruct (parse_content E (AIMessage.content response)) as [v|e]; [|reflexivity].
  destruct v; try reflexivity.
  unfold py_get, lift, get_cost, construct, stage_result.
  change (cost (called st (absorb_messages member aspirasi) c)) with c.
  match goal with |- context [validate_AbsorpsiResponse E ?x] =>
    change x with (absorb_result member aspirasi d c) end.
  destruct (validate_AbsorpsiResponse E (absorb_result member aspirasi d c));
    reflexivity.
Qed.

(** The aggregation stage past its guard. *)
Lemma compile_invoke_on_response E self aspirasi responses st response :
  client_raises_Exception self ->
  accepts_failed_compilation E ->
  filter CompileAgent.is_relevant responses <> [] ->
  llm self (calls st) (compile_messages E aspirasi responses) = Ret response ->
  let relevant := filter CompileAgent.is_relevant responses in
  CompileAgent.invoke E self aspirasi responses st =
    match usage_cost self response with
    | Raise e =>
        (Ret (CompileAgent.failed relevant e 0%float),
         called st (compile_messages E aspirasi responses) 0%float)
    | Ret c =>
        (Ret match parse_content E (AIMessage.content response) with
             | Raise e => CompileAgent.failed relevant e c
             | Ret v =>
                 stage_result (validate_KompilasiResponse E)
                   (fun d => compile_result relevant d c)
                   (fun e => CompileAgent.failed relevant e c) v
             end,
         called st (compile_messages E aspirasi responses) c)
    end.
Proof.
  intros Hllm Hok Hne Hcall relevant.
  rewrite (compile_invoke_eq E self aspirasi responses st Hllm Hok Hne).
  fold relevant. unfold CompileAgent.attempt, bind.
  rewrite call_and_parse_eq by reflexivity.
  change (calls (started st)) with (calls st). rewrite Hcall.
  change (called (started st)) with (called st).
  destruct (usage_cost self response) as [c|e]; [|reflexivity].
  destruct (parse_content E (AIMessage.content response)) as [v|e]; [|reflexivity].
  destruct v; try reflexivity.
  unfold py_get, lift, get_cost, construct, stage_result.
  change (cost (called st (compile_messages E aspirasi responses) c)) with c.
  match goal with |- context [validate_KompilasiResponse E ?x] =>
    change x with (compile_result relevant d c) end.
  destruct (validate_KompilasiResponse E (compile_result relevant d c));
    reflexivity.
Qed.

(** The planning stage past its guard. *)
Lemma followup_invoke_on_response E self aspirasi kompilasi st response :
  client_raises_Exception self ->
  accepts_empty_plan E ->
  KompilasiResponse.status kompilasi = lit "terkumpul" ->
  llm self (calls st) (followup_messages E aspirasi kompilasi) = Ret response ->
  FollowUpAgent.invoke E self aspirasi kompilasi st =
    match usage_cost self response with
    | Raise e =>
        (Ret (FollowUpAgent.empty_plan (str_of_exn e) 0%float),
         called st (followup_messages E aspirasi kompilasi) 0%float)
    | Ret c =>
        (Ret match parse_content E (AIMessage.content response) with
             | Raise e => FollowUpAgent.empty_plan (str_of_exn e) c
             | Ret v =>
                 stage_result (validate_TindakLanjutResponse E)
                   (fun d => followup_result d c)
                   (fun e => FollowUpAgent.empty_plan (str_of_exn e) c) v
             end,
         called st (followup_messages E aspirasi kompilasi) c)
    end.
Proof.
  intros Hllm Hok Hstatus Hcall.
  rewrite (followup_invoke_eq E self aspirasi kompilasi st Hllm Hok Hstatus).
  unfold FollowUpAgent.attempt, bind.
  rewrite call_and_parse_eq by reflexivity.
  change (calls (started st)) with (calls st). rewrite Hcall.
  change (called (started st)) with (called st).
  destruct (usage_cost self response) as [c|e]; [|reflexivity].
  destruct (parse_content E (AIMessage.content response)) as [v|e]; [|reflexivity].
  destruct v; try reflexivity.
  unfold py_get, lift, get_cost, construct, stage_result.
  change (cost (called st (followup_messages E aspirasi kompilasi) c)) with c.
  match goal with |- context [validate_TindakLanjutResponse E ?x] =>
    change x with (followup_result d c) end.
  destruct (validate_TindakLanjutResponse E (followup_result d c));
    reflexivity.
Qed.

(** The same stages when the call itself raises. *)
Lemma absorb_invoke_on_raise E self member aspirasi st e :
  client_raises_Exception self ->
  accepts_failed_evaluation E ->
  llm self (calls st) (absorb_messages member aspirasi) = Raise e ->
  AbsorbAgent.invoke E self member aspirasi st
  = (Ret (AbsorbAgent.failed member aspirasi e 0%float),
     called st (absorb_messages member aspirasi) 0%float).
Proof.
  intros Hllm Hok Hcall.
  rewrite (absorb_invoke_eq E self member aspirasi st Hllm Hok).
  now rewrite (absorb_attempt_fails _ _ _ _ _ _ _ _
                 (call_and_parse_call_failed E self _ (started st) e eq_refl Hcall)).
Qed.

Lemma compile_invoke_on_raise E self aspirasi responses st e :
  client_raises_Exception self ->
  accepts_failed_compilation E ->
  filter CompileAgent.is_relevant responses <> [] ->
  llm self (calls st) (compile_messages E aspirasi responses) = Raise e ->
  CompileAgent.invoke E self aspirasi responses st
  = (Ret (CompileAgent.failed (filter CompileAgent.is_relevant responses)
            e 0%float),
     called st (compile_messages E aspirasi responses) 0%float).
Proof.
  intros Hllm Hok Hne Hcall.
  rewrite (compile_invoke_eq E self aspirasi responses st Hllm Hok Hne).
  now rewrite (compile_attempt_fails _ _ _ _ _ _ _
                 (call_and_parse_call_failed E self _ (started st) e eq_refl Hcall)).
Qed.

Lemma followup_invoke_on_raise E self aspirasi kompilasi st e :
  client_raises_Exception self ->
  accepts_empty_plan E ->
  KompilasiResponse.status kompilasi = lit "terkumpul" ->
  llm self (calls st) (followup_messages E aspirasi kompilasi) = Raise e ->
  FollowUpAgent.invoke E self aspirasi kompilasi st
  = (Ret (FollowUpAgent.empty_plan (str_of_exn e) 0%float),
     called st (followup_messages E aspirasi kompilasi) 0%float).
Proof.
  intros Hllm Hok Hstatus Hcall.
  rewrite (followup_invoke_eq E self aspirasi kompilasi st Hllm Hok Hstatus).
  now rewrite (followup_attempt_fails _ _ _ _ _ _
                 (call_and_parse_call_failed E self _ (started st) e eq_refl Hcall)).
Qed.

(** X2.  When the call returns, its usage is charged [c] and its content
    decodes to a dictionary [d] from which the model class accepts the
    object built, each agent returns exactly that object: every field is
    the value [d] binds to the field's key, or the field's default when
    the key is absent; the evaluation carries the ids of its member and
    aspiration, the aggregation the status "terkumpul" and the number of
    relevant evaluations; the error is [None] and the cost is [c]. *)
Theorem answer_fields_become_result_fields
    (E : Env) (self : BaseAgent) (member : DPRMember.t) (aspirasi : Aspirasi.t)
    (responses : list AbsorpsiResponse.t) (kompilasi : KompilasiResponse.t)
    (st : store) (response : AIMessage.t) (c : float) (d : list (str * pyval)) :
  client_raises_Exception self ->
  accepts_failed_evaluation E ->
  accepts_failed_compilation E ->
  accepts_empty_plan E ->
  filter CompileAgent.is_relevant responses <> [] ->
  KompilasiResponse.status kompilasi = lit "terkumpul" ->
  usage_cost self response = Ret c ->
  parse_content E (AIMessage.content response) = Ret (VDict d) ->
  (llm self (calls st) (absorb_messages member aspirasi) = Ret response ->
   validate_AbsorpsiResponse E (absorb_result member aspirasi d c) = None ->
   AbsorbAgent.invoke E self member aspirasi st
   = (Ret (absorb_result member aspirasi d c),
      called st (absorb_messages member aspirasi) c))
  /\ (llm self (calls st) (compile_messages E aspirasi responses) = Ret response ->
      validate_KompilasiResponse E
        (compile_result (filter CompileAgent.is_relevant responses) d c) = None ->
      CompileAgent.invoke E self aspirasi responses st
      = (Ret (compile_result (filter CompileAgent.is_relevant responses) d c),
         called st (compile_messages E aspirasi responses) c))
  /\ (llm self (calls st) (followup_messages E aspirasi kompilasi) = Ret response ->
      validate_TindakLanjutResponse E (followup_result d c) = None ->
      FollowUpAgent.invoke E self aspirasi kompilasi st
      = (Ret (followup_result d c),
         called st (followup_messages E aspirasi kompilasi) c)).
Proof.
  intros Hllm Habsorb Hcompile Hplan Hne Hstatus Hc Hparse.
  split; [|split]; intros Hcall Hvalid.
  - rewrite (absorb_invoke_on_response E self member aspirasi st response
               Hllm Habsorb Hcall).
    rewrite Hc, Hparse. unfold stage_result. now rewrite Hvalid.
  - rewrite (compile_invoke_on_response E self aspirasi responses st response
               Hllm Hcompile Hne Hcall).
    cbv zeta. rewrite Hc, Hparse. unfold stage_result. now rewrite Hvalid.
  - rewrite (followup_invoke_on_response E self aspirasi kompilasi st response
               Hllm Hplan Hstatus Hcall).
    rewrite Hc, Hparse. unfold stage_result. now rewrite Hvalid.
Qed.

Lemma answer_fields_become_result_fields_witness :
  client_raises_Exception Instances.helpful
  /\ accepts_failed_evaluation Instances.env
  /\ accepts_failed_compilation Instances.env
  /\ accepts_empty_plan Instances.env
  /\ filter CompileAgent.is_relevant Instances.two_relevant <> []
  /\ KompilasiResponse.status (Instances.collected 2) = lit "terkumpul"
  /\ parse_content Instances.env (AIMessage.content Cases.helpful_response)
     = Ret (VDict Cases.helpful_dict)
  /\ exists c,
       usage_cost Instances.helpful Cases.helpful_response = Ret c
       /\ AbsorbAgent.invoke Instances.env Instances.helpful Instances.member
            Instances.aspirasi Instances.fresh
          = (Ret (absorb_result Instances.member Instances.aspirasi
                    Cases.helpful_dict c),
             called Instances.fresh
               (absorb_messages Instances.member Instances.aspirasi) c)
       /\ CompileAgent.invoke Instances.env Instances.helpful Instances.aspirasi
            Instances.two_relevant Instances.fresh
          = (Ret (compile_result
                    (filter CompileAgent.is_relevant Instances.two_relevant)
                    Cases.helpful_dict c),
             called Instances.fresh
               (compile_messages Instances.env Instances.aspirasi
                  Instances.two_relevant) c)
       /\ FollowUpAgent.invoke Instances.env Instances.helpful Instances.aspirasi
            (Instances.collected 2) Instances.fresh
          = (Ret (followup_result Cases.helpful_dict c),
             called Instances.fresh
               (followup_messages Instances.env Instances.aspirasi
                  (Instances.collected 2)) c).
Proof.
  assert (H1 : client_raises_Exception Instances.helpful)
    by (intros log messages e H; discriminate H).
  assert (H2 : accepts_failed_evaluation Instances.env)
    by (intros m a e c; reflexivity).
  assert (H3 : accepts_failed_compilation Instances.env)
    by (intros rs e c; reflexivity).
  assert (H4 : accepts_empty_plan Instances.env) by (intros msg c; reflexivity).
  assert (H5 : filter CompileAgent.is_relevant Instances.two_relevant <> [])
    by discriminate.
  assert (H6 : KompilasiResponse.status (Instances.collected 2) = lit "terkumpul")
    by reflexivity.
  assert (H7 : parse_content Instances.env (AIMessage.content Cases.helpful_response)
               = Ret (VDict Cases.helpful_dict))
    by (vm_compute; reflexivity).
  repeat (split; [assumption|]).
  eexists. split; [reflexivity|].
  destruct (answer_fields_become_result_fields Instances.env Instances.helpful
              Instances.member Instances.aspirasi Instances.two_relevant
              (Instances.collected 2) Instances.fresh Cases.helpful_response
              _ Cases.helpful_dict H1 H2 H3 H4 H5 H6 eq_refl H7)
    as (Ha & Hc & Hf).
  split; [|split].
  - apply Ha; reflexivity.
  - apply Hc; reflexivity.
  - apply Hf; reflexivity.
Defined.

(** X3.  When the content decodes to a value that is not a dictionary (a
    list, a number, a text, [null]), each agent returns the result of its
    [except] branch: the error says that the value has no attribute [get],
    and the cost charged for the call is kept. *)
Theorem non_object_answer_is_a_failure
    (E : Env) (self : BaseAgent) (member : DPRMember.t) (aspirasi : Aspirasi.t)
    (responses : list AbsorpsiResponse.t) (kompilasi : KompilasiResponse.t)
    (st : store) (response : AIMessage.t) (c : float) (v : pyval) :
  client_raises_Exception self ->
  accepts_failed_evaluation E ->
  accepts_failed_compilation E ->
  accepts_empty_plan E ->
  filter CompileAgent.is_relevant responses <> [] ->
  KompilasiResponse.status kompilasi = lit "terkumpul" ->
  usage_cost self response = Ret c ->
  parse_content E (AIMessage.content response) = Ret v ->
  is_dict v = false ->
  (llm self (calls st) (absorb_messages member aspirasi) = Ret response ->
   AbsorbAgent.invoke E self member aspirasi st
   = (Ret (AbsorbAgent.failed member aspirasi (AttributeError v "get") c),
      called st (absorb_messages member aspirasi) c))
  /\ (llm self (calls st) (compile_messages E aspirasi responses) = Ret response ->
      CompileAgent.invoke E self aspirasi responses st
      = (Ret (CompileAgent.failed (filter CompileAgent.is_relevant responses)
                (AttributeError v "get") c),
         called st (compile_messages E aspirasi responses) c))
  /\ (llm self (calls st) (followup_messages E aspirasi kompilasi) = Ret response ->
      FollowUpAgent.invoke E self aspirasi kompilasi st
      = (Ret (FollowUpAgent.empty_plan (str_of_exn (AttributeError v "get")) c),
         called st (followup_messages E aspirasi kompilasi) c)).
Proof.
  intros Hllm Habsorb Hcompile Hplan Hne Hstatus Hc Hparse Hv.
  split; [|split]; intros Hcall.
  - rewrite (absorb_invoke_on_response E self member aspirasi st response
               Hllm Habsorb Hcall).
    rewrite Hc, Hparse. destruct v; try reflexivity; discriminate.
  - rewrite (compile_invoke_on_response E self aspirasi responses st response
               Hllm Hcompile Hne Hcall).
    cbv zeta. rewrite Hc, Hparse. destruct v; try reflexivity; discriminate.
  - rewrite (followup_invoke_on_response E self aspirasi kompilasi st response
               Hllm Hplan Hstatus Hcall).
    rewrite Hc, Hparse. destruct v; try reflexivity; discriminate.
Qed.

Lemma non_object_answer_is_a_failure_witness :
  client_raises_Exception Cases.listing
  /\ accepts_failed_evaluation Instances.env
  /\ accepts_failed_compilation Instances.env
  /\ accepts_empty_plan Instances.env
  /\ filter CompileAgent.is_relevant Instances.two_relevant <> []
  /\ KompilasiResponse.status (Instances.collected 2) = lit "terkumpul"
  /\ parse_content Instances.env (VStr (lit "[1, 2]")) = Ret (VList [VInt 1; VInt 2])
  /\ is_dict (VList [VInt 1; VInt 2]) = false
  /\ exists c st',
       AbsorbAgent.invoke Instances.env Cases.listing Instances.member
         Instances.aspirasi Instances.fresh
       = (Ret (AbsorbAgent.failed Instances.member Instances.aspirasi
                 (Exception (lit "'list' object has no attribute 'get'")) c), st')
       /\ Instances.settings_cost (VInt 1000) (VInt 500) = inr c.
Proof.
  assert (H1 : client_raises_Exception Cases.listing)
    by (intros log messages e H; discriminate H).
  assert (H2 : accepts_failed_evaluation Instances.env)
    by (intros m a e c; reflexivity).
  assert (H3 : accepts_failed_compilation Instances.env)
    by (intros rs e c; reflexivity).
  assert (H4 : accepts_empty_plan Instances.env) by (intros msg c; reflexivity).
  assert (H5 : filter CompileAgent.is_relevant Instances.two_relevant <> [])
    by discriminate.
  assert (H6 : KompilasiResponse.status (Instances.collected 2) = lit "terkumpul")
    by reflexivity.
  assert (H7 : parse_content Instances.env (VStr (lit "[1, 2]"))
               = Ret (VList [VInt 1; VInt 2]))
    by (vm_compute; reflexivity).
  assert (H8 : is_dict (VList [VInt 1; VInt 2]) = false) by reflexivity.
  repeat (split; [assumption|]).
  destruct (non_object_answer_is_a_failure Instances.env Cases.listing
              Instances.member Instances.aspirasi Instances.two_relevant
              (Instances.collected 2) Instances.fresh
              {| AIMessage.content := VStr (lit "[1, 2]");
                 AIMessage.response_metadata :=
                   Some (Instances.usage_metadata 1000 500) |}
              _ _ H1 H2 H3 H4 H5 H6 eq_refl H7 H8)
    as (Ha & _).
  eexists _, _. split; [apply Ha; reflexivity | reflexivity].
Defined.

(** ** The usage of a call *)

(** X4.  When the usage of a returned call cannot be charged -- the
    metadata or its "token_usage" is not a dictionary, or [_calculate_cost]
    raises -- each agent returns the result of its [except] branch with
    that exception and cost 0.0, without looking at the content: an answer
    that would decode is discarded. *)
Theorem uncharged_usage_discards_the_answer
    (E : Env) (self : BaseAgent) (member : DPRMember.t) (aspirasi : Aspirasi.t)
    (responses : list AbsorpsiResponse.t) (kompilasi : KompilasiResponse.t)
    (st : store) (response : AIMessage.t) (e : exn) :
  client_raises_Exception self ->
  accepts_failed_evaluation E ->
  accepts_failed_compilation E ->
  accepts_empty_plan E ->
  filter CompileAgent.is_relevant responses <> [] ->
  KompilasiResponse.status kompilasi = lit "terkumpul" ->
  usage_cost self response = Raise e ->
  (llm self (calls st) (absorb_messages member aspirasi) = Ret response ->
   AbsorbAgent.invoke E self member aspirasi st
   = (Ret (AbsorbAgent.failed member aspirasi e 0%float),
      called st (absorb_messages member aspirasi) 0%float))
  /\ (llm self (calls st) (compile_messages E aspirasi responses) = Ret response ->
      CompileAgent.invoke E self aspirasi responses st
      = (Ret (CompileAgent.failed (filter CompileAgent.is_relevant responses)
                e 0%float),
         called st (compile_messages E aspirasi responses) 0%float))
  /\ (llm self (calls st) (followup_messages E aspirasi kompilasi) = Ret response ->
      FollowUpAgent.invoke E self aspirasi kompilasi st
      = (Ret (FollowUpAgent.empty_plan (str_of_exn e) 0%float),
         called st (followup_messages E aspirasi kompilasi) 0%float)).
Proof.
  intros Hllm Habsorb Hcompile Hplan Hne Hstatus Hc.
  split; [|split]; intros Hcall.
  - rewrite (absorb_invoke_on_response E self member aspirasi st response
               Hllm Habsorb Hcall).
    now rewrite Hc.
  - rewrite (compile_invoke_on_response E self aspirasi responses st response
               Hllm Hcompile Hne Hcall).
    cbv zeta. now rewrite Hc.
  - rewrite (followup_invoke_on_response E self aspirasi kompilasi st response
               Hllm Hplan Hstatus Hcall).
    now rewrite Hc.
Qed.

Lemma uncharged_usage_discards_the_answer_witness :
  client_raises_Exception Cases.null_usage
  /\ accepts_failed_evaluation Instances.env
  /\ accepts_failed_compilation Instances.env
  /\ accepts_empty_plan Instances.env
  /\ filter CompileAgent.is_relevant Instances.two_relevant <> []
  /\ KompilasiResponse.status (Instances.collected 2) = lit "terkumpul"
  /\ usage_cost Cases.null_usage
       {| AIMessage.content := VStr Instances.fenced_reply;
          AIMessage.response_metadata := Some (VDict [(lit "token_usage", VNone)]) |}
     = Raise (Exception (lit "'NoneType' object has no attribute 'get'"))
  /\ parse_content Instances.env (VStr Instances.fenced_reply)
     = Ret (VDict Cases.helpful_dict)
  /\ AbsorbAgent.invoke Instances.env Cases.null_usage Instances.member
       Instances.aspirasi Instances.fresh
     = (Ret (AbsorbAgent.failed Instances.member Instances.aspirasi
               (Exception (lit "'NoneType' object has no attribute 'get'"))
               0%float),
        called Instances.fresh
          (absorb_messages Instances.member Instances.aspirasi) 0%float).
Proof.
  assert (H1 : client_raises_Exception Cases.null_usage)
    by (intros log messages e H; discriminate H).
  assert (H2 : accepts_failed_evaluation Instances.env)
    by (intros m a e c; reflexivity).
  assert (H3 : accepts_failed_compilation Instances.env)
    by (intros rs e c; reflexivity).
  assert (H4 : accepts_empty_plan Instances.env) by (intros msg c; reflexivity).
  assert (H5 : filter CompileAgent.is_relevant Instances.two_relevant <> [])
    by discriminate.
  assert (H6 : KompilasiResponse.status (Instances.collected 2) = lit "terkumpul")
    by reflexivity.
  assert (H7 : usage_cost Cases.null_usage
                 {| AIMessage.content := VStr Instances.fenced_reply;
                    AIMessage.response_metadata :=
                      Some (VDict [(lit "token_usage", VNone)]) |}
               = Raise (Exception (lit "'NoneType' object has no attribute 'get'")))
    by reflexivity.
  assert (H8 : parse_content Instances.env (VStr Instances.fenced_reply)
               = Ret (VDict Cases.helpful_dict))
    by (vm_compute; reflexivity).
  repeat (split; [assumption|]).
  destruct (uncharged_usage_discards_the_answer Instances.env Cases.null_usage
              Instances.member Instances.aspirasi Instances.two_relevant
              (Instances.collected 2) Instances.fresh _ _ H1 H2 H3 H4 H5 H6 H7)
    as (Ha & _).
  apply Ha. reflexivity.
Defined.

(** The cost of a result whose call returned and was charged. *)
Lemma absorb_cost_charged E self member aspirasi st response c :
  client_raises_Exception self ->
  accepts_failed_evaluation E ->
  llm self (calls st) (absorb_messages member aspirasi) = Ret response ->
  usage_cost self response = Ret c ->
  exists r st',
    AbsorbAgent.invoke E self member aspirasi st = (Ret r, st')
    /\ AbsorpsiResponse.cost_usd r = c.
Proof.
  intros Hllm Hok Hcall Hc.
  rewrite (absorb_invoke_on_response E self member aspirasi st response Hllm Hok Hcall).
  rewrite Hc. eexists _, _. split; [reflexivity|].
  destruct (parse_content E (AIMessage.content response)) as [v|e]; [|reflexivity].
  unfold stage_result. destruct v; try reflexivity.
  destruct (validate_AbsorpsiResponse E _); reflexivity.
Qed.

Lemma compile_cost_charged E self aspirasi responses st response c :
  client_raises_Exception self ->
  accepts_failed_compilation E ->
  filter CompileAgent.is_relevant responses <> [] ->
  llm self (calls st) (compile_messages E aspirasi responses) = Ret response ->
  usage_cost self response = Ret c ->
  exists r st',
    CompileAgent.invoke E self aspirasi responses st = (Ret r, st')
    /\ KompilasiResponse.cost_usd r = c.
Proof.
  intros Hllm Hok Hne Hcall Hc.
  rewrite (compile_invoke_on_response E self aspirasi responses st response
             Hllm Hok Hne Hcall).
  cbv zeta. rewrite Hc. eexists _, _. split; [reflexivity|].
  destruct (parse_content E (AIMessage.content response)) as [v|e]; [|reflexivity].
  unfold stage_result. destruct v; try reflexivity.
  destruct (validate_KompilasiResponse E _); reflexivity.
Qed.

Lemma followup_cost_charged E self aspirasi kompilasi st response c :
  client_raises_Exception self ->
  accepts_empty_plan E ->
  KompilasiResponse.status kompilasi = lit "terkumpul" ->
  llm self (calls st) (followup_messages E aspirasi kompilasi) = Ret response ->
  usage_cost self response = Ret c ->
  exists r st',
    FollowUpAgent.invoke E self aspirasi kompilasi st = (Ret r, st')
    /\ TindakLanjutResponse.cost_usd r = c.
Proof.
  intros Hllm Hok Hstatus Hcall Hc.
  rewrite (followup_invoke_on_response E self aspirasi kompilasi st response
             Hllm Hok Hstatus Hcall).
  rewrite Hc. eexists _, _. split; [reflexivity|].
  destruct (parse_content E (AIMessage.content response)) as [v|e]; [|reflexivity].
  unfold stage_result. destruct v; try reflexivity.
  destruct (validate_TindakLanjutResponse E _); reflexivity.
Qed.

(** What the metadata of a response costs, read from the metadata
    itself. *)
Lemma usage_cost_without_metadata self response :
  AIMessage.response_metadata response = None ->
  usage_cost self response = Ret 0%float.
Proof. intros H. unfold usage_cost. now rewrite H. Qed.

Lemma usage_cost_of_usage self response metadata u :
  AIMessage.response_metadata response = Some (VDict metadata) ->
  get_or metadata "token_usage" (VDict []) = VDict u ->
  usage_cost self response
  = of_sum (_calculate_cost self (get_or u "prompt_tokens" (VInt 0))
              (get_or u "completion_tokens" (VInt 0))).
Proof.
  intros Hm Hu. unfold usage_cost. rewrite Hm. unfold py_get at 1.
  fold (get_or metadata "token_usage" (VDict [])). rewrite Hu. reflexivity.
Qed.

(** X5.  Past the guards, when the call returns and its usage is charged
    [c], the result of each agent has cost [c] whatever happens next:
    whether the content decodes or not, is a dictionary or not, and
    whether the model class accepts the object built or not. *)
Theorem returned_call_is_always_charged
    (E : Env) (self : BaseAgent) (member : DPRMember.t) (aspirasi : Aspirasi.t)
    (responses : list AbsorpsiResponse.t) (kompilasi : KompilasiResponse.t)
    (st : store) (response : AIMessage.t) (c : float) :
  client_raises_Exception self ->
  accepts_failed_evaluation E ->
  accepts_failed_compilation E ->
  accepts_empty_plan E ->
  filter CompileAgent.is_relevant responses <> [] ->
  KompilasiResponse.status kompilasi = lit "terkumpul" ->
  usage_cost self response = Ret c ->
  each_stage_costs E self member aspirasi responses kompilasi st response c.
Proof.
  intros Hllm Habsorb Hcompile Hplan Hne Hstatus Hc.
  split; [|split]; intros Hcall.
  - now apply absorb_cost_charged with (response := response).
  - now apply compile_cost_charged with (response := response).
  - now apply followup_cost_charged with (response := response).
Qed.

Lemma returned_call_is_always_charged_witness :
  client_raises_Exception Instances.garbled
  /\ accepts_failed_evaluation Instances.env
  /\ accepts_failed_compilation Instances.env
  /\ accepts_empty_plan Instances.env
  /\ filter CompileAgent.is_relevant Instances.two_relevant <> []
  /\ KompilasiResponse.status (Instances.collected 2) = lit "terkumpul"
  /\ exists c,
       Instances.settings_cost (VInt 1000) (VInt 500) = inr c
       /\ each_stage_costs Instances.env Instances.garbled Instances.member
            Instances.aspirasi Instances.two_relevant (Instances.collected 2)
            Instances.fresh
            {| AIMessage.content := VStr (lit "Maaf, saya tidak dapat membantu.");
               AIMessage.response_metadata :=
                 Some (Instances.usage_metadata 1000 500) |}
            c.
Proof.
  assert (H1 : client_raises_Exception Instances.garbled)
    by (intros log messages e H; discriminate H).
  assert (H2 : accepts_failed_evaluation Instances.env)
    by (intros m a e c; reflexivity).
  assert (H3 : accepts_failed_compilation Instances.env)
    by (intros rs e c; reflexivity).
  assert (H4 : accepts_empty_plan Instances.env) by (intros msg c; reflexivity).
  assert (H5 : filter CompileAgent.is_relevant Instances.two_relevant <> [])
    by discriminate.
  assert (H6 : KompilasiResponse.status (Instances.collected 2) = lit "terkumpul")
    by reflexivity.
  repeat (split; [assumption|]).
  eexists. split; [reflexivity|].
  exact (returned_call_is_always_charged Instances.env Instances.garbled
           Instances.member Instances.aspirasi Instances.two_relevant
           (Instances.collected 2) Instances.fresh
           {| AIMessage.content := VStr (lit "Maaf, saya tidak dapat membantu.");
              AIMessage.response_metadata :=
                Some (Instances.usage_metadata 1000 500) |}
           _ H1 H2 H3 H4 H5 H6 eq_refl).
Defined.

(** X6.  Usage data that is missing counts as zero.  A response without
    metadata costs 0.0.  A response whose metadata is a dictionary costs
    what [_calculate_cost] returns for the two token counts of its
    "token_usage", a count that is absent being 0 and an absent
    "token_usage" being the empty dictionary.  Neither is an error. *)
Theorem missing_usage_counts_as_zero
    (E : Env) (self : BaseAgent) (member : DPRMember.t) (aspirasi : Aspirasi.t)
    (responses : list AbsorpsiResponse.t) (kompilasi : KompilasiResponse.t)
    (st : store) (response : AIMessage.t) :
  client_raises_Exception self ->
  accepts_failed_evaluation E ->
  accepts_failed_compilation E ->
  accepts_empty_plan E ->
  filter CompileAgent.is_relevant responses <> [] ->
  KompilasiResponse.status kompilasi = lit "terkumpul" ->
  (AIMessage.response_metadata response = None ->
   each_stage_costs E self member aspirasi responses kompilasi st response 0%float)
  /\ (forall metadata u c,
        AIMessage.response_metadata response = Some (VDict metadata) ->
        get_or metadata "token_usage" (VDict []) = VDict u ->
        _calculate_cost self (get_or u "prompt_tokens" (VInt 0))
          (get_or u "completion_tokens" (VInt 0)) = inr c ->
        each_stage_costs E self member aspirasi responses kompilasi st response c).
Proof.
  intros Hllm Habsorb Hcompile Hplan Hne Hstatus. split.
  - intros Hnone.
    assert (Hc := usage_cost_without_metadata self response Hnone).
    split; [|split]; intros Hcall.
    + now apply absorb_cost_charged with (response := response).
    + now apply compile_cost_charged with (response := response).
    + now apply followup_cost_charged with (response := response).
  - intros metadata u c Hm Hu Hcost.
    assert (Hc : usage_cost self response = Ret c).
    { rewrite (usage_cost_of_usage self response metadata u Hm Hu).
      now rewrite Hcost. }
    split; [|split]; intros Hcall.
    + now apply absorb_cost_charged with (response := response).
    + now apply compile_cost_charged with (response := response).
    + now apply followup_cost_charged with (response := response).
Qed.

Lemma missing_usage_counts_as_zero_witness :
  client_raises_Exception Cases.no_usage
  /\ accepts_failed_evaluation Instances.env
  /\ accepts_failed_compilation Instances.env
  /\ accepts_empty_plan Instances.env
  /\ filter CompileAgent.is_relevant Instances.two_relevant <> []
  /\ KompilasiResponse.status (Instances.collected 2) = lit "terkumpul"
  /\ Instances.settings_cost (VInt 0) (VInt 0) = inr 0%float
  /\ each_stage_costs Instances.env Cases.no_usage Instances.member
       Instances.aspirasi Instances.two_relevant (Instances.collected 2)
       Instances.fresh
       {| AIMessage.content := VStr Instances.fenced_reply;
          AIMessage.response_metadata := Some (VDict []) |}
       0%float.
Proof.
  assert (H1 : client_raises_Exception Cases.no_usage)
    by (intros log messages e H; discriminate H).
  assert (H2 : accepts_failed_evaluation Instances.env)
    by (intros m a e c; reflexivity).
  assert (H3 : accepts_failed_compilation Instances.env)
    by (intros rs e c; reflexivity).
  assert (H4 : accepts_empty_plan Instances.env) by (intros msg c; reflexivity).
  assert (H5 : filter CompileAgent.is_relevant Instances.two_relevant <> [])
    by discriminate.
  assert (H6 : KompilasiResponse.status (Instances.collected 2) = lit "terkumpul")
    by reflexivity.
  assert (H7 : Instances.settings_cost (VInt 0) (VInt 0) = inr 0%float)
    by (vm_compute; reflexivity).
  repeat (split; [assumption|]).
  destruct (missing_usage_counts_as_zero Instances.env Cases.no_usage
              Instances.member Instances.aspirasi Instances.two_relevant
              (Instances.collected 2) Instances.fresh
              {| AIMessage.content := VStr Instances.fenced_reply;
                 AIMessage.response_metadata := Some (VDict []) |}
              H1 H2 H3 H4 H5 H6)
    as [_ Hdict].
  exact (Hdict [] [] 0%float eq_refl eq_refl H7).
Defined.

(** X7.  Whatever the client does, the evaluation that [AbsorbAgent.invoke]
    returns carries the id of the member and the id of the aspiration it
    was invoked with, in the [try] body's result and in the handler's. *)
Theorem evaluation_carries_its_ids
    (E : Env) (self : BaseAgent) (member : DPRMember.t) (aspirasi : Aspirasi.t)
    (st : store) :
  client_raises_Exception self ->
  accepts_failed_evaluation E ->
  exists r st',
    AbsorbAgent.invoke E self member aspirasi st = (Ret r, st')
    /\ AbsorpsiResponse.member_id r = DPRMember.id member
    /\ AbsorpsiResponse.aspirasi_id r = Aspirasi.id aspirasi.
Proof.
  intros Hllm Hok.
  destruct (llm self (calls st) (absorb_messages member aspirasi))
    as [response|e] eqn:Hcall.
  - rewrite (absorb_invoke_on_response E self member aspirasi st response
               Hllm Hok Hcall).
    destruct (usage_cost self response) as [c|e];
      [|eexists _, _; repeat split; reflexivity].
    eexists _, _. split; [reflexivity|].
    destruct (parse_content E (AIMessage.content response)) as [v|e];
      [|split; reflexivity].
    unfold stage_result. destruct v; try (split; reflexivity).
    destruct (validate_AbsorpsiResponse E _); split; reflexivity.
  - rewrite (absorb_invoke_on_raise E self member aspirasi st e Hllm Hok Hcall).
    eexists _, _. repeat split; reflexivity.
Qed.

Lemma evaluation_carries_its_ids_witness :
  client_raises_Exception Instances.helpful
  /\ accepts_failed_evaluation Instances.env
  /\ exists r st',
       AbsorbAgent.invoke Instances.env Instances.helpful Instances.member
         Instances.aspirasi Instances.fresh = (Ret r, st')
       /\ AbsorpsiResponse.member_id r = DPRMember.id Instances.member
       /\ AbsorpsiResponse.aspirasi_id r = Aspirasi.id Instances.aspirasi.
Proof.
  assert (H1 : client_raises_Exception Instances.helpful)
    by (intros log messages e H; discriminate H).
  assert (H2 : accepts_failed_evaluation Instances.env)
    by (intros m a e c; reflexivity).
  repeat (split; [assumption|]).
  exact (evaluation_carries_its_ids Instances.env Instances.helpful
           Instances.member Instances.aspirasi Instances.fresh H1 H2).
Defined.

(** ** The aggregation *)

Lemma filter_filter_implied {A : Type} (f g : A -> bool) (l : list A) :
  (forall x, f x = true -> g x = true) ->
  filter g (filter f l) = filter f l.
Proof.
  intros H. induction l as [|x l IH]; [reflexivity|].
  simpl. destruct (f x) eqn:Hx; [|exact IH].
  simpl. now rewrite (H x Hx), IH.
Qed.

Lemma is_relevant_without_error r :
  CompileAgent.is_relevant r = true -> is_None (AbsorpsiResponse.error r) = true.
Proof. unfold CompileAgent.is_relevant. intros H. now apply andb_true_iff in H. Qed.

(** X8.  The fields of the aggregation that [CompileAgent.invoke] returns
    agree with one another: the status is "tidak_relevan" exactly when the
    count is 0, and then the cost is 0.0 and no call was issued; the status
    is "error" exactly when the error field is set; and the count is never
    more than the number of evaluations given. *)
Theorem compilation_fields_agree
    (E : Env) (self : BaseAgent) (aspirasi : Aspirasi.t)
    (responses : list AbsorpsiResponse.t) (st : store) :
  client_raises_Exception self ->
  accepts_not_relevant E ->
  accepts_failed_compilation E ->
  exists r st',
    CompileAgent.invoke E self aspirasi responses st = (Ret r, st')
    /\ (KompilasiResponse.status r = lit "tidak_relevan"
        <-> KompilasiResponse.jumlah_anggota r = 0%Z)
    /\ (KompilasiResponse.status r = lit "tidak_relevan" ->
        KompilasiResponse.cost_usd r = 0%float /\ calls st' = calls st)
    /\ (KompilasiResponse.status r = lit "error"
        <-> KompilasiResponse.error r <> None)
    /\ (0 <= KompilasiResponse.jumlah_anggota r
           <= Z.of_nat (List.length responses))%Z.
Proof.
  intros Hllm Hguard Hfail.
  assert (Hle := filter_length_le CompileAgent.is_relevant responses).
  destruct (filter CompileAgent.is_relevant responses) as [|r0 rest] eqn:Hrel.
  - exists CompileAgent.not_relevant, st. split.
    + unfold CompileAgent.invoke. rewrite Hrel. unfold lift, construct.
      now rewrite Hguard.
    + split; [split; reflexivity|]. split; [split; reflexivity|].
      split; [|simpl; lia]. split; [discriminate | intros H; now elim H].
  - assert (Hne : filter CompileAgent.is_relevant responses <> [])
      by (rewrite Hrel; discriminate).
    rewrite (compile_invoke_eq E self aspirasi responses st Hllm Hfail Hne).
    rewrite Hrel in *.
    destruct (CompileAgent.attempt E self (r0 :: rest)
                (compile_messages E aspirasi responses) (started st))
      as [[r|e] st'] eqn:Hrun.
    + destruct (compile_attempt_returns _ _ _ _ _ _ _ Hrun)
        as (v & _ & Hs & Hn & He & _).
      exists r, st'. split; [reflexivity|]. rewrite Hs, Hn, He.
      split; [split; [discriminate | simpl List.length; lia]|].
      split; [discriminate|].
      split; [split; [discriminate | intros H; now elim H]|].
      simpl List.length in *. lia.
    + eexists _, st'. split; [reflexivity|].
      split; [split; [discriminate | simpl; lia]|].
      split; [discriminate|].
      split; [split; [discriminate | reflexivity]|].
      simpl KompilasiResponse.jumlah_anggota. simpl List.length in *. lia.
Qed.

Lemma compilation_fields_agree_witness :
  client_raises_Exception Instances.garbled
  /\ accepts_not_relevant Instances.env
  /\ accepts_failed_compilation Instances.env
  /\ exists r st',
       CompileAgent.invoke Instances.env Instances.garbled Instances.aspirasi
         Instances.two_relevant Instances.fresh = (Ret r, st')
       /\ (KompilasiResponse.status r = lit "tidak_relevan"
           <-> KompilasiResponse.jumlah_anggota r = 0%Z)
       /\ (KompilasiResponse.status r = lit "tidak_relevan" ->
           KompilasiResponse.cost_usd r = 0%float
           /\ calls st' = calls Instances.fresh)
       /\ (KompilasiResponse.status r = lit "error"
           <-> KompilasiResponse.error r <> None)
       /\ (0 <= KompilasiResponse.jumlah_anggota r
              <= Z.of_nat (List.length Instances.two_relevant))%Z.
Proof.
  assert (H1 : client_raises_Exception Instances.garbled)
    by (intros log messages e H; discriminate H).
  assert (H2 : accepts_not_relevant Instances.env) by reflexivity.
  assert (H3 : accepts_failed_compilation Instances.env)
    by (intros rs e c; reflexivity).
  repeat (split; [assumption|]).
  exact (compilation_fields_agree Instances.env Instances.garbled
           Instances.aspirasi Instances.two_relevant Instances.fresh H1 H2 H3).
Defined.

(** X9.  Evaluations that do not count -- a relevance other than "Tinggi"
    and "Sedang", or an error -- have no influence on the aggregation:
    [CompileAgent.invoke] returns the same result, sends the same messages
    and leaves the same store with or without them. *)
Theorem evaluations_that_do_not_count_are_ignored
    (E : Env) (self : BaseAgent) (aspirasi : Aspirasi.t)
    (responses : list AbsorpsiResponse.t) (st : store) :
  CompileAgent.invoke E self aspirasi responses st
  = CompileAgent.invoke E self aspirasi
      (filter CompileAgent.is_relevant responses) st
  /\ (forall before r after,
        responses = before ++ r :: after ->
        ~ Relevant r ->
        CompileAgent.invoke E self aspirasi responses st
        = CompileAgent.invoke E self aspirasi (before ++ after) st).
Proof.
  split.
  - unfold CompileAgent.invoke.
    now rewrite (filter_filter_implied CompileAgent.is_relevant
                   CompileAgent.is_relevant responses (fun x H => H)).
  - intros before r after -> Hr.
    assert (Hb : CompileAgent.is_relevant r = false).
    { destruct (CompileAgent.is_relevant r) eqn:H; [|reflexivity].
      apply is_relevant_iff in H. contradiction. }
    unfold CompileAgent.invoke.
    now rewrite (filter_skips_irrelevant r before after Hb).
Qed.

(** X10.  The prompt of the aggregation announces as many members as the
    result counts: the user message that [CompileAgent.invoke] sends states
    the number of relevant evaluations and hands [json.dumps] one entry per
    relevant evaluation, in the order given, with its member id, relevance,
    justification, key points and recommendation (not its error, its cost
    or its aspiration id).  [_build_user_prompt] itself leaves out every
    evaluation that carries an error. *)
Theorem compile_prompt_counts_the_relevant
    (E : Env) (aspirasi : Aspirasi.t) (responses : list AbsorpsiResponse.t) :
  (exists data rest,
     data = map (fun r =>
                   VDict [ (lit "member_id", AbsorpsiResponse.member_id r);
                           (lit "relevansi", AbsorpsiResponse.relevansi r);
                           (lit "alasan_relevansi",
                            AbsorpsiResponse.alasan_relevansi r);
                           (lit "poin_kunci", AbsorpsiResponse.poin_kunci r);
                           (lit "rekomendasi_awal",
                            AbsorpsiResponse.rekomendasi_awal r) ])
                (filter CompileAgent.is_relevant responses)
     /\ List.length data = count_relevant responses
     /\ compile_messages E aspirasi responses
        = [ SystemMessage CompileAgent.get_system_prompt;
            HumanMessage
              (lit "Anda adalah staff ahli DPR yang mengompilasi masukan dari "
               ++ str_of_int (Z.of_nat (count_relevant responses))
               ++ lit " anggota DPR." ++ nl ++ nl
               ++ lit "Aspirasi: " ++ Aspirasi.content aspirasi ++ nl
               ++ lit "Kategori: " ++ Aspirasi.category aspirasi ++ nl ++ nl
               ++ lit "Tanggapan anggota:" ++ nl
               ++ json_dumps E (VList data) ++ rest) ])
  /\ (forall before r after,
        responses = before ++ r :: after ->
        AbsorpsiResponse.error r <> None ->
        CompileAgent._build_user_prompt E aspirasi responses
        = CompileAgent._build_user_prompt E aspirasi (before ++ after)).
Proof.
  split.
  - unfold compile_messages, CompileAgent._build_user_prompt.
    rewrite (filter_filter_implied CompileAgent.is_relevant
               (fun r => is_None (AbsorpsiResponse.error r)) responses
               is_relevant_without_error).
    cbv zeta. rewrite length_map, length_filter_is_relevant.
    eexists _, _. split; [reflexivity|]. split.
    + rewrite length_map. apply length_filter_is_relevant.
    + cbn [lines app]. rewrite <- !app_assoc. reflexivity.
  - intros before r after -> Hr.
    unfold CompileAgent._build_user_prompt.
    rewrite !filter_app. simpl filter.
    destruct (AbsorpsiResponse.error r); [reflexivity | now elim Hr].
Qed.

(** ** Results without an error *)

Lemma stage_result_built {R : Type} (validate : R -> option str)
    (build : list (str * pyval) -> R) (fail : exn -> R) (error : R -> option str) v :
  (forall e, error (fail e) <> None) ->
  error (stage_result validate build fail v) = None ->
  exists d, v = VDict d /\ stage_result validate build fail v = build d.
Proof.
  intros Hfail H. unfold stage_result in *.
  destruct v; try (now apply Hfail in H).
  destruct (validate (build d)); [now apply Hfail in H|].
  now exists d.
Qed.

Lemma absorb_invoke_summary E self member aspirasi st :
  client_raises_Exception self ->
  accepts_failed_evaluation E ->
  exists r st',
    AbsorbAgent.invoke E self member aspirasi st = (Ret r, st')
    /\ (AbsorpsiResponse.error r = None ->
        exists response c d,
          llm self (calls st) (absorb_messages member aspirasi) = Ret response
          /\ usage_cost self response = Ret c
          /\ parse_content E (AIMessage.content response) = Ret (VDict d)
          /\ r = absorb_result member aspirasi d c).
Proof.
  intros Hllm Hok.
  destruct (llm self (calls st) (absorb_messages member aspirasi))
    as [response|e] eqn:Hcall.
  - rewrite (absorb_invoke_on_response E self member aspirasi st response
               Hllm Hok Hcall).
    destruct (usage_cost self response) as [c|e] eqn:Hc;
      [|eexists _, _; split; [reflexivity | discriminate]].
    eexists _, _. split; [reflexivity|].
    destruct (parse_content E (AIMessage.content response)) as [v|e] eqn:Hp;
      [|discriminate].
    intros Hnone.
    assert (Hf : forall e, AbsorpsiResponse.error
                             (AbsorbAgent.failed member aspirasi e c) <> None)
      by (intros; discriminate).
    destruct (stage_result_built _ _ _ AbsorpsiResponse.error v Hf Hnone)
      as (d & -> & Hbuilt).
    exists response, c, d. repeat split; assumption.
  - rewrite (absorb_invoke_on_raise E self member aspirasi st e Hllm Hok Hcall).
    eexists _, _. split; [reflexivity | discriminate].
Qed.

Lemma count_relevant_zero responses :
  count_relevant responses = 0 <-> filter CompileAgent.is_relevant responses = [].
Proof.
  rewrite <- length_filter_is_relevant. apply length_zero_iff_nil.
Qed.

Lemma compile_invoke_summary E self aspirasi responses st :
  client_raises_Exception self ->
  accepts_not_relevant E ->
  accepts_failed_compilation E ->
  exists r st',
    CompileAgent.invoke E self aspirasi responses st = (Ret r, st')
    /\ (calls st' = calls st
        \/ calls st' = calls st ++ [compile_messages E aspirasi responses])
    /\ (count_relevant responses = 0 -> r = CompileAgent.not_relevant /\ st' = st)
    /\ (KompilasiResponse.status r = lit "terkumpul" ->
        KompilasiResponse.error r = None)
    /\ (KompilasiResponse.error r = None ->
        (r = CompileAgent.not_relevant /\ count_relevant responses = 0)
        \/ exists response c d,
             llm self (calls st) (compile_messages E aspirasi responses)
               = Ret response
             /\ usage_cost self response = Ret c
             /\ parse_content E (AIMessage.content response) = Ret (VDict d)
             /\ r = compile_result (filter CompileAgent.is_relevant responses) d c).
Proof.
  intros Hllm Hguard Hfail.
  destruct (filter CompileAgent.is_relevant responses) as [|r0 rest] eqn:Hrel.
  - exists CompileAgent.not_relevant, st. split.
    + unfold CompileAgent.invoke. rewrite Hrel. unfold lift, construct.
      now rewrite Hguard.
    + split; [now left|]. split; [now split|]. split; [discriminate|].
      intros _. left. split; [reflexivity|]. now apply count_relevant_zero.
  - assert (Hne : filter CompileAgent.is_relevant responses <> [])
      by (rewrite Hrel; discriminate).
    assert (Hcount : count_relevant responses <> 0).
    { intros H. apply count_relevant_zero in H. contradiction. }
    rewrite <- Hrel.
    destruct (llm self (calls st) (compile_messages E aspirasi responses))
      as [response|e] eqn:Hcall.
    + rewrite (compile_invoke_on_response E self aspirasi responses st response
                 Hllm Hfail Hne Hcall).
      cbv zeta.
      destruct (usage_cost self response) as [c|e] eqn:Hc.
      * eexists _, _. split; [reflexivity|]. split; [now right|].
        split; [intros H; contradiction|].
        destruct (parse_content E (AIMessage.content response)) as [v|e] eqn:Hp;
          [|split; discriminate].
        assert (Hf : forall e,
                   KompilasiResponse.error
                     (CompileAgent.failed
                        (filter CompileAgent.is_relevant responses) e c) <> None)
          by (intros; discriminate).
        split.
        -- unfold stage_result. destruct v; try discriminate.
           destruct (validate_KompilasiResponse E _); [discriminate | reflexivity].
        -- intros Hnone.
           destruct (stage_result_built _ _ _ KompilasiResponse.error v Hf Hnone)
             as (d & -> & Hbuilt).
           right. exists response, c, d. repeat split; assumption.
      * eexists _, _. split; [reflexivity|]. split; [now right|].
        split; [intros H; contradiction|]. split; discriminate.
    + rewrite (compile_invoke_on_raise E self aspirasi responses st e
                 Hllm Hfail Hne Hcall).
      eexists _, _. split; [reflexivity|]. split; [now right|].
      split; [intros H; contradiction|]. split; discriminate.
Qed.

Lemma followup_invoke_summary E self aspirasi kompilasi st :
  client_raises_Exception self ->
  accepts_empty_plan E ->
  exists r st',
    FollowUpAgent.invoke E self aspirasi kompilasi st = (Ret r, st')
    /\ (calls st' = calls st
        \/ calls st' = calls st ++ [followup_messages E aspirasi kompilasi])
    /\ (KompilasiResponse.status kompilasi <> lit "terkumpul" ->
        r = FollowUpAgent.empty_plan FollowUpAgent.no_valid_compilation 0%float
        /\ st' = st)
    /\ (TindakLanjutResponse.error r = None ->
        KompilasiResponse.status kompilasi = lit "terkumpul"
        /\ exists response c d,
             llm self (calls st) (followup_messages E aspirasi kompilasi)
               = Ret response
             /\ usage_cost self response = Ret c
             /\ parse_content E (AIMessage.content response) = Ret (VDict d)
             /\ r = followup_result d c).
Proof.
  intros Hllm Hok.
  destruct (str_eqb (KompilasiResponse.status kompilasi) (lit "terkumpul")) eqn:Heq.
  - apply str_eqb_eq in Heq.
    destruct (llm self (calls st) (followup_messages E aspirasi kompilasi))
      as [response|e] eqn:Hcall.
    + rewrite (followup_invoke_on_response E self aspirasi kompilasi st response
                 Hllm Hok Heq Hcall).
      destruct (usage_cost self response) as [c|e] eqn:Hc.
      * eexists _, _. split; [reflexivity|]. split; [now right|].
        split; [intros H; contradiction|].
        destruct (parse_content E (AIMessage.content response)) as [v|e] eqn:Hp;
          [|discriminate].
        intros Hnone. split; [exact Heq|].
        assert (Hf : forall e,
                   TindakLanjutResponse.error
                     (FollowUpAgent.empty_plan (str_of_exn e) c) <> None)
          by (intros; discriminate).
        destruct (stage_result_built _ _ _ TindakLanjutResponse.error v Hf Hnone)
          as (d & -> & Hbuilt).
        exists response, c, d. repeat split; assumption.
      * eexists _, _. split; [reflexivity|]. split; [now right|].
        split; [intros H; contradiction | discriminate].
    + rewrite (followup_invoke_on_raise E self aspirasi kompilasi st e
                 Hllm Hok Heq Hcall).
      eexists _, _. split; [reflexivity|]. split; [now right|].
      split; [intros H; contradiction | discriminate].
  - exists (FollowUpAgent.empty_plan FollowUpAgent.no_valid_compilation 0%float), st.
    split.
    + unfold FollowUpAgent.invoke. rewrite Heq. simpl negb. cbv iota.
      unfold lift, construct. now rewrite Hok.
    + split; [now left|]. split; [now split | discriminate].
Qed.

(** X11.  A result without an error comes from an answer.  When the error
    field of a returned result is [None], the client's call returned, its
    usage was charged and its content decoded to a dictionary, and the
    result is the object built from that dictionary -- or, for the
    aggregation, nothing was relevant and the result is the one of the
    guard.  The plan of the third stage has no error only if the
    aggregation it was given has status "terkumpul". *)
Theorem result_without_error_comes_from_an_answer
    (E : Env) (self : BaseAgent) (member : DPRMember.t) (aspirasi : Aspirasi.t)
    (responses : list AbsorpsiResponse.t) (kompilasi : KompilasiResponse.t)
    (st : store) :
  client_raises_Exception self ->
  accepts_failed_evaluation E ->
  accepts_not_relevant E ->
  accepts_failed_compilation E ->
  accepts_empty_plan E ->
  (exists r st',
     AbsorbAgent.invoke E self member aspirasi st = (Ret r, st')
     /\ (AbsorpsiResponse.error r = None ->
         exists response c d,
           llm self (calls st) (absorb_messages member aspirasi) = Ret response
           /\ usage_cost self response = Ret c
           /\ parse_content E (AIMessage.content response) = Ret (VDict d)
           /\ r = absorb_result member aspirasi d c))
  /\ (exists r st',
        CompileAgent.invoke E self aspirasi responses st = (Ret r, st')
        /\ (KompilasiResponse.error r = None ->
            (r = CompileAgent.not_relevant /\ count_relevant responses = 0)
            \/ exists response c d,
                 llm self (calls st) (compile_messages E aspirasi responses)
                   = Ret response
                 /\ usage_cost self response = Ret c
                 /\ parse_content E (AIMessage.content response) = Ret (VDict d)
                 /\ r = compile_result
                          (filter CompileAgent.is_relevant responses) d c))
  /\ (exists r st',
        FollowUpAgent.invoke E self aspirasi kompilasi st = (Ret r, st')
        /\ (TindakLanjutResponse.error r = None ->
            KompilasiResponse.status kompilasi = lit "terkumpul"
            /\ exists response c d,
                 llm self (calls st) (followup_messages E aspirasi kompilasi)
                   = Ret response
                 /\ usage_cost self response = Ret c
                 /\ parse_content E (AIMessage.content response) = Ret (VDict d)
                 /\ r = followup_result d c)).
Proof.
  intros Hllm Habsorb Hguard Hcompile Hplan. split; [|split].
  - apply absorb_invoke_summary; assumption.
  - destruct (compile_invoke_summary E self aspirasi responses st
                Hllm Hguard Hcompile) as (r & st' & Hrun & _ & _ & _ & Hnone).
    exists r, st'. split; assumption.
  - destruct (followup_invoke_summary E self aspirasi kompilasi st Hllm Hplan)
      as (r & st' & Hrun & _ & _ & Hnone).
    exists r, st'. split; assumption.
Qed.

Lemma result_without_error_comes_from_an_answer_witness :
  client_raises_Exception Instances.helpful
  /\ accepts_failed_evaluation Instances.env
  /\ accepts_not_relevant Instances.env
  /\ accepts_failed_compilation Instances.env
  /\ accepts_empty_plan Instances.env
  /\ exists r st',
       FollowUpAgent.invoke Instances.env Instances.helpful Instances.aspirasi
         (Instances.collected 2) Instances.fresh = (Ret r, st')
       /\ (TindakLanjutResponse.error r = None ->
           KompilasiResponse.status (Instances.collected 2) = lit "terkumpul"
           /\ exists response c d,
                llm Instances.helpful (calls Instances.fresh)
                  (followup_messages Instances.env Instances.aspirasi
                     (Instances.collected 2)) = Ret response
                /\ usage_cost Instances.helpful response = Ret c
                /\ parse_content Instances.env (AIMessage.content response)
                   = Ret (VDict d)
                /\ r = followup_result d c).
Proof.
  assert (H1 : client_raises_Exception Instances.helpful)
    by (intros log messages e H; discriminate H).
  assert (H2 : accepts_failed_evaluation Instances.env)
    by (intros m a e c; reflexivity).
  assert (H3 : accepts_not_relevant Instances.env) by reflexivity.
  assert (H4 : accepts_failed_compilation Instances.env)
    by (intros rs e c; reflexivity).
  assert (H5 : accepts_empty_plan Instances.env) by (intros msg c; reflexivity).
  repeat (split; [assumption|]).
  exact (proj2 (proj2 (result_without_error_comes_from_an_answer Instances.env
                         Instances.helpful Instances.member Instances.aspirasi
                         Instances.two_relevant (Instances.collected 2)
                         Instances.fresh H1 H2 H3 H4 H5))).
Defined.

(** ** From the aggregation to the plan *)

(** X12.  Feeding the result of [CompileAgent.invoke] to
    [FollowUpAgent.invoke]: both return.  When the aggregation is not
    "terkumpul" -- nothing was relevant, or the aggregation failed -- the
    planning stage issues no call and returns the plan that only says that
    there is no valid compilation, at cost 0.0; when nothing was relevant
    the two stages issue no call at all.  A plan without an error means
    an aggregation with status "terkumpul" and without an error.  The two
    stages never issue more than two calls. *)
Theorem plan_follows_the_aggregation
    (E : Env) (compiler planner : BaseAgent) (aspirasi : Aspirasi.t)
    (responses : list AbsorpsiResponse.t) (st : store) :
  client_raises_Exception compiler ->
  client_raises_Exception planner ->
  accepts_not_relevant E ->
  accepts_failed_compilation E ->
  accepts_empty_plan E ->
  exists k st1 p st2,
    CompileAgent.invoke E compiler aspirasi responses st = (Ret k, st1)
    /\ FollowUpAgent.invoke E planner aspirasi k st1 = (Ret p, st2)
    /\ (KompilasiResponse.status k <> lit "terkumpul" ->
        p = FollowUpAgent.empty_plan FollowUpAgent.no_valid_compilation 0%float
        /\ calls st2 = calls st1)
    /\ (count_relevant responses = 0 -> calls st2 = calls st)
    /\ (TindakLanjutResponse.error p = None ->
        KompilasiResponse.status k = lit "terkumpul"
        /\ KompilasiResponse.error k = None)
    /\ List.length (calls st2) <= List.length (calls st) + 2.
Proof.
  intros Hc Hp Hguard Hfail Hplan.
  destruct (compile_invoke_summary E compiler aspirasi responses st Hc Hguard Hfail)
    as (k & st1 & Hk & Hcalls1 & Hzero & Hcollected & _).
  destruct (followup_invoke_summary E planner aspirasi k st1 Hp Hplan)
    as (p & st2 & Hrun & Hcalls2 & Hstop & Hnone).
  exists k, st1, p, st2. split; [exact Hk|]. split; [exact Hrun|].
  split; [|split; [|split]].
  - intros Hs. destruct (Hstop Hs) as [-> ->]. now split.
  - intros H0. destruct (Hzero H0) as [-> ->].
    assert (Hs : KompilasiResponse.status CompileAgent.not_relevant
                 <> lit "terkumpul") by discriminate.
    now destruct (Hstop Hs) as [_ ->].
  - intros He. destruct (Hnone He) as [Hs _]. split; [exact Hs | now apply Hcollected].
  - destruct Hcalls1 as [H1|H1], Hcalls2 as [H2|H2]; rewrite H2, H1;
      rewrite ?length_app; simpl; lia.
Qed.

Lemma plan_follows_the_aggregation_witness :
  client_raises_Exception Instances.garbled
  /\ client_raises_Exception Instances.helpful
  /\ accepts_not_relevant Instances.env
  /\ accepts_failed_compilation Instances.env
  /\ accepts_empty_plan Instances.env
  /\ exists k st1 p st2,
       CompileAgent.invoke Instances.env Instances.garbled Instances.aspirasi
         Instances.two_relevant Instances.fresh = (Ret k, st1)
       /\ FollowUpAgent.invoke Instances.env Instances.helpful Instances.aspirasi
            k st1 = (Ret p, st2)
       /\ (KompilasiResponse.status k <> lit "terkumpul" ->
           p = FollowUpAgent.empty_plan FollowUpAgent.no_valid_compilation 0%float
           /\ calls st2 = calls st1)
       /\ (count_relevant Instances.two_relevant = 0 ->
           calls st2 = calls Instances.fresh)
       /\ (TindakLanjutResponse.error p = None ->
           KompilasiResponse.status k = lit "terkumpul"
           /\ KompilasiResponse.error k = None)
       /\ List.length (calls st2) <= List.length (calls Instances.fresh) + 2.
Proof.
  assert (H1 : client_raises_Exception Instances.garbled)
    by (intros log messages e H; discriminate H).
  assert (H2 : client_raises_Exception Instances.helpful)
    by (intros log messages e H; discriminate H).
  assert (H3 : accepts_not_relevant Instances.env) by reflexivity.
  assert (H4 : accepts_failed_compilation Instances.env)
    by (intros rs e c; reflexivity).
  assert (H5 : accepts_empty_plan Instances.env) by (intros msg c; reflexivity).
  repeat (split; [assumption|]).
  exact (plan_follows_the_aggregation Instances.env Instances.garbled
           Instances.helpful Instances.aspirasi Instances.two_relevant
           Instances.fresh H1 H2 H3 H4 H5).
Defined.

(** ** More on the parser *)

Lemma lstrip_app (a b : str) :
  lstrip (a ++ b) = match lstrip a with [] => lstrip b | _ :: _ => lstrip a ++ b end.
Proof.
  induction a as [|c a IH]; [reflexivity|].
  simpl. destruct (isspace c); [exact IH | reflexivity].
Qed.

Lemma lstrip_spaces (w : str) : forallb isspace w = true -> lstrip w = [].
Proof.
  induction w as [|c w IH]; [reflexivity|].
  simpl. intros H. apply andb_true_iff in H as [Hc Hw]. rewrite Hc. now apply IH.
Qed.

Lemma lstrip_space_prefix (w t : str) :
  forallb isspace w = true -> lstrip (w ++ t) = lstrip t.
Proof. intros H. now rewrite lstrip_app, (lstrip_spaces w H). Qed.

Lemma lstrip_stops (c : N) (t : str) : isspace c = false -> lstrip (c :: t) = c :: t.
Proof. intros H. simpl. now rewrite H. Qed.

(** [lstrip] before a text that starts with another character than
    whitespace. *)
Lemma lstrip_before (a : str) (c : N) (t : str) :
  isspace c = false -> lstrip (a ++ c :: t) = lstrip a ++ c :: t.
Proof.
  intros H. rewrite lstrip_app. destruct (lstrip a); [|reflexivity].
  now rewrite lstrip_stops.
Qed.

Lemma rstrip_space_suffix (t w : str) :
  forallb isspace w = true -> rstrip (t ++ w) = rstrip t.
Proof.
  intros H. unfold rstrip. rewrite rev_app_distr.
  now rewrite lstrip_space_prefix by now apply forallb_rev.
Qed.

(** [rstrip] after a text that ends with another character than
    whitespace. *)
Lemma rstrip_after (a : str) (c : N) (b : str) :
  isspace c = false -> rstrip ((a ++ [c]) ++ b) = (a ++ [c]) ++ rstrip b.
Proof.
  intros H. unfold rstrip. rewrite !rev_app_distr. simpl rev at 2. simpl app at 2.
  rewrite lstrip_before by assumption.
  rewrite rev_app_distr. simpl rev at 1. rewrite rev_involutive.
  now rewrite <- app_assoc.
Qed.

Lemma rstrip_stops (a : str) (c : N) : isspace c = false -> rstrip (a ++ [c]) = a ++ [c].
Proof.
  intros H. rewrite <- (app_nil_r (a ++ [c])) at 1.
  rewrite rstrip_after by assumption. apply app_nil_r.
Qed.

(** Whitespace around a text does not change what [strip] leaves. *)
Lemma strip_padding (w1 b w2 : str) :
  forallb isspace w1 = true ->
  forallb isspace w2 = true ->
  strip (w1 ++ b ++ w2) = strip b.
Proof.
  intros H1 H2. unfold strip. rewrite lstrip_space_prefix by assumption.
  rewrite lstrip_app. destruct (lstrip b) as [|c t] eqn:Hb.
  - now rewrite (lstrip_spaces w2 H2).
  - now apply rstrip_space_suffix.
Qed.

Lemma space_is_not (c d : N) : isspace c = true -> isspace d = false -> N.eqb d c = false.
Proof.
  intros Hc Hd. destruct (N.eqb_spec d c); [|reflexivity]. subst. congruence.
Qed.

Lemma startswith_app (p r : str) : startswith (p ++ r) p = true.
Proof. apply startswith_iff. now exists r. Qed.

Lemma endswith_app (r p : str) : endswith (r ++ p) p = true.
Proof. apply endswith_iff. now exists r. Qed.

(** A text that ends with whitespace does not end with a fence. *)
Lemma endswith_fence_after_space (t w : str) :
  w <> [] ->
  forallb isspace w = true ->
  endswith (t ++ w) (lit "```") = false.
Proof.
  intros Hne Hw. destruct (exists_last Hne) as (w' & c & ->).
  assert (Hc : isspace c = true).
  { rewrite forallb_app in Hw. apply andb_true_iff in Hw as [_ Hc].
    simpl in Hc. now rewrite andb_true_r in Hc. }
  unfold endswith. rewrite app_assoc, rev_app_distr.
  change (lit "```") with [96; 96; 96]%N. cbn [rev app startswith].
  now rewrite (space_is_not c 96 Hc eq_refl).
Qed.

(** A text that starts with whitespace does not start with a fence. *)
Lemma startswith_fence_after_space (w t : str) (tag : str) :
  w <> [] ->
  forallb isspace w = true ->
  startswith (w ++ t) (lit "```" ++ tag) = false.
Proof.
  intros Hne Hw. destruct w as [|c w]; [contradiction|].
  simpl in Hw. apply andb_true_iff in Hw as [Hc _].
  change (lit "```") with [96; 96; 96]%N. cbn [app startswith].
  now rewrite (space_is_not c 96 Hc eq_refl).
Qed.

Lemma slice_after_json_marker (r : str) : slice_from 7 (lit "```json" ++ r) = r.
Proof. exact (slice_from_prefix (lit "```json") r). Qed.

Lemma slice_after_fence (r : str) : slice_from 3 (lit "```" ++ r) = r.
Proof. exact (slice_from_prefix (lit "```") r). Qed.

Lemma slice_before_fence (r : str) : slice_until_last 3 (r ++ lit "```") = r.
Proof. exact (slice_until_last_suffix r (lit "```")). Qed.

(** X13.  A payload between fences reaches [json.loads] trimmed and
    otherwise untouched, whatever it is: for a [```json] marker or a bare
    [```] fence, whitespace (at least one character, as a line feed) before
    the payload [b], any whitespace after it and a closing [```], the
    parser returns what [json.loads] makes of [b.strip()]. *)
Theorem fenced_payload_reaches_json_loads (E : Env) (b w1 w2 : str) :
  w1 <> [] ->
  forallb isspace w1 = true ->
  forallb isspace w2 = true ->
  parse_content E (VStr (lit "```json" ++ w1 ++ b ++ w2 ++ lit "```"))
    = of_sum (json_loads E (strip b))
  /\ parse_content E (VStr (lit "```" ++ w1 ++ b ++ w2 ++ lit "```"))
     = of_sum (json_loads E (strip b)).
Proof.
  intros Hne H1 H2.
  assert (Hinner : forall s,
             s = w1 ++ b ++ w2 ++ lit "```" ->
             strip (if endswith
                         (if startswith s (lit "```") then slice_from 3 s else s)
                         (lit "```")
                    then slice_until_last 3
                           (if startswith s (lit "```") then slice_from 3 s else s)
                    else if startswith s (lit "```") then slice_from 3 s else s)
             = strip b).
  { intros s ->.
    rewrite (startswith_fence_after_space w1 _ [] Hne H1).
    replace (w1 ++ b ++ w2 ++ lit "```") with ((w1 ++ b ++ w2) ++ lit "```")
      by now rewrite <- !app_assoc.
    rewrite endswith_app.
    rewrite slice_before_fence.
    now apply strip_padding. }
  split; unfold parse_content, strip_fences; f_equal; f_equal.
  - rewrite startswith_app.
    rewrite slice_after_json_marker.
    now apply Hinner.
  - assert (Hj : startswith (lit "```" ++ w1 ++ b ++ w2 ++ lit "```")
                   (lit "```json") = false).
    { destruct w1 as [|c w1]; [contradiction|].
      simpl in H1. apply andb_true_iff in H1 as [Hc _].
      change (lit "```json") with ([96; 96; 96] ++ [106; 115; 111; 110])%N.
      change (lit "```") with [96; 96; 96]%N. cbn [app startswith].
      rewrite !N.eqb_refl. cbn [andb].
      now rewrite (space_is_not c 106 Hc eq_refl). }
    rewrite Hj. rewrite startswith_app. rewrite slice_after_fence.
    replace (w1 ++ b ++ w2 ++ lit "```") with ((w1 ++ b ++ w2) ++ lit "```")
      by now rewrite <- !app_assoc.
    rewrite endswith_app, slice_before_fence.
    now apply strip_padding.
Qed.

Lemma fenced_payload_reaches_json_loads_witness :
  nl <> []
  /\ forallb isspace nl = true
  /\ parse_content Instances.env
       (VStr (lit "```json" ++ nl ++ Instances.incomplete_reply ++ nl ++ lit "```"))
     = of_sum (json_loads Instances.env (strip Instances.incomplete_reply))
  /\ parse_content Instances.env
       (VStr (lit "```" ++ nl ++ Instances.incomplete_reply ++ nl ++ lit "```"))
     = of_sum (json_loads Instances.env (strip Instances.incomplete_reply)).
Proof.
  assert (H1 : nl <> []) by discriminate.
  assert (H2 : forallb isspace nl = true) by reflexivity.
  repeat (split; [assumption|]).
  exact (fenced_payload_reaches_json_loads Instances.env
           Instances.incomplete_reply nl nl H1 H2 H2).
Defined.

(** X14.  A fence is recognised only as the very first and the very last
    characters of the content, before the whitespace is trimmed.
    Whitespace after the closing fence (a final line feed) leaves that
    fence at the end of the text handed to [json.loads]; whitespace before
    the [```json] marker leaves the marker at its start. *)
Theorem whitespace_outside_the_fence_keeps_it (m w : str) :
  w <> [] ->
  forallb isspace w = true ->
  strip_fences (lit "```json" ++ nl ++ m ++ lit "```" ++ w)
    = lstrip m ++ lit "```"
  /\ strip_fences (w ++ lit "```json" ++ m ++ lit "```")
     = lit "```json" ++ rstrip m.
Proof.
  intros Hne Hw. split; unfold strip_fences.
  - rewrite startswith_app, slice_after_json_marker.
    assert (Hno : startswith (nl ++ m ++ lit "```" ++ w) (lit "```") = false).
    { apply (startswith_fence_after_space nl _ []); [discriminate | reflexivity]. }
    rewrite Hno.
    assert (Hend : endswith (nl ++ m ++ lit "```" ++ w) (lit "```") = false).
    { replace (nl ++ m ++ lit "```" ++ w) with ((nl ++ m ++ lit "```") ++ w)
        by now rewrite <- !app_assoc.
      now apply endswith_fence_after_space. }
    rewrite Hend. unfold strip.
    rewrite (lstrip_space_prefix nl) by reflexivity.
    change (lit "```" ++ w) with (96 :: (96 :: 96 :: w))%N.
    rewrite lstrip_before by reflexivity.
    change (lstrip m ++ 96 :: 96 :: 96 :: w)%N
      with (lstrip m ++ [96; 96; 96] ++ w)%N.
    rewrite app_assoc, rstrip_space_suffix by assumption.
    change [96; 96; 96]%N with ([96; 96] ++ [96])%N.
    rewrite app_assoc, rstrip_stops by reflexivity.
    now rewrite <- app_assoc.
  - assert (Hj : startswith (w ++ lit "```json" ++ m ++ lit "```")
                   (lit "```json") = false)
      by exact (startswith_fence_after_space w _ (lit "json") Hne Hw).
    assert (Hf : startswith (w ++ lit "```json" ++ m ++ lit "```")
                   (lit "```") = false)
      by exact (startswith_fence_after_space w _ [] Hne Hw).
    rewrite Hj, Hf.
    replace (w ++ lit "```json" ++ m ++ lit "```")
      with ((w ++ lit "```json" ++ m) ++ lit "```")
      by now rewrite <- !app_assoc.
    rewrite endswith_app, slice_before_fence. unfold strip.
    rewrite lstrip_space_prefix by assumption.
    change (lit "```json" ++ m) with (96 :: (lit "``json" ++ m))%N.
    rewrite lstrip_stops by reflexivity.
    change (96 :: (lit "``json" ++ m))%N with ((lit "```jso" ++ [110]) ++ m)%N.
    rewrite rstrip_after by reflexivity. reflexivity.
Qed.

Lemma whitespace_outside_the_fence_keeps_it_witness :
  nl <> []
  /\ forallb isspace nl = true
  /\ strip_fences (lit "```json" ++ nl ++ (Instances.bare_object ++ nl)
                   ++ lit "```" ++ nl)
     = lstrip (Instances.bare_object ++ nl) ++ lit "```"
  /\ strip_fences (nl ++ lit "```json" ++ (nl ++ Instances.bare_object ++ nl)
                   ++ lit "```")
     = lit "```json" ++ rstrip (nl ++ Instances.bare_object ++ nl).
Proof.
  assert (H1 : nl <> []) by discriminate.
  assert (H2 : forallb isspace nl = true) by reflexivity.
  repeat (split; [assumption|]).
  split.
  - exact (proj1 (whitespace_outside_the_fence_keeps_it
                    (Instances.bare_object ++ nl) nl H1 H2)).
  - exact (proj2 (whitespace_outside_the_fence_keeps_it
                    (nl ++ Instances.bare_object ++ nl) nl H1 H2)).
Defined.

(** X15.  The parser neither adds nor changes a character: the text it
    hands to [json.loads] is a contiguous part of the content, so it is
    never longer than the content. *)
Theorem cleaned_text_is_part_of_the_content (s : str) :
  (exists before after, s = before ++ strip_fences s ++ after)
  /\ List.length (strip_fences s) <= List.length s.
Proof.
  assert (H : exists before after, s = before ++ strip_fences s ++ after).
  { unfold strip_fences.
    set (s1 := if startswith s (lit "```json") then slice_from 7 s else s).
    set (s2 := if startswith s1 (lit "```") then slice_from 3 s1 else s1).
    set (s3 := if endswith s2 (lit "```") then slice_until_last 3 s2 else s2).
    assert (H1 : exists l, s = l ++ s1).
    { destruct (removes_prefix_if (lit "```json") s) as [H|[_ H]].
      - eexists. exact H.
      - exists []. symmetry. exact H. }
    assert (H2 : exists l, s1 = l ++ s2).
    { destruct (removes_prefix_if (lit "```") s1) as [H|[_ H]].
      - eexists. exact H.
      - exists []. symmetry. exact H. }
    assert (H3 : exists r, s2 = s3 ++ r).
    { destruct (removes_suffix_if (lit "```") s2) as [H|[_ H]].
      - eexists. exact H.
      - exists []. rewrite app_nil_r. symmetry. exact H. }
    destruct H1 as [l1 E1], H2 as [l2 E2], H3 as [r3 E3].
    destruct (strip_trims s3) as (l4 & r4 & E4 & _).
    exists (l1 ++ l2 ++ l4), (r4 ++ r3).
    rewrite E1, E2, E3. rewrite E4 at 1. now rewrite <- !app_assoc. }
  split; [exact H|].
  destruct H as (before & after & H). rewrite H at 2.
  rewrite !length_app. lia.
Qed.

(** ** What [except Exception] lets through *)

(** X16.  An exception of the client that is not an instance of
    [Exception] (a cancellation of the awaiting task, an interpreter exit)
    is not turned into a result: past its guard each [invoke] raises it,
    after the call was issued. *)
Theorem other_exceptions_pass_through
    (E : Env) (self : BaseAgent) (member : DPRMember.t) (aspirasi : Aspirasi.t)
    (responses : list AbsorpsiResponse.t) (kompilasi : KompilasiResponse.t)
    (st : store) (e : exn) :
  is_Exception e = false ->
  filter CompileAgent.is_relevant responses <> [] ->
  KompilasiResponse.status kompilasi = lit "terkumpul" ->
  (llm self (calls st) (absorb_messages member aspirasi) = Raise e ->
   AbsorbAgent.invoke E self member aspirasi st
   = (Raise e, called st (absorb_messages member aspirasi) 0%float))
  /\ (llm self (calls st) (compile_messages E aspirasi responses) = Raise e ->
      CompileAgent.invoke E self aspirasi responses st
      = (Raise e, called st (compile_messages E aspirasi responses) 0%float))
  /\ (llm self (calls st) (followup_messages E aspirasi kompilasi) = Raise e ->
      FollowUpAgent.invoke E self aspirasi kompilasi st
      = (Raise e, called st (followup_messages E aspirasi kompilasi) 0%float)).
Proof.
  intros He Hne Hstatus. split; [|split]; intros Hcall.
  - unfold AbsorbAgent.invoke, bind at 1, set_cost, try_except.
    fold (started st). fold (absorb_messages member aspirasi).
    rewrite (absorb_attempt_fails _ _ _ _ _ _ _ _
               (call_and_parse_call_failed E self _ (started st) e eq_refl Hcall)).
    now rewrite He.
  - unfold CompileAgent.invoke, compile_messages in *.
    destruct (filter CompileAgent.is_relevant responses) as [|r0 rest];
      [contradiction|].
    unfold bind at 1, set_cost, try_except. fold (started st).
    rewrite (compile_attempt_fails _ _ _ _ _ _ _
               (call_and_parse_call_failed E self _ (started st) e eq_refl Hcall)).
    now rewrite He.
  - unfold FollowUpAgent.invoke.
    rewrite Hstatus, str_eqb_refl. change (negb true) with false.
    cbv beta iota zeta. unfold bind at 1, set_cost, try_except. fold (started st).
    fold (followup_messages E aspirasi kompilasi).
    rewrite (followup_attempt_fails _ _ _ _ _ _
               (call_and_parse_call_failed E self _ (started st) e eq_refl Hcall)).
    now rewrite He.
Qed.

Lemma other_exceptions_pass_through_witness :
  is_Exception {| is_Exception := false; str_of_exn := [] |} = false
  /\ filter CompileAgent.is_relevant Instances.two_relevant <> []
  /\ KompilasiResponse.status (Instances.collected 2) = lit "terkumpul"
  /\ AbsorbAgent.invoke Instances.env Instances.cancelled Instances.member
       Instances.aspirasi Instances.fresh
     = (Raise {| is_Exception := false; str_of_exn := [] |},
        called Instances.fresh
          (absorb_messages Instances.member Instances.aspirasi) 0%float)
  /\ CompileAgent.invoke Instances.env Instances.cancelled Instances.aspirasi
       Instances.two_relevant Instances.fresh
     = (Raise {| is_Exception := false; str_of_exn := [] |},
        called Instances.fresh
          (compile_messages Instances.env Instances.aspirasi
             Instances.two_relevant) 0%float)
  /\ FollowUpAgent.invoke Instances.env Instances.cancelled Instances.aspirasi
       (Instances.collected 2) Instances.fresh
     = (Raise {| is_Exception := false; str_of_exn := [] |},
        called Instances.fresh
          (followup_messages Instances.env Instances.aspirasi
             (Instances.collected 2)) 0%float).
Proof.
  assert (H1 : is_Exception {| is_Exception := false; str_of_exn := [] |} = false)
    by reflexivity.
  assert (H2 : filter CompileAgent.is_relevant Instances.two_relevant <> [])
    by discriminate.
  assert (H3 : KompilasiResponse.status (Instances.collected 2) = lit "terkumpul")
    by reflexivity.
  repeat (split; [assumption|]).
  destruct (other_exceptions_pass_through Instances.env Instances.cancelled
              Instances.member Instances.aspirasi Instances.two_relevant
              (Instances.collected 2) Instances.fresh _ H1 H2 H3)
    as (Ha & Hc & Hf).
  split; [|split].
  - apply Ha; reflexivity.
  - apply Hc; reflexivity.
  - apply Hf; reflexivity.
Defined.
